(** * Virtual on-screen controls (src/virtual_controls.c): a shallow embedding

    The C module keeps its state in file-level statics (the button array,
    the button count, the window size and four GL handles) and talks to two
    libraries, SDL2 and OpenGL.  The embedding keeps that shape:

    - the statics are one record, [VC], threaded through a small state monad;
    - every library call is an [ExtCall]; the monad records each call with
      the value the library answered, and the answers come from an arbitrary
      [respond] function of the call history, so that every theorem holds
      for every SDL/GL implementation;
    - C [float] is IEEE-754 binary32, computed with the Standard Library's
      executable [SpecFloat] operations (precision 24, emax 128); float
      expressions are evaluated in binary32 itself, as the ARM and x86-64
      targets of the program do;
    - C [int] is a [Z]; the only [int] arithmetic of the module that can
      leave the 32-bit range ([px + pw] in the renderer) is wrapped. *)

From Stdlib Require Import ZArith List Bool String Lia.
From Stdlib Require Import Floats.SpecFloat.
From stdpp Require Import base list.

Local Open Scope Z_scope.

(* ===================================================================== *)
(** ** C [float] as binary32 *)
(* ===================================================================== *)

Module F32.

Definition prec : Z := 24.
Definition emax : Z := 128.

Definition t : Type := spec_float.

Definition zero : t := S754_zero false.

Definition add : t -> t -> t := SFadd prec emax.
Definition sub : t -> t -> t := SFsub prec emax.
Definition mul : t -> t -> t := SFmul prec emax.
Definition div : t -> t -> t := SFdiv prec emax.

(** [a <= b] and [a >= b] of C: false as soon as one side is a NaN. *)
Definition le (a b : t) : bool := SFleb a b.
Definition ge (a b : t) : bool := SFleb b a.
Definition lt (a b : t) : bool := SFltb a b.

(** [(float) n] for an [int] n: round to nearest, ties to even. *)
Definition of_int (n : Z) : t := binary_normalize prec emax n 0 false.

(** The literal [n/d] written in decimal in the source ([0.05f] is
    [dec 5 100]): numerator and denominator are exact in binary32 and
    IEEE division rounds the exact quotient once, which is what the
    compiler does with the decimal literal. *)
Definition dec (n d : Z) : t := div (of_int n) (of_int d).

Definition INT_MIN : Z := - 2 ^ 31.
Definition INT_MAX : Z := 2 ^ 31 - 1.

(** [(int) f]: truncation toward zero.  C leaves the conversion undefined
    when the truncated value is not an [int] (or [f] is not finite); the
    model answers [INT_MIN] there, as x86 does. *)
Definition to_int (f : t) : Z :=
  match f with
  | S754_zero _ => 0
  | S754_finite s m e =>
      let mag := if 0 <=? e then Z.shiftl (Zpos m) e
                 else Z.shiftr (Zpos m) (- e) in
      let v := if s then - mag else mag in
      if (INT_MIN <=? v) && (v <=? INT_MAX) then v else INT_MIN
  | _ => INT_MIN
  end.

(** Canonical binary32 values: what a C [float] object can hold. *)
Definition valid (f : t) : bool := valid_binary prec emax f.

(** The number a finite value stands for, scaled by [2^149] so that it is
    an integer for every canonical binary32 value (whose exponent is at
    least -149); zero for a zero. *)
Definition mag (m : positive) (e : Z) : Z := Zpos m * 2 ^ (e + 149).

Definition scaled (f : t) : Z :=
  match f with
  | S754_finite s m e => if s then - mag m e else mag m e
  | _ => 0
  end.

(** The order of the extended reals on what the values stand for; a NaN is
    related to nothing. *)
Definition num_le (a b : t) : Prop :=
  match a, b with
  | S754_nan, _ | _, S754_nan => False
  | S754_infinity true, _ => True
  | _, S754_infinity false => True
  | S754_infinity false, _ => False
  | _, S754_infinity true => False
  | _, _ => scaled a <= scaled b
  end.

End F32.

(** [int] addition with the result reduced to 32 bits, two's complement. *)
Definition wrap_int (z : Z) : Z := (z + 2 ^ 31) mod 2 ^ 32 - 2 ^ 31.

(* ===================================================================== *)
(** ** SDL2 and OpenGL vocabulary used by the module *)
(* ===================================================================== *)

(** Values of the SDL2 headers (SDL_events.h, SDL_keycode.h). *)
Definition SDL_KEYDOWN : Z := 0x300.
Definition SDL_KEYUP : Z := 0x301.
Definition SDL_FINGERDOWN : Z := 0x700.
Definition SDL_FINGERUP : Z := 0x701.
Definition SDL_FINGERMOTION : Z := 0x702.
Definition SDL_RELEASED : Z := 0.
Definition SDL_PRESSED : Z := 1.

Definition SDLK_RETURN : Z := 13.
Definition SDLK_RIGHT : Z := Z.lor 79 (Z.shiftl 1 30).
Definition SDLK_LEFT : Z := Z.lor 80 (Z.shiftl 1 30).
Definition SDLK_DOWN : Z := Z.lor 81 (Z.shiftl 1 30).
Definition SDLK_UP : Z := Z.lor 82 (Z.shiftl 1 30).

(** The fields of [SDL_TouchFingerEvent] and [SDL_MouseButtonEvent] that the
    handlers read. *)
Record SDL_TouchFingerEvent := mkFinger {
  tf_type : Z;
  tf_x : F32.t;
  tf_y : F32.t
}.

Record SDL_MouseButtonEvent := mkMouse {
  mb_state : Z;
  mb_x : Z;
  mb_y : Z
}.

(** The keyboard member of the [SDL_Event] union, as [synthesize_key] fills
    it after zeroing the whole event. *)
Record SDL_Event := mkKeyEvent {
  e_type : Z;
  e_timestamp : Z;
  e_windowID : Z;
  e_state : Z;
  e_repeat : Z;
  e_scancode : Z;
  e_sym : Z;
  e_mod : Z
}.

Inductive GLenum :=
| GL_VERTEX_SHADER | GL_FRAGMENT_SHADER | GL_COMPILE_STATUS | GL_LINK_STATUS
| GL_DEPTH_TEST | GL_BLEND | GL_SRC_ALPHA | GL_ONE_MINUS_SRC_ALPHA
| GL_ARRAY_BUFFER | GL_DYNAMIC_DRAW | GL_FLOAT | GL_TRIANGLES.

Definition GL_FALSE : Z := 0.
Definition GL_TRUE : Z := 1.

(** The local [Vertex] struct of [VirtualControls_Draw]. *)
Record Vertex := mkVertex {
  v_x : F32.t; v_y : F32.t;
  v_r : F32.t; v_g : F32.t; v_b : F32.t; v_a : F32.t
}.

(** Library calls, indexed by the type of what the library hands back
    (through the return value or through an out-pointer). *)
Inductive ExtCall : Type -> Type :=
| SDL_GetTicks : ExtCall Z
| SDL_GetScancodeFromKey (key : Z) : ExtCall Z
| SDL_PushEvent (e : SDL_Event) : ExtCall Z
| SDL_Log (fmt : string) (arg : string) : ExtCall unit
| glCreateShader (type : GLenum) : ExtCall Z
| glShaderSource (shader : Z) (count : Z) (src : string) : ExtCall unit
| glCompileShader (shader : Z) : ExtCall unit
| glGetShaderiv (shader : Z) (pname : GLenum) : ExtCall Z
| glGetShaderInfoLog (shader : Z) (bufSize : Z) : ExtCall string
| glCreateProgram : ExtCall Z
| glAttachShader (program shader : Z) : ExtCall unit
| glBindAttribLocation (program index : Z) (name : string) : ExtCall unit
| glLinkProgram (program : Z) : ExtCall unit
| glGetProgramiv (program : Z) (pname : GLenum) : ExtCall Z
| glGetProgramInfoLog (program : Z) (bufSize : Z) : ExtCall string
| glDeleteShader (shader : Z) : ExtCall unit
| glGenBuffers (n : Z) : ExtCall Z
| glIsEnabled (cap : GLenum) : ExtCall Z
| glDisable (cap : GLenum) : ExtCall unit
| glEnable (cap : GLenum) : ExtCall unit
| glDepthMask (flag : Z) : ExtCall unit
| glBlendFunc (sfactor dfactor : GLenum) : ExtCall unit
| glUseProgram (program : Z) : ExtCall unit
| glBindBuffer (target : GLenum) (buffer : Z) : ExtCall unit
| glBufferData (target : GLenum) (size : Z) (data : list Vertex)
    (usage : GLenum) : ExtCall unit
| glEnableVertexAttribArray (index : Z) : ExtCall unit
| glDisableVertexAttribArray (index : Z) : ExtCall unit
| glVertexAttribPointer (index size : Z) (type : GLenum) (normalized : Z)
    (stride offset : Z) : ExtCall unit
| glDrawArrays (mode : GLenum) (first count : Z) : ExtCall unit
| glDeleteBuffers (n : Z) (buffer : Z) : ExtCall unit
| glDeleteProgram (program : Z) : ExtCall unit.

(** One performed call together with the library's answer. *)
Record Ev := mkEv {
  ev_ret : Type;
  ev_call : ExtCall ev_ret;
  ev_val : ev_ret
}.

Arguments mkEv {ev_ret} ev_call ev_val.

Notation "c |-> r" := (mkEv c r) (at level 60, no associativity).

(* ===================================================================== *)
(** ** The module's statics *)
(* ===================================================================== *)

Definition MAX_BUTTONS : Z := 16.

Record VC_Button := mkButton {
  x : F32.t;
  y : F32.t;
  w : F32.t;
  h : F32.t;
  key : Z;
  id : Z;
  pressed : Z
}.

Record VC := mkVC {
  vc_prog : Z;
  vc_loc_pos : Z;
  vc_loc_col : Z;
  vc_vbo : Z;
  buttons : list VC_Button;
  button_count : Z;
  window_w : Z;
  window_h : Z
}.

(** A zeroed [VC_Button], as static storage and [memset] leave it. *)
Definition zero_button : VC_Button :=
  mkButton F32.zero F32.zero F32.zero F32.zero 0 0 0.

(** The statics as the C initialisers set them at program start. *)
Definition vc_initial : VC :=
  {| vc_prog := 0; vc_loc_pos := -1; vc_loc_col := -1; vc_vbo := 0;
     buttons := replicate (Z.to_nat MAX_BUTTONS) zero_button;
     button_count := 0;
     window_w := 800; window_h := 600 |}.

Definition set_pressed (v : Z) (b : VC_Button) : VC_Button :=
  {| x := x b; y := y b; w := w b; h := h b; key := key b; id := id b;
     pressed := v |}.

Definition with_buttons (bs : list VC_Button) (g : VC) : VC :=
  {| vc_prog := vc_prog g; vc_loc_pos := vc_loc_pos g;
     vc_loc_col := vc_loc_col g; vc_vbo := vc_vbo g;
     buttons := bs; button_count := button_count g;
     window_w := window_w g; window_h := window_h g |}.

Definition with_button_count (n : Z) (g : VC) : VC :=
  {| vc_prog := vc_prog g; vc_loc_pos := vc_loc_pos g;
     vc_loc_col := vc_loc_col g; vc_vbo := vc_vbo g;
     buttons := buttons g; button_count := n;
     window_w := window_w g; window_h := window_h g |}.

Definition with_window (nw nh : Z) (g : VC) : VC :=
  {| vc_prog := vc_prog g; vc_loc_pos := vc_loc_pos g;
     vc_loc_col := vc_loc_col g; vc_vbo := vc_vbo g;
     buttons := buttons g; button_count := button_count g;
     window_w := nw; window_h := nh |}.

Definition with_prog (p : Z) (g : VC) : VC :=
  {| vc_prog := p; vc_loc_pos := vc_loc_pos g;
     vc_loc_col := vc_loc_col g; vc_vbo := vc_vbo g;
     buttons := buttons g; button_count := button_count g;
     window_w := window_w g; window_h := window_h g |}.

Definition with_locs (lp lc : Z) (g : VC) : VC :=
  {| vc_prog := vc_prog g; vc_loc_pos := lp;
     vc_loc_col := lc; vc_vbo := vc_vbo g;
     buttons := buttons g; button_count := button_count g;
     window_w := window_w g; window_h := window_h g |}.

Definition with_vbo (v : Z) (g : VC) : VC :=
  {| vc_prog := vc_prog g; vc_loc_pos := vc_loc_pos g;
     vc_loc_col := vc_loc_col g; vc_vbo := v;
     buttons := buttons g; button_count := button_count g;
     window_w := window_w g; window_h := window_h g |}.

(** [buttons[i]]: C gives no meaning to an index outside the array; the
    model reads a zeroed button there and ignores the store.  Under
    [vc_wf] below no function of the module reaches such an index. *)
Definition button_at (g : VC) (i : Z) : VC_Button :=
  default zero_button (buttons g !! Z.to_nat i).

Definition store_button (i : Z) (b : VC_Button) (g : VC) : VC :=
  with_buttons (<[Z.to_nat i := b]> (buttons g)) g.

(** The array has [MAX_BUTTONS] slots and the count stays within it. *)
Definition vc_wf (g : VC) : Prop :=
  length (buttons g) = Z.to_nat MAX_BUTTONS /\
  0 <= button_count g <= MAX_BUTTONS.

(* ===================================================================== *)
(** ** State and library calls as a monad *)
(* ===================================================================== *)

(** A computation gets the statics and the history of library calls made so
    far, and gives back its result, the new statics and the calls it made. *)
Definition M (A : Type) : Type := VC -> list Ev -> A * VC * list Ev.

Definition ret {A} (a : A) : M A := fun g _ => (a, g, []).

Definition bind {A B} (m : M A) (f : A -> M B) : M B :=
  fun g hist =>
    match m g hist with
    | (a, g1, d1) =>
        match f a g1 (hist ++ d1) with
        | (b, g2, d2) => (b, g2, d1 ++ d2)
        end
    end.

Definition get : M VC := fun g _ => (g, g, []).
Definition modify (f : VC -> VC) : M unit := fun g _ => (tt, f g, []).

Notation "'let*' x ':=' m 'in' k" := (bind m (fun x => k))
  (at level 10, x name, m at level 200, k at level 200, only parsing).
Notation "'exec' m 'in' k" := (bind m (fun _ => k))
  (at level 10, m at level 200, k at level 200, only parsing).

Definition state_of {A} (r : A * VC * list Ev) : VC := snd (fst r).
Definition calls_of {A} (r : A * VC * list Ev) : list Ev := snd r.
Definition value_of {A} (r : A * VC * list Ev) : A := fst (fst r).

(** [for (int i = start; i < start + n; ++i) body(i)], for a body that does
    not assign the bound: every loop of the module runs from 0 to
    [button_count], which no loop body writes. *)
Fixpoint for_loop (n : nat) (i : Z) (body : Z -> M unit) : M unit :=
  match n with
  | O => ret tt
  | S n' => exec body i in for_loop n' (i + 1) body
  end.

Definition for_each_button (body : Z -> M unit) : M unit :=
  let* g := get in for_loop (Z.to_nat (button_count g)) 0 body.

(* ===================================================================== *)
(** ** The functions of virtual_controls.c *)
(* ===================================================================== *)

Definition vc_vs_src : string :=
"attribute vec2 aPos;
attribute vec4 aColor;
varying vec4 vColor;
void main() {
  gl_Position = vec4(aPos, 0.0, 1.0);
  vColor = aColor;
}
".

Definition vc_fs_src : string :=
"precision mediump float;
varying vec4 vColor;
void main() {
  gl_FragColor = vColor;
}
".

(** [vc_add_button]: refuses with -1 once the array is full, otherwise
    fills slot [button_count] and returns the old count ([button_count++]). *)
Definition vc_add_button (bx by_ bw bh : F32.t) (k : Z) : M Z :=
  let* g := get in
  if button_count g >=? MAX_BUTTONS then ret (-1)
  else
    exec modify (store_button (button_count g)
                   (mkButton bx by_ bw bh k (button_count g) 0)) in
    exec modify (with_button_count (button_count g + 1)) in
    ret (button_count g).

Definition VirtualControls_Init (win_w win_h : Z) : M Z :=
  exec modify (with_window win_w win_h) in
  exec modify (with_button_count 0) in
  exec modify (with_buttons (replicate (Z.to_nat MAX_BUTTONS) zero_button)) in
  let* _ := vc_add_button (F32.dec 5 100) (F32.dec 75 100)
              (F32.dec 12 100) (F32.dec 18 100) SDLK_LEFT in
  let* _ := vc_add_button (F32.dec 22 100) (F32.dec 75 100)
              (F32.dec 12 100) (F32.dec 18 100) SDLK_DOWN in
  let* _ := vc_add_button (F32.dec 22 100) (F32.dec 55 100)
              (F32.dec 12 100) (F32.dec 18 100) SDLK_UP in
  let* _ := vc_add_button (F32.dec 39 100) (F32.dec 75 100)
              (F32.dec 12 100) (F32.dec 18 100) SDLK_RIGHT in
  let* _ := vc_add_button (F32.dec 80 100) (F32.dec 75 100)
              (F32.dec 15 100) (F32.dec 18 100) SDLK_RETURN in
  ret 0.

Definition VirtualControls_OnWindowResized (new_w new_h : Z) : M unit :=
  modify (with_window new_w new_h).

(** The C function returns the [int] value of the four-way [&&]. *)
Definition point_in_button (b : VC_Button) (px_norm py_norm : F32.t) : Z :=
  if F32.ge px_norm (x b) && F32.le px_norm (F32.add (x b) (w b)) &&
     F32.ge py_norm (y b) && F32.le py_norm (F32.add (y b) (h b))
  then 1 else 0.

Section Program.

(** What SDL and the GL driver answer to a call, given every call made
    before it. *)
Variable respond : forall R : Type, list Ev -> ExtCall R -> R.

Definition call {R} (c : ExtCall R) : M R :=
  fun g hist => let r := respond R hist c in (r, g, [c |-> r]).

Definition synthesize_key (k : Z) (is_down : Z) : M unit :=
  let ty := if is_down =? 0 then SDL_KEYUP else SDL_KEYDOWN in
  let* ticks := call SDL_GetTicks in
  let st := if is_down =? 0 then SDL_RELEASED else SDL_PRESSED in
  let* sc := call (SDL_GetScancodeFromKey k) in
  let* _ := call (SDL_PushEvent
                    {| e_type := ty; e_timestamp := ticks; e_windowID := 0;
                       e_state := st; e_repeat := 0; e_scancode := sc;
                       e_sym := k; e_mod := 0 |}) in
  ret tt.

(** The three loop bodies of the finger handler and the two of the mouse
    handler.  Each stores the flag and then reads [buttons[i].key] again
    for the synthesized event, as the source does. *)
Definition press_if_hit (nx ny : F32.t) (i : Z) : M unit :=
  let* g := get in
  if (pressed (button_at g i) =? 0) &&
     negb (point_in_button (button_at g i) nx ny =? 0)
  then
    exec modify (store_button i (set_pressed 1 (button_at g i))) in
    let* g1 := get in
    synthesize_key (key (button_at g1 i)) 1
  else ret tt.

Definition release_if_hit (nx ny : F32.t) (i : Z) : M unit :=
  let* g := get in
  if negb (pressed (button_at g i) =? 0) &&
     negb (point_in_button (button_at g i) nx ny =? 0)
  then
    exec modify (store_button i (set_pressed 0 (button_at g i))) in
    let* g1 := get in
    synthesize_key (key (button_at g1 i)) 0
  else ret tt.

Definition release_if_off (nx ny : F32.t) (i : Z) : M unit :=
  let* g := get in
  if negb (pressed (button_at g i) =? 0) &&
     (point_in_button (button_at g i) nx ny =? 0)
  then
    exec modify (store_button i (set_pressed 0 (button_at g i))) in
    let* g1 := get in
    synthesize_key (key (button_at g1 i)) 0
  else ret tt.

Definition release_if_pressed (i : Z) : M unit :=
  let* g := get in
  if negb (pressed (button_at g i) =? 0)
  then
    exec modify (store_button i (set_pressed 0 (button_at g i))) in
    let* g1 := get in
    synthesize_key (key (button_at g1 i)) 0
  else ret tt.

(** The argument is a pointer; [None] is the null pointer. *)
Definition VirtualControls_HandleFingerEvent
    (tf : option SDL_TouchFingerEvent) : M unit :=
  match tf with
  | None => ret tt
  | Some tf =>
      let nx := tf_x tf in
      let ny := tf_y tf in
      if tf_type tf =? SDL_FINGERDOWN then
        for_each_button (press_if_hit nx ny)
      else if tf_type tf =? SDL_FINGERUP then
        for_each_button (release_if_hit nx ny)
      else if tf_type tf =? SDL_FINGERMOTION then
        for_each_button (release_if_off nx ny)
      else ret tt
  end.

Definition VirtualControls_HandleMouseEvent
    (mb : option SDL_MouseButtonEvent) : M unit :=
  match mb with
  | None => ret tt
  | Some mb =>
      let* g := get in
      let nx := F32.div (F32.of_int (mb_x mb)) (F32.of_int (window_w g)) in
      let ny := F32.div (F32.of_int (mb_y mb)) (F32.of_int (window_h g)) in
      if mb_state mb =? SDL_PRESSED then
        for_each_button (press_if_hit nx ny)
      else if mb_state mb =? SDL_RELEASED then
        for_each_button release_if_pressed
      else ret tt
  end.

Definition vc_create_shader : M unit :=
  let* vs := call (glCreateShader GL_VERTEX_SHADER) in
  exec call (glShaderSource vs 1 vc_vs_src) in
  exec call (glCompileShader vs) in
  let* ok := call (glGetShaderiv vs GL_COMPILE_STATUS) in
  exec (if ok =? 0 then
          let* buf := call (glGetShaderInfoLog vs 256) in
          call (SDL_Log "VC vertex shader error: %s" buf)
        else ret tt) in
  let* fs := call (glCreateShader GL_FRAGMENT_SHADER) in
  exec call (glShaderSource fs 1 vc_fs_src) in
  exec call (glCompileShader fs) in
  let* ok := call (glGetShaderiv fs GL_COMPILE_STATUS) in
  exec (if ok =? 0 then
          let* buf := call (glGetShaderInfoLog fs 256) in
          call (SDL_Log "VC fragment shader error: %s" buf)
        else ret tt) in
  let* p := call glCreateProgram in
  exec modify (with_prog p) in
  exec call (glAttachShader p vs) in
  exec call (glAttachShader p fs) in
  exec call (glBindAttribLocation p 0 "aPos") in
  exec call (glBindAttribLocation p 1 "aColor") in
  exec call (glLinkProgram p) in
  let* ok := call (glGetProgramiv p GL_LINK_STATUS) in
  exec (if ok =? 0 then
          let* buf := call (glGetProgramInfoLog p 256) in
          call (SDL_Log "VC link error: %s" buf)
        else ret tt) in
  exec call (glDeleteShader vs) in
  exec call (glDeleteShader fs) in
  exec modify (with_locs 0 1) in
  let* vbo := call (glGenBuffers 1) in
  modify (with_vbo vbo).

(** The six vertices (two triangles) of one button. *)
Definition button_quad (g : VC) (b : VC_Button) : list Vertex :=
  let fw := F32.of_int (window_w g) in
  let fh := F32.of_int (window_h g) in
  let px := F32.to_int (F32.mul (x b) fw) in
  let py := F32.to_int (F32.mul (y b) fh) in
  let pw := F32.to_int (F32.mul (w b) fw) in
  let ph := F32.to_int (F32.mul (h b) fh) in
  let two := F32.of_int 2 in
  let one := F32.of_int 1 in
  let x1 := F32.sub (F32.div (F32.mul two (F32.of_int px)) fw) one in
  let y1 := F32.sub one (F32.div (F32.mul two (F32.of_int py)) fh) in
  let x2 := F32.sub (F32.div (F32.mul two
                       (F32.of_int (wrap_int (px + pw)))) fw) one in
  let y2 := F32.sub one (F32.div (F32.mul two
                       (F32.of_int (wrap_int (py + ph)))) fh) in
  let r := if pressed b =? 0 then F32.dec 1 10 else F32.dec 2 10 in
  let gr := if pressed b =? 0 then F32.dec 1 10 else F32.dec 6 10 in
  let b_ := if pressed b =? 0 then F32.dec 1 10 else F32.dec 2 10 in
  let a := if pressed b =? 0 then F32.dec 4 10 else F32.dec 7 10 in
  [ mkVertex x1 y1 r gr b_ a; mkVertex x2 y1 r gr b_ a;
    mkVertex x2 y2 r gr b_ a; mkVertex x1 y1 r gr b_ a;
    mkVertex x2 y2 r gr b_ a; mkVertex x1 y2 r gr b_ a ].

Fixpoint build_verts (g : VC) (n : nat) (i : Z) : list Vertex :=
  match n with
  | O => []
  | S n' => button_quad g (button_at g i) ++ build_verts g n' (i + 1)
  end.

Definition sizeof_Vertex : Z := 24.
Definition sizeof_float : Z := 4.

Definition VirtualControls_Draw : M unit :=
  let* g := get in
  if button_count g =? 0 then ret tt
  else
    exec (if vc_prog g =? 0 then vc_create_shader else ret tt) in
    let* g := get in
    let verts := build_verts g (Z.to_nat (button_count g)) 0 in
    let vcount := Z.of_nat (length verts) in
    let* depthTestEnabled := call (glIsEnabled GL_DEPTH_TEST) in
    let* blendEnabled := call (glIsEnabled GL_BLEND) in
    exec call (glDisable GL_DEPTH_TEST) in
    exec call (glDepthMask GL_FALSE) in
    exec call (glEnable GL_BLEND) in
    exec call (glBlendFunc GL_SRC_ALPHA GL_ONE_MINUS_SRC_ALPHA) in
    exec call (glUseProgram (vc_prog g)) in
    exec call (glBindBuffer GL_ARRAY_BUFFER (vc_vbo g)) in
    exec call (glBufferData GL_ARRAY_BUFFER (vcount * sizeof_Vertex) verts
                 GL_DYNAMIC_DRAW) in
    exec call (glEnableVertexAttribArray (vc_loc_pos g)) in
    exec call (glEnableVertexAttribArray (vc_loc_col g)) in
    exec call (glVertexAttribPointer (vc_loc_pos g) 2 GL_FLOAT GL_FALSE
                 sizeof_Vertex 0) in
    exec call (glVertexAttribPointer (vc_loc_col g) 4 GL_FLOAT GL_FALSE
                 sizeof_Vertex (sizeof_float * 2)) in
    exec call (glDrawArrays GL_TRIANGLES 0 vcount) in
    exec call (glDisableVertexAttribArray (vc_loc_pos g)) in
    exec call (glDisableVertexAttribArray (vc_loc_col g)) in
    exec call (glBindBuffer GL_ARRAY_BUFFER 0) in
    exec call (glUseProgram 0) in
    exec (if blendEnabled =? 0 then call (glDisable GL_BLEND) else ret tt) in
    exec (if depthTestEnabled =? 0 then ret tt
          else call (glEnable GL_DEPTH_TEST)) in
    call (glDepthMask GL_TRUE).

Definition VirtualControls_Shutdown : M unit :=
  let* g := get in
  exec (if vc_vbo g =? 0 then ret tt
        else
          exec call (glDeleteBuffers 1 (vc_vbo g)) in
          modify (with_vbo 0)) in
  let* g := get in
  if vc_prog g =? 0 then ret tt
  else
    exec call (glDeleteProgram (vc_prog g)) in
    modify (with_prog 0).

(** The calls of one [synthesize_key] made after history [hist]. *)
Definition synth_calls (hist : list Ev) (k v : Z) : list Ev :=
  calls_of (synthesize_key k v vc_initial hist).

(** The common shape of the five loop bodies. *)
Definition flip_if (cond : VC_Button -> bool) (v : Z) (i : Z) : M unit :=
  let* g := get in
  if cond (button_at g i)
  then
    exec modify (store_button i (set_pressed v (button_at g i))) in
    let* g1 := get in
    synthesize_key (key (button_at g1 i)) v
  else ret tt.

End Program.

(* ===================================================================== *)
(** ** The component as a sequence of operations *)
(* ===================================================================== *)

(** Operations on the statics.  All but [OpRegister] are the entry points
    that virtual_controls.h declares.  [OpRegister] is the file-local
    [vc_add_button], which the source calls from [VirtualControls_Init]
    only: no host can perform it, and a sequence that holds it describes a
    layout other than the built-in one.  It is here so that the invariants
    proved of [reachable] states also cover such layouts; what the program
    as written can reach is [program_reachable] below. *)
Inductive Op :=
| OpInit (win_w win_h : Z)
| OpRegister (bx by_ bw bh : F32.t) (k : Z)
| OpResize (new_w new_h : Z)
| OpFinger (tf : option SDL_TouchFingerEvent)
| OpMouse (mb : option SDL_MouseButtonEvent)
| OpDraw
| OpShutdown.

Definition forget {A} (r : A * VC * list Ev) : VC * list Ev :=
  (state_of r, calls_of r).

Definition op_result (respond : forall R : Type, list Ev -> ExtCall R -> R)
    (op : Op) (g : VC) (hist : list Ev) : VC * list Ev :=
  match op with
  | OpInit ww wh => forget (VirtualControls_Init ww wh g hist)
  | OpRegister bx by_ bw bh k => forget (vc_add_button bx by_ bw bh k g hist)
  | OpResize nw nh => forget (VirtualControls_OnWindowResized nw nh g hist)
  | OpFinger tf => forget (VirtualControls_HandleFingerEvent respond tf g hist)
  | OpMouse mb => forget (VirtualControls_HandleMouseEvent respond mb g hist)
  | OpDraw => forget (VirtualControls_Draw respond g hist)
  | OpShutdown => forget (VirtualControls_Shutdown respond g hist)
  end.

(** Running operations one after the other, the history growing with the
    calls of each. *)
Fixpoint run_ops (respond : forall R : Type, list Ev -> ExtCall R -> R)
    (ops : list Op) (g : VC) (hist : list Ev) : VC * list Ev :=
  match ops with
  | [] => (g, hist)
  | op :: ops' =>
      let '(g1, d1) := op_result respond op g hist in
      run_ops respond ops' g1 (hist ++ d1)
  end.

(** The statics reachable from program start by any operations, the
    registration of further buttons included. *)
Definition reachable (respond : forall R : Type, list Ev -> ExtCall R -> R)
    (g : VC) : Prop :=
  exists ops, fst (run_ops respond ops vc_initial []) = g.

(** The operations a host can perform: every one but the file-local
    registration. *)
Definition host_op (op : Op) : bool :=
  match op with
  | OpRegister _ _ _ _ _ => false
  | _ => true
  end.

(** The statics the program can reach from its start: by host operations
    only. *)
Definition program_reachable
    (respond : forall R : Type, list Ev -> ExtCall R -> R) (g : VC) : Prop :=
  exists ops,
    forallb host_op ops = true /\
    fst (run_ops respond ops vc_initial []) = g.

(** What every reachable state satisfies: the array and the count are in
    shape, and GL resources exist only when a button is registered. *)
Definition vc_inv (g : VC) : Prop :=
  vc_wf g /\ (button_count g = 0 -> vc_prog g = 0 /\ vc_vbo g = 0).

(* ===================================================================== *)
(** ** Observations on a list of performed calls *)
(* ===================================================================== *)

(** The events handed to [SDL_PushEvent], oldest first. *)
Definition pushed_event (e : Ev) : option SDL_Event :=
  match ev_call e with
  | SDL_PushEvent ev => Some ev
  | _ => None
  end.

Definition pushed (d : list Ev) : list SDL_Event := omap pushed_event d.

(** What the host sees of a synthesized key event: kind, state and key. *)
Definition key_summary (e : SDL_Event) : Z * Z * Z :=
  (e_type e, e_state e, e_sym e).

Definition key_down (k : Z) : Z * Z * Z := (SDL_KEYDOWN, SDL_PRESSED, k).
Definition key_up (k : Z) : Z * Z * Z := (SDL_KEYUP, SDL_RELEASED, k).

Definition key_events (d : list Ev) : list (Z * Z * Z) :=
  map key_summary (pushed d).

(** Handles answered by [glCreateProgram] and [glGenBuffers]. *)
Definition created_program (e : Ev) : option Z :=
  match ev_call e in ExtCall R return R -> option Z with
  | glCreateProgram => fun r => Some r
  | _ => fun _ => None
  end (ev_val e).

Definition generated_buffer (e : Ev) : option Z :=
  match ev_call e in ExtCall R return R -> option Z with
  | glGenBuffers _ => fun r => Some r
  | _ => fun _ => None
  end (ev_val e).

(** Statuses answered to [glGetShaderiv .. GL_COMPILE_STATUS] (vertex shader
    first) and to [glGetProgramiv .. GL_LINK_STATUS]. *)
Definition compile_status (e : Ev) : option Z :=
  match ev_call e in ExtCall R return R -> option Z with
  | glGetShaderiv _ GL_COMPILE_STATUS => fun r => Some r
  | _ => fun _ => None
  end (ev_val e).

Definition link_status (e : Ev) : option Z :=
  match ev_call e in ExtCall R return R -> option Z with
  | glGetProgramiv _ GL_LINK_STATUS => fun r => Some r
  | _ => fun _ => None
  end (ev_val e).

(** Format strings passed to [SDL_Log]. *)
Definition logged_format (e : Ev) : option string :=
  match ev_call e with
  | SDL_Log fmt _ => Some fmt
  | _ => None
  end.

Definition created_programs (d : list Ev) : list Z := omap created_program d.
Definition generated_buffers (d : list Ev) : list Z := omap generated_buffer d.
Definition compile_statuses (d : list Ev) : list Z := omap compile_status d.
Definition link_statuses (d : list Ev) : list Z := omap link_status d.
Definition logged (d : list Ev) : list string := omap logged_format d.

(** Programs passed to [glUseProgram], vertex counts passed to
    [glDrawArrays], and names passed to the two delete calls. *)
Definition used_program (e : Ev) : option Z :=
  match ev_call e with
  | glUseProgram p => Some p
  | _ => None
  end.

Definition drawn_count (e : Ev) : option Z :=
  match ev_call e with
  | glDrawArrays _ _ n => Some n
  | _ => None
  end.

Definition deleted_buffer (e : Ev) : option Z :=
  match ev_call e with
  | glDeleteBuffers _ b => Some b
  | _ => None
  end.

Definition deleted_program (e : Ev) : option Z :=
  match ev_call e with
  | glDeleteProgram p => Some p
  | _ => None
  end.

Definition used_programs (d : list Ev) : list Z := omap used_program d.
Definition drawn (d : list Ev) : list Z := omap drawn_count d.
Definition deleted_buffers (d : list Ev) : list Z := omap deleted_buffer d.
Definition deleted_programs (d : list Ev) : list Z := omap deleted_program d.

(** The [SDL_Log] lines of [vc_create_shader] for the three statuses. *)
Definition expected_log (vs_ok fs_ok link_ok : Z) : list string :=
  (if vs_ok =? 0 then ["VC vertex shader error: %s"%string] else []) ++
  (if fs_ok =? 0 then ["VC fragment shader error: %s"%string] else []) ++
  (if link_ok =? 0 then ["VC link error: %s"%string] else []).

(** [holds m g Q]: started in [g] after any history, [m] ends with a result,
    statics and calls that satisfy [Q]. *)
Definition holds {A} (m : M A) (g : VC) (Q : A -> VC -> list Ev -> Prop)
  : Prop :=
  forall hist,
    Q (value_of (m g hist)) (state_of (m g hist)) (calls_of (m g hist)).

(* ===================================================================== *)
(** ** What one pass over the buttons does, as list functions *)
(* ===================================================================== *)

(** The guards of the five loops. *)
Definition is_pressed (b : VC_Button) : bool := negb (pressed b =? 0).
Definition hit (nx ny : F32.t) (b : VC_Button) : bool :=
  negb (point_in_button b nx ny =? 0).

Definition released_and_hit (nx ny : F32.t) (b : VC_Button) : bool :=
  (pressed b =? 0) && hit nx ny b.
Definition pressed_and_hit (nx ny : F32.t) (b : VC_Button) : bool :=
  is_pressed b && hit nx ny b.
Definition pressed_and_off (nx ny : F32.t) (b : VC_Button) : bool :=
  is_pressed b && (point_in_button b nx ny =? 0).

(** Buttons selected by [cond] get their flag set to [v]. *)
Definition scan (cond : VC_Button -> bool) (v : Z) (bs : list VC_Button)
  : list VC_Button :=
  map (fun b => if cond b then set_pressed v b else b) bs.

(** The key event synthesized for a button when its flag is set to [v]. *)
Definition flip_event (v : Z) (b : VC_Button) : Z * Z * Z :=
  if v =? 0 then key_up (key b) else key_down (key b).

(** The registered buttons: the first [button_count] slots. *)
Definition registered (g : VC) : list VC_Button :=
  take (Z.to_nat (button_count g)) (buttons g).

Definition unused_slots (g : VC) : list VC_Button :=
  drop (Z.to_nat (button_count g)) (buttons g).

(** Key events implied by the change of the flags from [olds] to [news]:
    a key-down where a flag went from zero to non-zero, a key-up where it
    went from non-zero to zero, nothing where it kept its truth value. *)
Definition transition (old new : VC_Button) : list (Z * Z * Z) :=
  if (pressed old =? 0) && negb (pressed new =? 0) then [key_down (key old)]
  else if negb (pressed old =? 0) && (pressed new =? 0) then [key_up (key old)]
  else [].

Definition transitions (olds news : list VC_Button) : list (Z * Z * Z) :=
  concat (zip_with transition olds news).

(** Guards that select only buttons whose flag the store really changes. *)
Definition flips (cond : VC_Button -> bool) (v : Z) : Prop :=
  forall b, cond b = true -> (pressed b =? 0) = negb (v =? 0).

(** [pass cond v g r]: the run [r], started in [g], set the flag of the
    registered buttons selected by [cond] to [v], synthesized one key event
    for each of them in slot order, and did nothing else. *)
Definition pass (cond : VC_Button -> bool) (v : Z) (g : VC)
    (r : unit * VC * list Ev) : Prop :=
  state_of r =
    with_buttons (scan cond v (registered g) ++ unused_slots g) g /\
  key_events (calls_of r) =
    map (flip_event v) (List.filter cond (registered g)) /\
  (List.filter cond (registered g) = [] -> calls_of r = []).

(** The normalized position the mouse handler computes. *)
Definition mouse_nx (g : VC) (mb : SDL_MouseButtonEvent) : F32.t :=
  F32.div (F32.of_int (mb_x mb)) (F32.of_int (window_w g)).
Definition mouse_ny (g : VC) (mb : SDL_MouseButtonEvent) : F32.t :=
  F32.div (F32.of_int (mb_y mb)) (F32.of_int (window_h g)).

(* ===================================================================== *)
(** ** Concrete library behaviours and states, for the examples *)
(* ===================================================================== *)

(** A healthy SDL and GL: the clock advances with every call, scancodes are
    the low bits of the key code, both shaders compile and the program
    links. *)
Definition healthy_driver (R : Type) (hist : list Ev) (c : ExtCall R) : R :=
  match c in ExtCall R return R with
  | SDL_GetTicks => 1000 + Z.of_nat (length hist)
  | SDL_GetScancodeFromKey k => Z.land k 511
  | SDL_PushEvent _ => 1
  | SDL_Log _ _ => tt
  | glCreateShader GL_VERTEX_SHADER => 1
  | glCreateShader _ => 2
  | glGetShaderiv _ _ => GL_TRUE
  | glGetShaderInfoLog _ _ => EmptyString
  | glCreateProgram => 3
  | glGetProgramiv _ _ => GL_TRUE
  | glGetProgramInfoLog _ _ => EmptyString
  | glGenBuffers _ => 4
  | glIsEnabled _ => GL_FALSE
  | _ => tt
  end.

(** The same, except that linking fails: [glCreateProgram] still answers a
    fresh non-zero name, [GL_LINK_STATUS] reads [GL_FALSE]. *)
Definition link_failing_driver (R : Type) (hist : list Ev) (c : ExtCall R)
  : R :=
  match c in ExtCall R return R with
  | glGetProgramiv _ GL_LINK_STATUS => GL_FALSE
  | glGetProgramInfoLog _ _ => "error: link failed"%string
  | c' => healthy_driver _ hist c'
  end.

(** The statics after [VirtualControls_Init(800, 600)]. *)
Definition init_state : VC :=
  state_of (VirtualControls_Init 800 600 vc_initial []).

(** [n] further registrations of a small button in the top-left corner. *)
Fixpoint register_more (n : nat) (g : VC) : VC :=
  match n with
  | O => g
  | S n' =>
      register_more n'
        (state_of (vc_add_button F32.zero F32.zero (F32.dec 1 10)
                     (F32.dec 1 10) SDLK_RETURN g []))
  end.

(** All sixteen slots in use. *)
Definition full_state : VC := register_more 11 init_state.

(** The point (0.10, 0.80), inside the "left" button of the layout. *)
Definition on_left : F32.t * F32.t := (F32.dec 10 100, F32.dec 80 100).

(** The point (0.50, 0.50), inside no button of the layout. *)
Definition off_all : F32.t * F32.t := (F32.dec 50 100, F32.dec 50 100).

(** The layout with "left" held down. *)
Definition left_held : VC :=
  state_of (VirtualControls_HandleFingerEvent healthy_driver
              (Some (mkFinger SDL_FINGERDOWN (fst on_left) (snd on_left)))
              init_state []).

(** "left" held down, and then a sixth button registered on top of it: two
    overlapping rectangles, the lower one pressed, the upper one released.
    The program as written never installs this layout; it serves as an
    example of the wider [reachable]. *)
Definition overlap_state : VC :=
  state_of (vc_add_button (F32.dec 5 100) (F32.dec 75 100)
              (F32.dec 12 100) (F32.dec 18 100) SDLK_UP left_held []).

(** The containment test as the specification words it: the half-open
    rectangle [x, x+w) x [y, y+h). *)
Definition in_half_open_rect (b : VC_Button) (nx ny : F32.t) : bool :=
  F32.le (x b) nx && F32.lt nx (F32.add (x b) (w b)) &&
  F32.le (y b) ny && F32.lt ny (F32.add (y b) (h b)).

(** A button at (0.25, 0.25) of size 0.5 by 0.5 (all four exact in
    binary32), a point on its right edge and a point on its bottom edge. *)
Definition edge_button : VC_Button :=
  mkButton (F32.dec 25 100) (F32.dec 25 100) (F32.dec 5 10) (F32.dec 5 10)
    SDLK_RETURN 0 0.

Definition on_right_edge : F32.t * F32.t := (F32.dec 75 100, F32.dec 5 10).
Definition on_bottom_edge : F32.t * F32.t := (F32.dec 5 10, F32.dec 75 100).

(** The "left" button of the layout, and the point whose abscissa is the
    sum x + w that [point_in_button] computes for it. *)
Definition left_button : VC_Button :=
  mkButton (F32.dec 5 100) (F32.dec 75 100) (F32.dec 12 100) (F32.dec 18 100)
    SDLK_LEFT 0 0.

Definition on_left_right_edge : F32.t * F32.t :=
  (F32.add (x left_button) (w left_button), F32.dec 80 100).

(** The statics after [init] and one drawn frame, resources created. *)
Definition drawn_once : VC :=
  state_of (VirtualControls_Draw healthy_driver init_state []).

(** The first draw after [init] with a GL whose linker fails, and the draw
    of the next frame. *)
Definition failing_draw : unit * VC * list Ev :=
  VirtualControls_Draw link_failing_driver init_state [].

Definition failing_redraw : unit * VC * list Ev :=
  VirtualControls_Draw link_failing_driver (state_of failing_draw)
    (calls_of failing_draw).

(* ===================================================================== *)
(** ** Vocabulary for the properties of the whole component *)
(* ===================================================================== *)

(** Everything of a button but its pressed flag. *)
Definition geometry (b : VC_Button)
  : F32.t * F32.t * F32.t * F32.t * Z * Z :=
  (x b, y b, w b, h b, key b, id b).

(** The registered buttons carry their slot number as id and a flag that
    is 0 or 1; the slots behind them are zeroed. *)
Definition layout_ok (g : VC) : Prop :=
  vc_wf g /\
  (forall j b, registered g !! j = Some b ->
     id b = Z.of_nat j /\ (pressed b = 0 \/ pressed b = 1)) /\
  Forall (fun b => b = zero_button) (unused_slots g).

(** The guard and the stored value of the loop an event runs; an event
    that runs no loop selects nothing. *)
Definition no_button (b : VC_Button) : bool := false.

Definition finger_guard (tf : option SDL_TouchFingerEvent)
  : (VC_Button -> bool) * Z :=
  match tf with
  | None => (no_button, 0)
  | Some tf =>
      if tf_type tf =? SDL_FINGERDOWN then
        (released_and_hit (tf_x tf) (tf_y tf), 1)
      else if tf_type tf =? SDL_FINGERUP then
        (pressed_and_hit (tf_x tf) (tf_y tf), 0)
      else if tf_type tf =? SDL_FINGERMOTION then
        (pressed_and_off (tf_x tf) (tf_y tf), 0)
      else (no_button, 0)
  end.

Definition mouse_guard (g : VC) (mb : option SDL_MouseButtonEvent)
  : (VC_Button -> bool) * Z :=
  match mb with
  | None => (no_button, 0)
  | Some mb =>
      if mb_state mb =? SDL_PRESSED then
        (released_and_hit (mouse_nx g mb) (mouse_ny g mb), 1)
      else if mb_state mb =? SDL_RELEASED then (is_pressed, 0)
      else (no_button, 0)
  end.

(** Answers of [SDL_GetTicks] and of [SDL_GetScancodeFromKey] (with the key
    asked for). *)
Definition ticks_answer (e : Ev) : option Z :=
  match ev_call e in ExtCall R return R -> option Z with
  | SDL_GetTicks => fun r => Some r
  | _ => fun _ => None
  end (ev_val e).

Definition scancode_answer (e : Ev) : option (Z * Z) :=
  match ev_call e in ExtCall R return R -> option (Z * Z) with
  | SDL_GetScancodeFromKey k => fun r => Some (k, r)
  | _ => fun _ => None
  end (ev_val e).

(** Three consecutive calls that are one key synthesis: the clock is read,
    the scancode of a key is asked for, and a key event is pushed that
    carries that time, that key and that scancode, with window 0, no repeat,
    no modifier, and a state that matches its kind. *)
Definition synthesis_triple (e1 e2 e3 : Ev) : bool :=
  match ticks_answer e1, scancode_answer e2, pushed_event e3 with
  | Some t, Some (k, sc), Some ev =>
      (e_timestamp ev =? t) && (e_sym ev =? k) && (e_scancode ev =? sc) &&
      (e_windowID ev =? 0) && (e_repeat ev =? 0) && (e_mod ev =? 0) &&
      (((e_type ev =? SDL_KEYDOWN) && (e_state ev =? SDL_PRESSED)) ||
       ((e_type ev =? SDL_KEYUP) && (e_state ev =? SDL_RELEASED)))
  | _, _, _ => false
  end.

Fixpoint synthesis_triples (d : list Ev) : bool :=
  match d with
  | [] => true
  | e1 :: e2 :: e3 :: rest =>
      synthesis_triple e1 e2 e3 && synthesis_triples rest
  | _ => false
  end.

(** How often a key event occurs in a list, and how many buttons bound to a
    key are pressed. *)
Definition same_event (a b : Z * Z * Z) : bool :=
  (fst (fst a) =? fst (fst b)) && (snd (fst a) =? snd (fst b)) &&
  (snd a =? snd b).

Definition count_event (ev : Z * Z * Z) (evs : list (Z * Z * Z)) : Z :=
  Z.of_nat (length (List.filter (same_event ev) evs)).

Definition held (k : Z) (bs : list VC_Button) : Z :=
  Z.of_nat (length (List.filter (fun b => is_pressed b && (key b =? k)) bs)).

(** Key-downs of [k] pushed so far that no key-up has answered yet, minus
    the buttons bound to [k] that are pressed. *)
Definition key_balance (k : Z) (hist : list Ev) (g : VC) : Z :=
  count_event (key_down k) (key_events hist)
  - count_event (key_up k) (key_events hist)
  - held k (registered g).

(** The operations of a running session: everything but the two that set
    the layout up. *)
Definition session_op (op : Op) : bool :=
  match op with
  | OpInit _ _ | OpRegister _ _ _ _ _ => false
  | _ => true
  end.

(** A value that is neither a NaN nor an infinity. *)
Definition finite_value (f : F32.t) : bool :=
  match f with
  | S754_zero _ | S754_finite _ _ _ => true
  | _ => false
  end.

Definition finite_rect (b : VC_Button) : bool :=
  finite_value (x b) && finite_value (F32.add (x b) (w b)) &&
  finite_value (y b) && finite_value (F32.add (y b) (h b)).

Definition not_a_number (f : F32.t) : bool :=
  match f with
  | S754_nan => true
  | _ => false
  end.

(** Two buttons are apart when, on one axis at least, one starts beyond
    where the other ends: the tests of [point_in_button] then pass for no
    common point. *)
Definition apart (a c : VC_Button) : bool :=
  negb (F32.le (x c) (F32.add (x a) (w a))) ||
  negb (F32.le (x a) (F32.add (x c) (w c))) ||
  negb (F32.le (y c) (F32.add (y a) (h a))) ||
  negb (F32.le (y a) (F32.add (y c) (h c))).

Fixpoint pairwise_apart (bs : list VC_Button) : bool :=
  match bs with
  | [] => true
  | a :: bs' => forallb (apart a) bs' && pairwise_apart bs'
  end.

(** Calls of the renderer: anything but the three calls of a key
    synthesis. *)
Definition renderer_call (e : Ev) : bool :=
  match ev_call e with
  | SDL_GetTicks | SDL_GetScancodeFromKey _ | SDL_PushEvent _ => false
  | _ => true
  end.

Definition GLenum_tag (c : GLenum) : Z :=
  match c with
  | GL_VERTEX_SHADER => 0 | GL_FRAGMENT_SHADER => 1
  | GL_COMPILE_STATUS => 2 | GL_LINK_STATUS => 3
  | GL_DEPTH_TEST => 4 | GL_BLEND => 5
  | GL_SRC_ALPHA => 6 | GL_ONE_MINUS_SRC_ALPHA => 7
  | GL_ARRAY_BUFFER => 8 | GL_DYNAMIC_DRAW => 9
  | GL_FLOAT => 10 | GL_TRIANGLES => 11
  end.

Definition GLenum_eqb (a b : GLenum) : bool := GLenum_tag a =? GLenum_tag b.

(** Capabilities switched on ([true]) or off, capabilities asked about with
    the answer, flags given to [glDepthMask], buffers bound, and data
    uploaded (byte size and vertices). *)
Definition cap_change (e : Ev) : option (GLenum * bool) :=
  match ev_call e with
  | glEnable c => Some (c, true)
  | glDisable c => Some (c, false)
  | _ => None
  end.

Definition cap_query (e : Ev) : option (GLenum * Z) :=
  match ev_call e in ExtCall R return R -> option (GLenum * Z) with
  | glIsEnabled c => fun r => Some (c, r)
  | _ => fun _ => None
  end (ev_val e).

Definition depth_mask_flag (e : Ev) : option Z :=
  match ev_call e with
  | glDepthMask f => Some f
  | _ => None
  end.

Definition bound_buffer (e : Ev) : option Z :=
  match ev_call e with
  | glBindBuffer _ b => Some b
  | _ => None
  end.

Definition buffer_upload (e : Ev) : option (Z * list Vertex) :=
  match ev_call e with
  | glBufferData _ size data _ => Some (size, data)
  | _ => None
  end.

Definition cap_changes (d : list Ev) : list (GLenum * bool) :=
  omap cap_change d.
Definition cap_queries (d : list Ev) : list (GLenum * Z) := omap cap_query d.
Definition depth_mask_flags (d : list Ev) : list Z := omap depth_mask_flag d.
Definition bound_buffers (d : list Ev) : list Z := omap bound_buffer d.
Definition buffer_uploads (d : list Ev) : list (Z * list Vertex) :=
  omap buffer_upload d.

(** Whether capability [c] is on after the changes [chs], when it was
    [before] them. *)
Definition enabled_after (c : GLenum) (before : bool)
    (chs : list (GLenum * bool)) : bool :=
  fold_left (fun on ch => if GLenum_eqb c (fst ch) then snd ch else on)
    chs before.

(** Shaders created, attached to a program, and deleted. *)
Definition created_shader (e : Ev) : option Z :=
  match ev_call e in ExtCall R return R -> option Z with
  | glCreateShader _ => fun r => Some r
  | _ => fun _ => None
  end (ev_val e).

Definition attached_shader (e : Ev) : option (Z * Z) :=
  match ev_call e with
  | glAttachShader p s => Some (p, s)
  | _ => None
  end.

Definition deleted_shader (e : Ev) : option Z :=
  match ev_call e with
  | glDeleteShader s => Some s
  | _ => None
  end.

Definition created_shaders (d : list Ev) : list Z := omap created_shader d.
Definition attached_shaders (d : list Ev) : list (Z * Z) :=
  omap attached_shader d.
Definition deleted_shaders (d : list Ev) : list Z := omap deleted_shader d.

(* ===================================================================== *)
(** ** The fixed-function renderer (built with OPENGL1X) *)
(* ===================================================================== *)

(** [VirtualControls_Draw_GL1] and [draw_filled_rect_pixels] only make GL
    calls that hand nothing back, so a run is the list of its calls. *)
Module GL1.

Inductive enum :=
| GL_ALL_ATTRIB_BITS | GL_PROJECTION | GL_MODELVIEW | GL_DEPTH_TEST
| GL_TEXTURE_2D | GL_QUADS | GL_LINE_LOOP.

(** [(GLdouble) n] for an [int] n. *)
Definition double_of_int (n : Z) : spec_float :=
  binary_normalize 53 1024 n 0 false.

Inductive call :=
| glPushAttrib (mask : enum)
| glPopAttrib
| glMatrixMode (mode : enum)
| glPushMatrix
| glPopMatrix
| glLoadIdentity
| glOrtho (left right bottom top zNear zFar : spec_float)
| glDisable (cap : enum)
| glColor4f (r g b a : F32.t)
| glLineWidth (width : F32.t)
| glBegin (mode : enum)
| glVertex2f (vx vy : F32.t)
| glEnd.

Definition draw_filled_rect_pixels (px py pw ph : Z) : list call :=
  [ glDisable GL_TEXTURE_2D;
    glBegin GL_QUADS;
    glVertex2f (F32.of_int px) (F32.of_int py);
    glVertex2f (F32.of_int (wrap_int (px + pw))) (F32.of_int py);
    glVertex2f (F32.of_int (wrap_int (px + pw)))
               (F32.of_int (wrap_int (py + ph)));
    glVertex2f (F32.of_int px) (F32.of_int (wrap_int (py + ph)));
    glEnd ].

(** The body of the loop for one button: the filled rectangle in the tint
    of its state, then the white outline. *)
Definition draw_button (g : VC) (b : VC_Button) : list call :=
  let px := F32.to_int (F32.mul (x b) (F32.of_int (window_w g))) in
  let py := F32.to_int (F32.mul (y b) (F32.of_int (window_h g))) in
  let pw := F32.to_int (F32.mul (w b) (F32.of_int (window_w g))) in
  let ph := F32.to_int (F32.mul (h b) (F32.of_int (window_h g))) in
  [ if pressed b =? 0
    then glColor4f (F32.dec 1 10) (F32.dec 1 10) (F32.dec 1 10) (F32.dec 5 10)
    else glColor4f (F32.dec 2 10) (F32.dec 6 10) (F32.dec 2 10)
           (F32.dec 7 10) ] ++
  draw_filled_rect_pixels px py pw ph ++
  [ glColor4f (F32.of_int 1) (F32.of_int 1) (F32.of_int 1) (F32.dec 6 10);
    glLineWidth (F32.of_int 2);
    glBegin GL_LINE_LOOP;
    glVertex2f (F32.of_int px) (F32.of_int py);
    glVertex2f (F32.of_int (wrap_int (px + pw))) (F32.of_int py);
    glVertex2f (F32.of_int (wrap_int (px + pw)))
               (F32.of_int (wrap_int (py + ph)));
    glVertex2f (F32.of_int px) (F32.of_int (wrap_int (py + ph)));
    glEnd ].

Fixpoint draw_buttons (g : VC) (n : nat) (i : Z) : list call :=
  match n with
  | O => []
  | S n' => draw_button g (button_at g i) ++ draw_buttons g n' (i + 1)
  end.

Definition VirtualControls_Draw_GL1 (g : VC) : list call :=
  if button_count g =? 0 then []
  else
    [ glPushAttrib GL_ALL_ATTRIB_BITS;
      glMatrixMode GL_PROJECTION;
      glPushMatrix;
      glMatrixMode GL_MODELVIEW;
      glPushMatrix;
      glDisable GL_DEPTH_TEST;
      glMatrixMode GL_PROJECTION;
      glLoadIdentity;
      glOrtho (S754_zero false) (double_of_int (window_w g))
        (double_of_int (window_h g)) (S754_zero false)
        (double_of_int (-1)) (double_of_int 1);
      glMatrixMode GL_MODELVIEW;
      glLoadIdentity ] ++
    draw_buttons g (Z.to_nat (button_count g)) 0 ++
    [ glMatrixMode GL_MODELVIEW;
      glPopMatrix;
      glMatrixMode GL_PROJECTION;
      glPopMatrix;
      glPopAttrib ].

(** A checker of the GL 1.x bracketing rules the function relies on: the
    matrix stacks of the two modes and the attribute stack are popped as
    often as pushed and never below where they started, a matrix is pushed
    or popped only once a matrix mode has been chosen, vertices are given
    only between [glBegin] and [glEnd], and between the two nothing is
    called but [glVertex2f] and [glColor4f]. *)
Record tracker := mkTracker {
  mode : option enum;
  projection_depth : nat;
  modelview_depth : nat;
  attrib_depth : nat;
  in_begin : bool
}.

Definition start : tracker := mkTracker None 0 0 0 false.

Definition step (s : tracker) (c : call) : option tracker :=
  if in_begin s then
    match c with
    | glVertex2f _ _ | glColor4f _ _ _ _ => Some s
    | glEnd =>
        Some (mkTracker (mode s) (projection_depth s) (modelview_depth s)
                (attrib_depth s) false)
    | _ => None
    end
  else
    match c with
    | glVertex2f _ _ | glEnd => None
    | glBegin _ =>
        Some (mkTracker (mode s) (projection_depth s) (modelview_depth s)
                (attrib_depth s) true)
    | glPushAttrib _ =>
        Some (mkTracker (mode s) (projection_depth s) (modelview_depth s)
                (S (attrib_depth s)) false)
    | glPopAttrib =>
        match attrib_depth s with
        | O => None
        | S n =>
            Some (mkTracker None (projection_depth s) (modelview_depth s)
                    n false)
        end
    | glMatrixMode GL_PROJECTION =>
        Some (mkTracker (Some GL_PROJECTION) (projection_depth s)
                (modelview_depth s) (attrib_depth s) false)
    | glMatrixMode GL_MODELVIEW =>
        Some (mkTracker (Some GL_MODELVIEW) (projection_depth s)
                (modelview_depth s) (attrib_depth s) false)
    | glMatrixMode _ => None
    | glPushMatrix =>
        match mode s with
        | Some GL_PROJECTION =>
            Some (mkTracker (mode s) (S (projection_depth s))
                    (modelview_depth s) (attrib_depth s) false)
        | Some GL_MODELVIEW =>
            Some (mkTracker (mode s) (projection_depth s)
                    (S (modelview_depth s)) (attrib_depth s) false)
        | _ => None
        end
    | glPopMatrix =>
        match mode s, projection_depth s, modelview_depth s with
        | Some GL_PROJECTION, S n, _ =>
            Some (mkTracker (mode s) n (modelview_depth s)
                    (attrib_depth s) false)
        | Some GL_MODELVIEW, _, S n =>
            Some (mkTracker (mode s) (projection_depth s) n
                    (attrib_depth s) false)
        | _, _, _ => None
        end
    | _ => Some s
    end.

Fixpoint run (cs : list call) (s : tracker) : option tracker :=
  match cs with
  | [] => Some s
  | c :: cs' =>
      match step s c with
      | Some s' => run cs' s'
      | None => None
      end
  end.

Definition well_bracketed (cs : list call) : bool :=
  match run cs start with
  | Some s =>
      Nat.eqb (projection_depth s) 0 && Nat.eqb (modelview_depth s) 0 &&
      Nat.eqb (attrib_depth s) 0 && negb (in_begin s)
  | None => false
  end.

Definition is_begin (m : enum) (c : call) : bool :=
  match c, m with
  | glBegin GL_QUADS, GL_QUADS => true
  | glBegin GL_LINE_LOOP, GL_LINE_LOOP => true
  | _, _ => false
  end.

Definition begins (m : enum) (cs : list call) : Z :=
  Z.of_nat (length (List.filter (is_begin m) cs)).

End GL1.

(* ===================================================================== *)
(** ** Basic facts *)
(* ===================================================================== *)

Lemma with_buttons_same g bs : buttons g = bs -> with_buttons bs g = g.
Proof. intros <-. now destruct g. Qed.

Lemma with_buttons_twice g bs bs' :
  with_buttons bs (with_buttons bs' g) = with_buttons bs g.
Proof. reflexivity. Qed.

Lemma button_at_middle g pre b post :
  buttons g = pre ++ b :: post ->
  button_at g (Z.of_nat (length pre)) = b.
Proof.
  intros Hb. unfold button_at. rewrite Nat2Z.id, Hb.
  now rewrite list_lookup_middle.
Qed.

Lemma store_button_middle g pre b b' post :
  buttons g = pre ++ b :: post ->
  store_button (Z.of_nat (length pre)) b' g =
  with_buttons (pre ++ b' :: post) g.
Proof.
  intros Hb. unfold store_button. rewrite Nat2Z.id, Hb. f_equal.
  clear Hb. induction pre as [|a pre IH]; simpl; [reflexivity|].
  now rewrite IH.
Qed.

Lemma pushed_app d1 d2 : pushed (d1 ++ d2) = pushed d1 ++ pushed d2.
Proof. apply omap_app. Qed.

Lemma key_events_app d1 d2 :
  key_events (d1 ++ d2) = key_events d1 ++ key_events d2.
Proof. unfold key_events. now rewrite pushed_app, map_app. Qed.

Lemma wf_registered_split g :
  vc_wf g -> buttons g = registered g ++ unused_slots g.
Proof. intros _. unfold registered, unused_slots. now rewrite take_drop. Qed.

Lemma wf_registered_length g :
  vc_wf g -> length (registered g) = Z.to_nat (button_count g).
Proof.
  intros [Hlen Hc]. unfold registered. rewrite length_take, Hlen.
  unfold MAX_BUTTONS in *. lia.
Qed.

(* ===================================================================== *)
(** ** The loops over the button array *)
(* ===================================================================== *)

Section Loops.

Variable respond : forall R : Type, list Ev -> ExtCall R -> R.


Lemma synthesize_key_run k v g hist :
  synthesize_key respond k v g hist = (tt, g, synth_calls respond hist k v).
Proof. reflexivity. Qed.

Lemma synth_calls_key_events hist k v :
  key_events (synth_calls respond hist k v) =
  [if v =? 0 then key_up k else key_down k].
Proof.
  unfold synth_calls, synthesize_key, key_events, key_up, key_down.
  cbn. now destruct (v =? 0).
Qed.


Lemma press_if_hit_flip nx ny :
  press_if_hit respond nx ny = flip_if respond (released_and_hit nx ny) 1.
Proof. reflexivity. Qed.

Lemma release_if_hit_flip nx ny :
  release_if_hit respond nx ny = flip_if respond (pressed_and_hit nx ny) 0.
Proof. reflexivity. Qed.

Lemma release_if_off_flip nx ny :
  release_if_off respond nx ny = flip_if respond (pressed_and_off nx ny) 0.
Proof. reflexivity. Qed.

Lemma release_if_pressed_flip :
  release_if_pressed respond = flip_if respond is_pressed 0.
Proof. reflexivity. Qed.

Lemma flip_if_at cond v pre b post g hist :
  buttons g = pre ++ b :: post ->
  flip_if respond cond v (Z.of_nat (length pre)) g hist =
  if cond b
  then (tt, with_buttons (pre ++ set_pressed v b :: post) g,
        synth_calls respond (hist ++ []) (key b) v)
  else (tt, g, []).
Proof.
  intros Hb. unfold flip_if, bind, get, modify, ret.
  rewrite (button_at_middle g pre b post Hb).
  destruct (cond b); [|reflexivity].
  rewrite (store_button_middle g pre b _ post Hb).
  rewrite (button_at_middle
             (with_buttons (pre ++ set_pressed v b :: post) g)
             pre (set_pressed v b) post eq_refl).
  rewrite synthesize_key_run. simpl. now rewrite !app_nil_r.
Qed.

(** One pass of a loop over the slots [mid], which follow [pre]. *)
Lemma for_loop_flip cond v mid :
  forall pre post g hist,
    buttons g = pre ++ mid ++ post ->
    let r := for_loop (length mid) (Z.of_nat (length pre))
               (flip_if respond cond v) g hist in
    state_of r = with_buttons (pre ++ scan cond v mid ++ post) g /\
    key_events (calls_of r) = map (flip_event v) (List.filter cond mid) /\
    (List.filter cond mid = [] -> calls_of r = []).
Proof.
  induction mid as [|b mid IH]; intros pre post g hist Hb r.
  - subst r. simpl. split; [|split]; try reflexivity.
    symmetry. now apply with_buttons_same.
  - subst r. cbn [length for_loop]. unfold bind.
    rewrite (flip_if_at cond v pre b (mid ++ post) g hist Hb).
    cbn [scan map List.filter].
    destruct (cond b) eqn:Hc.
    + set (g1 := with_buttons (pre ++ set_pressed v b :: mid ++ post) g).
      set (d1 := synth_calls respond (hist ++ []) (key b) v).
      assert (Hb1 : buttons g1 = (pre ++ [set_pressed v b]) ++ mid ++ post).
      { subst g1. simpl. now rewrite <- app_assoc. }
      assert (Hi : Z.of_nat (length pre) + 1 =
                   Z.of_nat (length (pre ++ [set_pressed v b]))).
      { rewrite length_app. simpl. lia. }
      rewrite Hi.
      destruct (IH _ _ g1 (hist ++ d1) Hb1) as (Hs & He & _).
      destruct (for_loop _ _ _ g1 (hist ++ d1)) as [[u g2] d2].
      unfold state_of, calls_of in *. cbn [fst snd] in *.
      split; [|split].
      * rewrite Hs. subst g1. rewrite with_buttons_twice.
        now rewrite <- app_assoc.
      * rewrite key_events_app, He. subst d1.
        rewrite synth_calls_key_events. reflexivity.
      * discriminate.
    + assert (Hb1 : buttons g = (pre ++ [b]) ++ mid ++ post).
      { rewrite Hb. now rewrite <- app_assoc. }
      assert (Hi : Z.of_nat (length pre) + 1 =
                   Z.of_nat (length (pre ++ [b]))).
      { rewrite length_app. simpl. lia. }
      rewrite Hi.
      destruct (IH _ _ g (hist ++ []) Hb1) as (Hs & He & Hn).
      destruct (for_loop _ _ _ g (hist ++ [])) as [[u g2] d2].
      unfold state_of, calls_of in *. cbn [fst snd] in *.
      split; [|split].
      * rewrite Hs. now rewrite <- app_assoc.
      * exact He.
      * exact Hn.
Qed.

(** A whole loop [for (i = 0; i < button_count; ++i)]. *)
Lemma for_each_flip cond v g hist :
  vc_wf g ->
  let r := for_each_button (flip_if respond cond v) g hist in
  state_of r =
    with_buttons (scan cond v (registered g) ++ unused_slots g) g /\
  key_events (calls_of r) =
    map (flip_event v) (List.filter cond (registered g)) /\
  (List.filter cond (registered g) = [] -> calls_of r = []).
Proof.
  intros Hwf r. subst r. unfold for_each_button, bind, get.
  rewrite <- (wf_registered_length g Hwf).
  pose proof (for_loop_flip cond v (registered g) [] (unused_slots g) g
                (hist ++ []) (wf_registered_split g Hwf)) as H.
  cbn [length Z.of_nat app] in H.
  destruct (for_loop _ _ _ g (hist ++ [])) as [[u g2] d2].
  exact H.
Qed.

End Loops.

(* ===================================================================== *)
(** ** List facts about [scan], [List.filter] and [transitions] *)
(* ===================================================================== *)

Lemma set_pressed_same v b : pressed b = v -> set_pressed v b = b.
Proof. intros <-. now destruct b. Qed.

Lemma set_pressed_twice u v b :
  set_pressed u (set_pressed v b) = set_pressed u b.
Proof. reflexivity. Qed.

Lemma point_in_button_set_pressed v b nx ny :
  point_in_button (set_pressed v b) nx ny = point_in_button b nx ny.
Proof. reflexivity. Qed.

Lemma scan_length cond v bs : length (scan cond v bs) = length bs.
Proof. apply length_map. Qed.

Lemma scan_lookup cond v bs j b :
  bs !! j = Some b ->
  scan cond v bs !! j = Some (if cond b then set_pressed v b else b).
Proof. intros H. unfold scan. now rewrite list_lookup_fmap, H. Qed.

Lemma filter_nil_forall {A} (p : A -> bool) l a :
  List.filter p l = [] -> In a l -> p a = false.
Proof.
  induction l as [|c l IH]; simpl; [tauto|].
  destruct (p c) eqn:Hc; [discriminate|].
  intros Hf [<- | Hin]; auto.
Qed.

Lemma scan_none cond v bs : List.filter cond bs = [] -> scan cond v bs = bs.
Proof.
  induction bs as [|c bs IH]; simpl; [reflexivity|].
  destruct (cond c); [discriminate|]. intros H. now rewrite IH.
Qed.

(** When a single slot is selected, the pass is one array store. *)
Lemma scan_single cond v bs :
  forall i b,
    bs !! i = Some b -> List.filter cond bs = [b] ->
    scan cond v bs = <[i := set_pressed v b]> bs.
Proof.
  induction bs as [|c bs IH]; intros i b Hi Hf; [discriminate|].
  simpl in Hf. destruct (cond c) eqn:Hc.
  - injection Hf as -> Hnil. destruct i as [|i]; simpl.
    + rewrite Hc. f_equal. now apply scan_none.
    + simpl in Hi. apply list_elem_of_lookup_2, list_elem_of_In in Hi.
      rewrite (filter_nil_forall cond bs b Hnil Hi) in Hc. discriminate.
  - destruct i as [|i]; simpl in *.
    + injection Hi as ->.
      assert (In b (List.filter cond bs)) as Hin by (rewrite Hf; now left).
      apply filter_In in Hin. destruct Hin as [_ Hin]. congruence.
    + rewrite Hc. f_equal. now apply IH.
Qed.


Lemma transition_same b : transition b b = [].
Proof. unfold transition. now destruct (pressed b =? 0). Qed.

Lemma transitions_same bs : transitions bs bs = [].
Proof.
  unfold transitions. induction bs as [|b bs IH]; simpl; [reflexivity|].
  now rewrite transition_same, IH.
Qed.

Lemma transitions_app l1 l2 k1 k2 :
  length l1 = length k1 ->
  transitions (l1 ++ l2) (k1 ++ k2) = transitions l1 k1 ++ transitions l2 k2.
Proof.
  intros Hl. unfold transitions.
  rewrite zip_with_app by exact Hl. apply concat_app.
Qed.

Lemma transitions_scan cond v bs :
  flips cond v ->
  transitions bs (scan cond v bs) = map (flip_event v) (List.filter cond bs).
Proof.
  intros Hfl. unfold transitions.
  induction bs as [|b bs IH]; simpl; [reflexivity|].
  rewrite IH. destruct (cond b) eqn:Hc.
  - specialize (Hfl b Hc). unfold transition, flip_event. simpl.
    rewrite Hfl. now destruct (v =? 0).
  - now rewrite transition_same.
Qed.

Lemma flips_released_and_hit nx ny : flips (released_and_hit nx ny) 1.
Proof.
  intros b H. unfold released_and_hit in H.
  apply andb_true_iff in H. now destruct H as [-> _].
Qed.

Lemma flips_is_pressed : flips is_pressed 0.
Proof.
  intros b H. unfold is_pressed in H.
  now destruct (pressed b =? 0).
Qed.

Lemma flips_pressed_and_hit nx ny : flips (pressed_and_hit nx ny) 0.
Proof.
  intros b H. apply andb_true_iff in H. now apply flips_is_pressed.
Qed.

Lemma flips_pressed_and_off nx ny : flips (pressed_and_off nx ny) 0.
Proof.
  intros b H. apply andb_true_iff in H. now apply flips_is_pressed.
Qed.

(** A second press pass at the same point selects nothing. *)
Lemma filter_released_after_press nx ny bs :
  List.filter (released_and_hit nx ny)
    (scan (released_and_hit nx ny) 1 bs) = [].
Proof.
  induction bs as [|b bs IH]; simpl; [reflexivity|].
  destruct (released_and_hit nx ny b) eqn:Hc.
  - unfold released_and_hit at 1. simpl. exact IH.
  - rewrite Hc. exact IH.
Qed.

(** Press then release at a point that lies in no pressed button. *)
Lemma press_release_roundtrip nx ny bs b :
  List.filter (released_and_hit nx ny) bs = [b] ->
  List.filter (pressed_and_hit nx ny) bs = [] ->
  List.filter (pressed_and_hit nx ny)
    (scan (released_and_hit nx ny) 1 bs) = [set_pressed 1 b] /\
  scan (pressed_and_hit nx ny) 0 (scan (released_and_hit nx ny) 1 bs) = bs.
Proof.
  induction bs as [|c bs IH]; simpl; [discriminate|].
  destruct (pressed_and_hit nx ny c) eqn:Hq; [discriminate|].
  destruct (released_and_hit nx ny c) eqn:Hp; intros Hf Hn.
  - injection Hf as -> Hnil.
    unfold released_and_hit in Hp. apply andb_true_iff in Hp.
    destruct Hp as [Hrel Hhit]. apply Z.eqb_eq in Hrel.
    rewrite (scan_none _ 1 bs Hnil), Hn, (scan_none _ 0 bs Hn).
    assert (Hq1 : pressed_and_hit nx ny (set_pressed 1 b) = true).
    { unfold pressed_and_hit, is_pressed, hit in *. simpl.
      now rewrite point_in_button_set_pressed, Hhit. }
    rewrite Hq1, set_pressed_twice, (set_pressed_same 0 b Hrel). auto.
  - rewrite Hq. destruct (IH Hf Hn) as [-> ->]. auto.
Qed.

(* ===================================================================== *)
(** ** The event handlers as passes over the registered buttons *)
(* ===================================================================== *)


Lemma pass_frame cond v g r :
  pass cond v g r -> state_of r = with_buttons (buttons (state_of r)) g.
Proof. intros (-> & _). reflexivity. Qed.

Lemma pass_wf cond v g r : vc_wf g -> pass cond v g r -> vc_wf (state_of r).
Proof.
  intros Hwf (-> & _). destruct Hwf as [Hlen Hc]. split; [|exact Hc].
  simpl. rewrite length_app, scan_length, <- length_app.
  unfold registered, unused_slots. now rewrite take_drop.
Qed.

Lemma pass_registered cond v g r :
  vc_wf g -> pass cond v g r ->
  registered (state_of r) = scan cond v (registered g).
Proof.
  intros Hwf (-> & _). unfold registered at 1. simpl.
  rewrite take_app_length'; [reflexivity|].
  now rewrite scan_length, (wf_registered_length g Hwf).
Qed.

Lemma pass_unused cond v g r :
  vc_wf g -> pass cond v g r -> unused_slots (state_of r) = unused_slots g.
Proof.
  intros Hwf (-> & _). unfold unused_slots at 1. simpl.
  rewrite drop_app_length'; [reflexivity|].
  now rewrite scan_length, (wf_registered_length g Hwf).
Qed.

Lemma pass_lookup cond v g r j b :
  pass cond v g r -> registered g !! j = Some b ->
  buttons (state_of r) !! j = Some (if cond b then set_pressed v b else b).
Proof.
  intros (-> & _) Hj. simpl.
  rewrite lookup_app_l.
  - now apply scan_lookup.
  - rewrite scan_length. now apply lookup_lt_Some in Hj.
Qed.

Lemma pass_single cond v g r i b :
  vc_wf g -> pass cond v g r ->
  registered g !! i = Some b -> List.filter cond (registered g) = [b] ->
  state_of r = with_buttons (<[i := set_pressed v b]> (buttons g)) g /\
  key_events (calls_of r) = [flip_event v b].
Proof.
  intros Hwf (-> & -> & _) Hi Hf. split.
  - rewrite (scan_single cond v _ i b Hi Hf).
    rewrite (wf_registered_split g Hwf) at 1.
    rewrite insert_app_l; [reflexivity|]. now apply lookup_lt_Some in Hi.
  - now rewrite Hf.
Qed.

Lemma pass_transitions cond v g r :
  vc_wf g -> flips cond v -> pass cond v g r ->
  key_events (calls_of r) = transitions (buttons g) (buttons (state_of r)).
Proof.
  intros Hwf Hfl (-> & -> & _). simpl.
  rewrite (wf_registered_split g Hwf) at 1.
  rewrite transitions_app by (now rewrite scan_length).
  rewrite transitions_same, app_nil_r. symmetry.
  now apply transitions_scan.
Qed.

Section Handlers.

Variable respond : forall R : Type, list Ev -> ExtCall R -> R.

Local Abbreviation finger_event :=
  (VirtualControls_HandleFingerEvent respond).
Local Abbreviation mouse_event :=
  (VirtualControls_HandleMouseEvent respond).

Lemma finger_down_pass g hist nx ny :
  vc_wf g ->
  pass (released_and_hit nx ny) 1 g
    (finger_event (Some (mkFinger SDL_FINGERDOWN nx ny)) g hist).
Proof.
  intros Hwf. unfold VirtualControls_HandleFingerEvent. simpl.
  rewrite press_if_hit_flip. now apply for_each_flip.
Qed.

Lemma finger_up_pass g hist nx ny :
  vc_wf g ->
  pass (pressed_and_hit nx ny) 0 g
    (finger_event (Some (mkFinger SDL_FINGERUP nx ny)) g hist).
Proof.
  intros Hwf. unfold VirtualControls_HandleFingerEvent. simpl.
  rewrite release_if_hit_flip. now apply for_each_flip.
Qed.

Lemma finger_motion_pass g hist nx ny :
  vc_wf g ->
  pass (pressed_and_off nx ny) 0 g
    (finger_event (Some (mkFinger SDL_FINGERMOTION nx ny)) g hist).
Proof.
  intros Hwf. unfold VirtualControls_HandleFingerEvent. simpl.
  rewrite release_if_off_flip. now apply for_each_flip.
Qed.


Lemma mouse_down_pass g hist mx my :
  vc_wf g ->
  let mb := mkMouse SDL_PRESSED mx my in
  pass (released_and_hit (mouse_nx g mb) (mouse_ny g mb)) 1 g
    (mouse_event (Some mb) g hist).
Proof.
  intros Hwf mb. unfold VirtualControls_HandleMouseEvent, bind, get.
  simpl. rewrite press_if_hit_flip.
  pose proof (for_each_flip respond
                (released_and_hit (mouse_nx g mb) (mouse_ny g mb)) 1 g
                (hist ++ []) Hwf) as H.
  unfold mouse_nx, mouse_ny in *. simpl in H.
  destruct (for_each_button _ g (hist ++ [])) as [[u g2] d2].
  exact H.
Qed.

Lemma mouse_up_pass g hist mx my :
  vc_wf g ->
  pass is_pressed 0 g
    (mouse_event (Some (mkMouse SDL_RELEASED mx my)) g hist).
Proof.
  intros Hwf. unfold VirtualControls_HandleMouseEvent, bind, get.
  simpl. rewrite release_if_pressed_flip.
  pose proof (for_each_flip respond is_pressed 0 g (hist ++ []) Hwf) as H.
  simpl in H.
  destruct (for_each_button _ g (hist ++ [])) as [[u g2] d2].
  exact H.
Qed.

End Handlers.

(* ===================================================================== *)
(** ** Guards in terms of the flag and of [point_in_button] *)
(* ===================================================================== *)

Lemma is_pressed_true b : is_pressed b = true <-> pressed b <> 0.
Proof.
  unfold is_pressed. destruct (Z.eqb_spec (pressed b) 0); simpl.
  - split; [discriminate | tauto].
  - tauto.
Qed.

Lemma is_pressed_false b : is_pressed b = false <-> pressed b = 0.
Proof.
  unfold is_pressed. destruct (Z.eqb_spec (pressed b) 0); simpl.
  - tauto.
  - split; [discriminate | tauto].
Qed.

Lemma hit_true nx ny b : hit nx ny b = true <-> point_in_button b nx ny <> 0.
Proof.
  unfold hit. destruct (Z.eqb_spec (point_in_button b nx ny) 0); simpl.
  - split; [discriminate | tauto].
  - tauto.
Qed.

Lemma hit_false nx ny b : hit nx ny b = false <-> point_in_button b nx ny = 0.
Proof.
  unfold hit. destruct (Z.eqb_spec (point_in_button b nx ny) 0); simpl.
  - tauto.
  - split; [discriminate | tauto].
Qed.

Lemma init_state_wf : vc_wf init_state.
Proof. split; [reflexivity | split; vm_compute; discriminate]. Qed.

(* ===================================================================== *)
(** ** Geometry/State store: resize and registration *)
(* ===================================================================== *)

(** C9. [VirtualControls_OnWindowResized] writes the two window dimensions
    and nothing else: the button array (bounds, key, id and pressed flag of
    every slot), the button count and the GL handles are unchanged, and no
    library call is made, so no key event is pushed. *)
Theorem resize_updates_only_window_size (new_w new_h : Z) (g : VC)
    (hist : list Ev) :
  let r := VirtualControls_OnWindowResized new_w new_h g hist in
  window_w (state_of r) = new_w /\
  window_h (state_of r) = new_h /\
  buttons (state_of r) = buttons g /\
  button_count (state_of r) = button_count g /\
  vc_prog (state_of r) = vc_prog g /\
  vc_vbo (state_of r) = vc_vbo g /\
  vc_loc_pos (state_of r) = vc_loc_pos g /\
  vc_loc_col (state_of r) = vc_loc_col g /\
  calls_of r = [] /\
  key_events (calls_of r) = [].
Proof. repeat split. Qed.

Lemma vc_add_button_run bx by_ bw bh k g hist :
  vc_add_button bx by_ bw bh k g hist =
  if button_count g >=? MAX_BUTTONS then (-1, g, [])
  else (button_count g,
        with_button_count (button_count g + 1)
          (store_button (button_count g)
             (mkButton bx by_ bw bh k (button_count g) 0) g),
        []).
Proof.
  unfold vc_add_button, bind, get, modify, ret.
  now destruct (button_count g >=? MAX_BUTTONS).
Qed.

(** C3. With all 16 slots in use [vc_add_button] returns -1 and leaves the
    statics as they were (nothing stored, the count still 16).  With fewer
    than 16 buttons it returns the previous count, which is the id written
    into the new slot, and the count grows by one. *)
Theorem vc_add_button_capacity (bx by_ bw bh : F32.t) (k : Z) (g : VC)
    (hist : list Ev) :
  vc_wf g ->
  let r := vc_add_button bx by_ bw bh k g hist in
  (button_count g = 16 ->
     value_of r = -1 /\ state_of r = g /\ button_count (state_of r) = 16) /\
  (button_count g < 16 ->
     value_of r = button_count g /\
     button_count (state_of r) = button_count g + 1 /\
     buttons (state_of r) !! Z.to_nat (button_count g) =
       Some (mkButton bx by_ bw bh k (value_of r) 0) /\
     (forall j, j <> Z.to_nat (button_count g) ->
        buttons (state_of r) !! j = buttons g !! j)) /\
  calls_of r = [] /\
  vc_wf (state_of r).
Proof.
  intros [Hlen Hc] r. subst r. rewrite vc_add_button_run.
  unfold MAX_BUTTONS in *.
  destruct (Z.geb_spec (button_count g) 16) as [Hge | Hlt]; simpl.
  - split; [intros Hfull; repeat split; exact Hfull|].
    split; [intros Hless; lia|]. split; [reflexivity|]. now split.
  - split; [intros ?; lia|]. split; [|split; [reflexivity|]].
    + intros _. repeat split.
      * apply list_lookup_insert_eq. lia.
      * intros j Hj. now apply list_lookup_insert_ne.
    + split; simpl; unfold MAX_BUTTONS; [now rewrite length_insert | lia].
Qed.

Lemma full_state_wf : vc_wf full_state.
Proof. split; [reflexivity | split; vm_compute; discriminate]. Qed.

Lemma vc_add_button_capacity_witness :
  vc_wf full_state /\
  button_count full_state = 16 /\
  value_of (vc_add_button F32.zero F32.zero (F32.dec 1 10) (F32.dec 1 10)
              SDLK_UP full_state []) = -1 /\
  state_of (vc_add_button F32.zero F32.zero (F32.dec 1 10) (F32.dec 1 10)
              SDLK_UP full_state []) = full_state.
Proof.
  split; [exact full_state_wf|]. split; [reflexivity|].
  pose proof (vc_add_button_capacity F32.zero F32.zero (F32.dec 1 10)
                (F32.dec 1 10) SDLK_UP full_state [] full_state_wf) as H.
  destruct H as [Hfull _].
  destruct (Hfull eq_refl) as (Hv & Hs & _). split; assumption.
Defined.

(* ===================================================================== *)
(** ** Input translator *)
(* ===================================================================== *)

Lemma left_held_wf : vc_wf left_held.
Proof. split; [reflexivity | split; vm_compute; discriminate]. Qed.

Lemma overlap_state_wf : vc_wf overlap_state.
Proof. split; [reflexivity | split; vm_compute; discriminate]. Qed.

(** C4. A mouse event with state [SDL_RELEASED] releases every registered
    button that was pressed: afterwards the flag in its slot is 0, its
    bounds, key and id are as before, and no registered button is pressed
    any more.  It pushes one key-up per button that was pressed, in slot
    order and nothing else; buttons that were released keep their slot as
    it was.  The position of the release plays no part: the run is the
    same for any other coordinates. *)
Theorem mouse_release_clears_all_pressed
    (respond : forall R : Type, list Ev -> ExtCall R -> R)
    (mx my : Z) (g : VC) (hist : list Ev) :
  vc_wf g ->
  let r := VirtualControls_HandleMouseEvent respond
             (Some (mkMouse SDL_RELEASED mx my)) g hist in
  (forall j b, registered g !! j = Some b -> pressed b <> 0 ->
     exists b',
       buttons (state_of r) !! j = Some b' /\
       pressed b' = 0 /\ geometry b' = geometry b) /\
  (forall j b, registered g !! j = Some b -> pressed b = 0 ->
     buttons (state_of r) !! j = Some b) /\
  (forall j b', registered (state_of r) !! j = Some b' -> pressed b' = 0) /\
  key_events (calls_of r) =
    map (fun b => key_up (key b)) (List.filter is_pressed (registered g)) /\
  unused_slots (state_of r) = unused_slots g /\
  state_of r = with_buttons (buttons (state_of r)) g /\
  (forall mx' my',
     VirtualControls_HandleMouseEvent respond
       (Some (mkMouse SDL_RELEASED mx' my')) g hist = r).
Proof.
  intros Hwf r.
  pose proof (mouse_up_pass respond g hist mx my Hwf) as Hp. fold r in Hp.
  split; [|split; [|split; [|split; [|split; [|split]]]]].
  - intros j b Hj Hb. exists (set_pressed 0 b).
    rewrite (pass_lookup _ _ _ _ j b Hp Hj).
    apply is_pressed_true in Hb. rewrite Hb. repeat split.
  - intros j b Hj Hb. rewrite (pass_lookup _ _ _ _ j b Hp Hj).
    apply is_pressed_false in Hb. now rewrite Hb.
  - intros j b' Hj. rewrite (pass_registered _ _ _ _ Hwf Hp) in Hj.
    unfold scan in Hj. rewrite list_lookup_fmap in Hj.
    destruct (registered g !! j) as [b|]; [|discriminate Hj].
    cbn in Hj. injection Hj as <-.
    destruct (is_pressed b) eqn:Hb; [reflexivity|].
    now apply is_pressed_false.
  - destruct Hp as (_ & He & _). exact He.
  - now apply (pass_unused _ _ _ _ Hwf Hp).
  - now apply (pass_frame _ _ _ _ Hp).
  - reflexivity.
Qed.

Lemma mouse_release_clears_all_pressed_witness :
  vc_wf left_held /\
  registered left_held !! 0%nat = Some (set_pressed 1 left_button) /\
  pressed (set_pressed 1 left_button) <> 0 /\
  key_events
    (calls_of (VirtualControls_HandleMouseEvent healthy_driver
                 (Some (mkMouse SDL_RELEASED 700 20)) left_held [])) =
  [key_up SDLK_LEFT] /\
  pressed <$>
    buttons
      (state_of (VirtualControls_HandleMouseEvent healthy_driver
                   (Some (mkMouse SDL_RELEASED 700 20)) left_held []))
    !! 0%nat = Some 0.
Proof.
  assert (Hj : registered left_held !! 0%nat =
               Some (set_pressed 1 left_button))
    by (vm_compute; reflexivity).
  assert (Hb : pressed (set_pressed 1 left_button) <> 0)
    by (vm_compute; discriminate).
  split; [exact left_held_wf|]. split; [exact Hj|]. split; [exact Hb|].
  destruct (mouse_release_clears_all_pressed healthy_driver 700 20
              left_held [] left_held_wf) as (Hclr & _ & _ & He & _).
  split; [exact He|].
  destruct (Hclr 0%nat (set_pressed 1 left_button) Hj Hb)
    as (b' & Hl & Hz & _).
  rewrite Hl. cbn. now rewrite Hz.
Defined.

(** C7. A finger-motion event at (nx, ny) releases every pressed registered
    button whose rectangle test fails at (nx, ny): afterwards the flag in
    its slot is 0 and its bounds, key and id are as before.  It pushes one
    key-up for each of them, in slot order and nothing else; a pressed
    button that still passes the test keeps its slot, flag included, and so
    does every released button: motion presses nothing. *)
Theorem finger_motion_releases_dragged_off
    (respond : forall R : Type, list Ev -> ExtCall R -> R)
    (nx ny : F32.t) (g : VC) (hist : list Ev) :
  vc_wf g ->
  let r := VirtualControls_HandleFingerEvent respond
             (Some (mkFinger SDL_FINGERMOTION nx ny)) g hist in
  (forall j b, registered g !! j = Some b ->
     pressed b <> 0 -> point_in_button b nx ny = 0 ->
     exists b',
       buttons (state_of r) !! j = Some b' /\
       pressed b' = 0 /\ geometry b' = geometry b) /\
  (forall j b, registered g !! j = Some b ->
     pressed b <> 0 -> point_in_button b nx ny <> 0 ->
     buttons (state_of r) !! j = Some b) /\
  (forall j b, registered g !! j = Some b -> pressed b = 0 ->
     buttons (state_of r) !! j = Some b) /\
  key_events (calls_of r) =
    map (fun b => key_up (key b))
      (List.filter (fun b => is_pressed b && (point_in_button b nx ny =? 0))
         (registered g)) /\
  unused_slots (state_of r) = unused_slots g /\
  state_of r = with_buttons (buttons (state_of r)) g.
Proof.
  intros Hwf r.
  pose proof (finger_motion_pass respond g hist nx ny Hwf) as Hp.
  fold r in Hp.
  split; [|split; [|split; [|split; [|split]]]].
  - intros j b Hj Hb Hoff. exists (set_pressed 0 b).
    rewrite (pass_lookup _ _ _ _ j b Hp Hj).
    unfold pressed_and_off. apply is_pressed_true in Hb.
    apply Z.eqb_eq in Hoff. rewrite Hb, Hoff. repeat split.
  - intros j b Hj Hb Hin. rewrite (pass_lookup _ _ _ _ j b Hp Hj).
    unfold pressed_and_off. apply Z.eqb_neq in Hin.
    now rewrite Hin, andb_false_r.
  - intros j b Hj Hb. rewrite (pass_lookup _ _ _ _ j b Hp Hj).
    unfold pressed_and_off. apply is_pressed_false in Hb. now rewrite Hb.
  - destruct Hp as (_ & He & _). exact He.
  - now apply (pass_unused _ _ _ _ Hwf Hp).
  - now apply (pass_frame _ _ _ _ Hp).
Qed.

Lemma finger_motion_releases_dragged_off_witness :
  vc_wf left_held /\
  registered left_held !! 0%nat = Some (set_pressed 1 left_button) /\
  pressed (set_pressed 1 left_button) <> 0 /\
  point_in_button (set_pressed 1 left_button) (fst off_all) (snd off_all)
    = 0 /\
  key_events
    (calls_of (VirtualControls_HandleFingerEvent healthy_driver
                 (Some (mkFinger SDL_FINGERMOTION (fst off_all) (snd off_all)))
                 left_held [])) =
  [key_up SDLK_LEFT] /\
  pressed <$>
    buttons
      (state_of (VirtualControls_HandleFingerEvent healthy_driver
                   (Some (mkFinger SDL_FINGERMOTION (fst off_all)
                            (snd off_all)))
                   left_held []))
    !! 0%nat = Some 0.
Proof.
  assert (Hj : registered left_held !! 0%nat =
               Some (set_pressed 1 left_button))
    by (vm_compute; reflexivity).
  assert (Hb : pressed (set_pressed 1 left_button) <> 0)
    by (vm_compute; discriminate).
  assert (Hoff : point_in_button (set_pressed 1 left_button)
                   (fst off_all) (snd off_all) = 0)
    by (vm_compute; reflexivity).
  split; [exact left_held_wf|]. split; [exact Hj|]. split; [exact Hb|].
  split; [exact Hoff|].
  destruct (finger_motion_releases_dragged_off healthy_driver
              (fst off_all) (snd off_all) left_held [] left_held_wf)
    as (Hclr & _ & _ & He & _).
  split; [exact He|].
  destruct (Hclr 0%nat (set_pressed 1 left_button) Hj Hb Hoff)
    as (b' & Hl & Hz & _).
  rewrite Hl. cbn. now rewrite Hz.
Defined.

Lemma finger_event_other
    (respond : forall R : Type, list Ev -> ExtCall R -> R) ty nx ny g hist :
  ty <> SDL_FINGERDOWN -> ty <> SDL_FINGERUP -> ty <> SDL_FINGERMOTION ->
  VirtualControls_HandleFingerEvent respond (Some (mkFinger ty nx ny)) g hist
  = (tt, g, []).
Proof.
  intros H1 H2 H3. unfold VirtualControls_HandleFingerEvent. simpl.
  apply Z.eqb_neq in H1, H2, H3. now rewrite H1, H2, H3.
Qed.

Lemma mouse_event_other
    (respond : forall R : Type, list Ev -> ExtCall R -> R) st mx my g hist :
  st <> SDL_PRESSED -> st <> SDL_RELEASED ->
  VirtualControls_HandleMouseEvent respond (Some (mkMouse st mx my)) g hist
  = (tt, g, []).
Proof.
  intros H1 H2. unfold VirtualControls_HandleMouseEvent, bind, get. simpl.
  apply Z.eqb_neq in H1, H2. now rewrite H1, H2.
Qed.

(** Whatever the event, a handler changes nothing but the button array,
    and keeps it in shape. *)
Lemma finger_event_frame
    (respond : forall R : Type, list Ev -> ExtCall R -> R) tf g hist :
  vc_wf g ->
  let r := VirtualControls_HandleFingerEvent respond tf g hist in
  vc_wf (state_of r) /\
  state_of r = with_buttons (buttons (state_of r)) g.
Proof.
  intros Hwf r. subst r. destruct tf as [[ty nx ny]|].
  - destruct (Z.eq_dec ty SDL_FINGERDOWN) as [-> | H1].
    { pose proof (finger_down_pass respond g hist nx ny Hwf) as Hp.
      split; [now apply (pass_wf _ _ _ _ Hwf Hp) | now apply pass_frame in Hp]. }
    destruct (Z.eq_dec ty SDL_FINGERUP) as [-> | H2].
    { pose proof (finger_up_pass respond g hist nx ny Hwf) as Hp.
      split; [now apply (pass_wf _ _ _ _ Hwf Hp) | now apply pass_frame in Hp]. }
    destruct (Z.eq_dec ty SDL_FINGERMOTION) as [-> | H3].
    { pose proof (finger_motion_pass respond g hist nx ny Hwf) as Hp.
      split; [now apply (pass_wf _ _ _ _ Hwf Hp) | now apply pass_frame in Hp]. }
    rewrite (finger_event_other respond ty nx ny g hist H1 H2 H3).
    split; [exact Hwf | symmetry; now apply with_buttons_same].
  - split; [exact Hwf | symmetry; now apply with_buttons_same].
Qed.

Lemma mouse_event_frame
    (respond : forall R : Type, list Ev -> ExtCall R -> R) mb g hist :
  vc_wf g ->
  let r := VirtualControls_HandleMouseEvent respond mb g hist in
  vc_wf (state_of r) /\
  state_of r = with_buttons (buttons (state_of r)) g.
Proof.
  intros Hwf r. subst r. destruct mb as [[st mx my]|].
  - destruct (Z.eq_dec st SDL_PRESSED) as [-> | H1].
    { pose proof (mouse_down_pass respond g hist mx my Hwf) as Hp.
      split; [now apply (pass_wf _ _ _ _ Hwf Hp) | now apply pass_frame in Hp]. }
    destruct (Z.eq_dec st SDL_RELEASED) as [-> | H2].
    { pose proof (mouse_up_pass respond g hist mx my Hwf) as Hp.
      split; [now apply (pass_wf _ _ _ _ Hwf Hp) | now apply pass_frame in Hp]. }
    rewrite (mouse_event_other respond st mx my g hist H1 H2).
    split; [exact Hwf | symmetry; now apply with_buttons_same].
  - split; [exact Hwf | symmetry; now apply with_buttons_same].
Qed.

(** C10. For every finger event and every mouse event (a null pointer and
    an event of another kind included), the key events pushed are exactly
    those implied by the change of the pressed flags, slot by slot: a
    key-down of the button's key where the flag went from released to
    pressed, a key-up where it went from pressed to released, and nothing
    for a slot whose flag kept its value. *)
Theorem key_events_match_flag_transitions
    (respond : forall R : Type, list Ev -> ExtCall R -> R)
    (g : VC) (hist : list Ev) :
  vc_wf g ->
  (forall tf,
     let r := VirtualControls_HandleFingerEvent respond tf g hist in
     key_events (calls_of r) =
       transitions (buttons g) (buttons (state_of r)) /\
     vc_wf (state_of r)) /\
  (forall mb,
     let r := VirtualControls_HandleMouseEvent respond mb g hist in
     key_events (calls_of r) =
       transitions (buttons g) (buttons (state_of r)) /\
     vc_wf (state_of r)).
Proof.
  intros Hwf. split.
  - intros [[ty nx ny]|] r; subst r.
    + destruct (Z.eq_dec ty SDL_FINGERDOWN) as [-> | H1].
      { pose proof (finger_down_pass respond g hist nx ny Hwf) as Hp.
        split; [|now apply (pass_wf _ _ _ _ Hwf Hp)].
        apply (pass_transitions _ _ _ _ Hwf (flips_released_and_hit nx ny) Hp). }
      destruct (Z.eq_dec ty SDL_FINGERUP) as [-> | H2].
      { pose proof (finger_up_pass respond g hist nx ny Hwf) as Hp.
        split; [|now apply (pass_wf _ _ _ _ Hwf Hp)].
        apply (pass_transitions _ _ _ _ Hwf (flips_pressed_and_hit nx ny) Hp). }
      destruct (Z.eq_dec ty SDL_FINGERMOTION) as [-> | H3].
      { pose proof (finger_motion_pass respond g hist nx ny Hwf) as Hp.
        split; [|now apply (pass_wf _ _ _ _ Hwf Hp)].
        apply (pass_transitions _ _ _ _ Hwf (flips_pressed_and_off nx ny) Hp). }
      rewrite (finger_event_other respond ty nx ny g hist H1 H2 H3).
      simpl. now rewrite transitions_same.
    + simpl. now rewrite transitions_same.
  - intros [[st mx my]|] r; subst r.
    + destruct (Z.eq_dec st SDL_PRESSED) as [-> | H1].
      { pose proof (mouse_down_pass respond g hist mx my Hwf) as Hp.
        split; [|now apply (pass_wf _ _ _ _ Hwf Hp)].
        apply (pass_transitions _ _ _ _ Hwf (flips_released_and_hit _ _) Hp). }
      destruct (Z.eq_dec st SDL_RELEASED) as [-> | H2].
      { pose proof (mouse_up_pass respond g hist mx my Hwf) as Hp.
        split; [|now apply (pass_wf _ _ _ _ Hwf Hp)].
        apply (pass_transitions _ _ _ _ Hwf flips_is_pressed Hp). }
      rewrite (mouse_event_other respond st mx my g hist H1 H2).
      simpl. now rewrite transitions_same.
    + simpl. now rewrite transitions_same.
Qed.

Lemma key_events_match_flag_transitions_witness :
  vc_wf left_held /\
  key_events
    (calls_of (VirtualControls_HandleFingerEvent healthy_driver
                 (Some (mkFinger SDL_FINGERUP (fst on_left) (snd on_left)))
                 left_held [])) =
  transitions (buttons left_held)
    (buttons
       (state_of (VirtualControls_HandleFingerEvent healthy_driver
                    (Some (mkFinger SDL_FINGERUP (fst on_left) (snd on_left)))
                    left_held []))).
Proof.
  split; [exact left_held_wf|].
  destruct (key_events_match_flag_transitions healthy_driver left_held []
              left_held_wf) as [Hf _].
  exact (proj1 (Hf (Some (mkFinger SDL_FINGERUP (fst on_left)
                            (snd on_left))))).
Defined.

(** C6. If exactly one registered button is released and passes the
    rectangle test at (nx, ny), a finger-down there pushes exactly one key
    event, the key-down of that button, and stores 1 in its flag, leaving
    every other slot as it was; a second finger-down at the same point
    right after makes no library call at all and changes nothing. *)
Theorem finger_down_presses_once
    (respond : forall R : Type, list Ev -> ExtCall R -> R)
    (nx ny : F32.t) (g : VC) (hist : list Ev) (i : nat) (b : VC_Button) :
  vc_wf g ->
  registered g !! i = Some b ->
  List.filter (fun c => (pressed c =? 0) && negb (point_in_button c nx ny =? 0))
    (registered g) = [b] ->
  let down := Some (mkFinger SDL_FINGERDOWN nx ny) in
  let r1 := VirtualControls_HandleFingerEvent respond down g hist in
  let r2 := VirtualControls_HandleFingerEvent respond down (state_of r1)
              (hist ++ calls_of r1) in
  key_events (calls_of r1) = [key_down (key b)] /\
  state_of r1 = with_buttons (<[i := set_pressed 1 b]> (buttons g)) g /\
  calls_of r2 = [] /\
  key_events (calls_of r2) = [] /\
  state_of r2 = state_of r1.
Proof.
  intros Hwf Hi Hf down r1 r2.
  pose proof (finger_down_pass respond g hist nx ny Hwf) as Hp1.
  fold down in Hp1. fold r1 in Hp1.
  pose proof (pass_wf _ _ _ _ Hwf Hp1) as Hwf1.
  pose proof (finger_down_pass respond (state_of r1) (hist ++ calls_of r1)
                nx ny Hwf1) as Hp2.
  fold down in Hp2. fold r2 in Hp2.
  destruct (pass_single _ _ _ _ i b Hwf Hp1 Hi Hf) as [Hs1 He1].
  assert (Hnone : List.filter (released_and_hit nx ny)
                    (registered (state_of r1)) = []).
  { rewrite (pass_registered _ _ _ _ Hwf Hp1).
    apply filter_released_after_press. }
  destruct Hp2 as (Hs2 & He2 & Hc2).
  split; [exact He1|]. split; [exact Hs1|].
  split; [now apply Hc2|]. split; [now rewrite (Hc2 Hnone)|].
  rewrite Hs2, (scan_none _ _ _ Hnone).
  apply with_buttons_same. now apply wf_registered_split.
Qed.

Lemma finger_down_presses_once_witness :
  vc_wf init_state /\
  key_events
    (calls_of (VirtualControls_HandleFingerEvent healthy_driver
                 (Some (mkFinger SDL_FINGERDOWN (fst on_left) (snd on_left)))
                 init_state [])) =
  [key_down SDLK_LEFT].
Proof.
  split; [exact init_state_wf|].
  destruct (finger_down_presses_once healthy_driver (fst on_left)
              (snd on_left) init_state [] 0
              left_button init_state_wf) as (He & _).
  - reflexivity.
  - vm_compute. reflexivity.
  - exact He.
Defined.

(* ===================================================================== *)
(** ** Rules for [holds] *)
(* ===================================================================== *)

Lemma holds_ret {A} (a : A) g (Q : A -> VC -> list Ev -> Prop) :
  Q a g [] -> holds (ret a) g Q.
Proof. intros H hist. exact H. Qed.

Lemma holds_get g (Q : VC -> VC -> list Ev -> Prop) :
  Q g g [] -> holds get g Q.
Proof. intros H hist. exact H. Qed.

Lemma holds_modify f g (Q : unit -> VC -> list Ev -> Prop) :
  Q tt (f g) [] -> holds (modify f) g Q.
Proof. intros H hist. exact H. Qed.

Lemma holds_call (respond : forall R : Type, list Ev -> ExtCall R -> R)
    {R} (c : ExtCall R) g (Q : R -> VC -> list Ev -> Prop) :
  (forall r, Q r g [c |-> r]) -> holds (call respond c) g Q.
Proof. intros H hist. apply H. Qed.

Lemma holds_bind {A B} (m : M A) (f : A -> M B) g
    (Q : B -> VC -> list Ev -> Prop) :
  holds m g (fun a g1 d1 =>
    holds (f a) g1 (fun b g2 d2 => Q b g2 (d1 ++ d2))) ->
  holds (bind m f) g Q.
Proof.
  intros H hist. specialize (H hist). unfold bind.
  destruct (m g hist) as [[a g1] d1].
  unfold value_of, state_of, calls_of in H. cbn [fst snd] in H.
  specialize (H (hist ++ d1)).
  destruct (f a g1 (hist ++ d1)) as [[b g2] d2].
  exact H.
Qed.

Lemma holds_weaken {A} (m : M A) g (Q Q' : A -> VC -> list Ev -> Prop) :
  holds m g Q -> (forall a g' d, Q a g' d -> Q' a g' d) -> holds m g Q'.
Proof. intros H HQ hist. apply HQ, H. Qed.

Ltac holds_step :=
  first
    [ apply holds_bind
    | apply holds_call; intros ?
    | apply holds_get
    | apply holds_modify
    | apply holds_ret
    | match goal with
      | |- holds (if ?c then _ else _) _ _ => destruct c eqn:?
      end ];
  cbv beta.

(* ===================================================================== *)
(** ** Renderer resources *)
(* ===================================================================== *)

Section Renderer.

Variable respond : forall R : Type, list Ev -> ExtCall R -> R.

(** [vc_create_shader] logs one line per stage whose status reads zero and
    goes on: the statics get the names that [glCreateProgram] and
    [glGenBuffers] answered, whatever the three statuses were. *)
Lemma vc_create_shader_spec g :
  holds (vc_create_shader respond) g (fun _ g' d =>
    exists vs_ok fs_ok link_ok p vbo,
      compile_statuses d = [vs_ok; fs_ok] /\
      link_statuses d = [link_ok] /\
      created_programs d = [p] /\
      generated_buffers d = [vbo] /\
      logged d = expected_log vs_ok fs_ok link_ok /\
      used_programs d = [] /\ drawn d = [] /\
      g' = with_vbo vbo (with_locs 0 1 (with_prog p g))).
Proof.
  unfold vc_create_shader.
  repeat holds_step;
    (eexists _, _, _, _, _; cbn;
     repeat split; unfold expected_log;
     repeat match goal with H : (_ =? 0) = _ |- _ => rewrite H; clear H end;
     reflexivity).
Qed.

End Renderer.

Section Drawing.

Variable respond : forall R : Type, list Ev -> ExtCall R -> R.

(** A draw with at least one button.  With a zero program handle it first
    runs [vc_create_shader] and then draws with the names just stored; with
    a non-zero handle it creates nothing, draws with that handle and leaves
    the statics alone. *)
Lemma draw_spec g :
  button_count g <> 0 ->
  holds (VirtualControls_Draw respond) g (fun _ g' d =>
    if vc_prog g =? 0 then
      exists vs_ok fs_ok link_ok p vbo,
        compile_statuses d = [vs_ok; fs_ok] /\
        link_statuses d = [link_ok] /\
        created_programs d = [p] /\
        generated_buffers d = [vbo] /\
        logged d = expected_log vs_ok fs_ok link_ok /\
        used_programs d = [p; 0] /\
        length (drawn d) = 1%nat /\
        g' = with_vbo vbo (with_locs 0 1 (with_prog p g))
    else
      compile_statuses d = [] /\
      link_statuses d = [] /\
      created_programs d = [] /\
      generated_buffers d = [] /\
      logged d = [] /\
      used_programs d = [vc_prog g; 0] /\
      length (drawn d) = 1%nat /\
      g' = g).
Proof.
  intros Hn. unfold VirtualControls_Draw.
  holds_step. holds_step.
  destruct (Z.eqb_spec (button_count g) 0) as [|_]; [contradiction|].
  holds_step.
  destruct (vc_prog g =? 0) eqn:Hp.
  - apply (holds_weaken _ _ _ _ (vc_create_shader_spec respond g)).
    intros _ g1 d1 (vs_ok & fs_ok & link_ok & p & vbo &
                    H1 & H2 & H3 & H4 & H5 & H6 & H7 & ->).
    repeat holds_step.
    all: exists vs_ok, fs_ok, link_ok, p, vbo.
    all: unfold compile_statuses, link_statuses, created_programs,
           generated_buffers, logged, used_programs, drawn in *.
    all: rewrite !omap_app, ?H1, ?H2, ?H3, ?H4, ?H5, ?H6, ?H7.
    all: cbn; repeat split; apply app_nil_r.
  - repeat holds_step.
    all: cbn; repeat split.
Qed.

(** The two cases of [draw_spec] at a given history. *)
Lemma draw_creates g hist :
  button_count g <> 0 -> vc_prog g = 0 ->
  exists vs_ok fs_ok link_ok p vbo,
    compile_statuses (calls_of (VirtualControls_Draw respond g hist)) =
      [vs_ok; fs_ok] /\
    link_statuses (calls_of (VirtualControls_Draw respond g hist)) =
      [link_ok] /\
    created_programs (calls_of (VirtualControls_Draw respond g hist)) = [p] /\
    generated_buffers (calls_of (VirtualControls_Draw respond g hist)) =
      [vbo] /\
    logged (calls_of (VirtualControls_Draw respond g hist)) =
      expected_log vs_ok fs_ok link_ok /\
    used_programs (calls_of (VirtualControls_Draw respond g hist)) = [p; 0] /\
    length (drawn (calls_of (VirtualControls_Draw respond g hist))) = 1%nat /\
    state_of (VirtualControls_Draw respond g hist) =
      with_vbo vbo (with_locs 0 1 (with_prog p g)).
Proof.
  intros Hn Hz. generalize (draw_spec g Hn hist). cbv beta.
  rewrite Hz. change (0 =? 0) with true. cbv iota. exact (fun H => H).
Qed.

Lemma draw_reuses g hist :
  button_count g <> 0 -> vc_prog g <> 0 ->
  compile_statuses (calls_of (VirtualControls_Draw respond g hist)) = [] /\
  link_statuses (calls_of (VirtualControls_Draw respond g hist)) = [] /\
  created_programs (calls_of (VirtualControls_Draw respond g hist)) = [] /\
  generated_buffers (calls_of (VirtualControls_Draw respond g hist)) = [] /\
  logged (calls_of (VirtualControls_Draw respond g hist)) = [] /\
  used_programs (calls_of (VirtualControls_Draw respond g hist)) =
    [vc_prog g; 0] /\
  length (drawn (calls_of (VirtualControls_Draw respond g hist))) = 1%nat /\
  state_of (VirtualControls_Draw respond g hist) = g.
Proof.
  intros Hn Hz. generalize (draw_spec g Hn hist). cbv beta.
  apply Z.eqb_neq in Hz. rewrite Hz. exact (fun H => H).
Qed.

(** A draw with no button registered makes no call. *)
Lemma draw_without_buttons g hist :
  button_count g = 0 ->
  VirtualControls_Draw respond g hist = (tt, g, []).
Proof.
  intros H. unfold VirtualControls_Draw.
  unfold bind at 1. unfold get at 1. cbv beta iota.
  rewrite H. reflexivity.
Qed.

Lemma shutdown_spec g :
  holds (VirtualControls_Shutdown respond) g (fun _ g' d =>
    g' = with_prog 0 (with_vbo 0 g) /\
    deleted_buffers d = (if vc_vbo g =? 0 then [] else [vc_vbo g]) /\
    deleted_programs d = (if vc_prog g =? 0 then [] else [vc_prog g]) /\
    (vc_vbo g = 0 -> vc_prog g = 0 -> d = [] /\ g' = g)).
Proof.
  unfold VirtualControls_Shutdown.
  do 3 holds_step.
  destruct (Z.eqb_spec (vc_vbo g) 0) as [Hv | Hv].
  - do 3 holds_step.
    destruct (Z.eqb_spec (vc_prog g) 0) as [Hp | Hp].
    + holds_step. cbn.
      split; [destruct g; cbn in *; subst; reflexivity|].
      repeat split.
    + repeat holds_step. cbn.
      split; [destruct g; cbn in *; subst; reflexivity|].
      repeat split; intros; congruence.
  - do 5 holds_step. cbn [vc_prog with_vbo].
    destruct (Z.eqb_spec (vc_prog g) 0) as [Hp | Hp].
    + holds_step. cbn.
      split; [destruct g; cbn in *; subst; reflexivity|].
      repeat split; intros; congruence.
    + repeat holds_step. cbn.
      split; [reflexivity|]. repeat split; intros; congruence.
Qed.

End Drawing.

(* ===================================================================== *)
(** ** Reachable states *)
(* ===================================================================== *)

Lemma init_run win_w win_h g hist :
  button_count (state_of (VirtualControls_Init win_w win_h g hist)) = 5 /\
  length (buttons (state_of (VirtualControls_Init win_w win_h g hist))) =
    Z.to_nat MAX_BUTTONS /\
  calls_of (VirtualControls_Init win_w win_h g hist) = [].
Proof. repeat split. Qed.

Lemma op_result_inv
    (respond : forall R : Type, list Ev -> ExtCall R -> R) op g hist :
  vc_inv g -> vc_inv (fst (op_result respond op g hist)).
Proof.
  intros [Hwf Hres]. destruct op; cbn [op_result forget fst].
  - destruct (init_run win_w win_h g hist) as (Hc & Hl & _).
    split; [split; [exact Hl | rewrite Hc; unfold MAX_BUTTONS; lia]|].
    rewrite Hc. intros H; discriminate H.
  - rewrite vc_add_button_run. destruct Hwf as [Hlen Hc].
    unfold MAX_BUTTONS in *.
    destruct (Z.geb_spec (button_count g) 16); cbn.
    + split; [split|]; assumption.
    + split; [split|]; cbn; unfold MAX_BUTTONS;
        [now rewrite length_insert | lia | intros ?; exfalso; lia].
  - split; [exact Hwf | exact Hres].
  - destruct (finger_event_frame respond tf g hist Hwf) as [Hwf' Hfr].
    split; [exact Hwf'|]. rewrite Hfr. exact Hres.
  - destruct (mouse_event_frame respond mb g hist Hwf) as [Hwf' Hfr].
    split; [exact Hwf'|]. rewrite Hfr. exact Hres.
  - destruct (Z.eq_dec (button_count g) 0) as [Hz | Hn].
    + rewrite (draw_without_buttons respond g hist Hz). now split.
    + destruct (Z.eq_dec (vc_prog g) 0) as [Hp | Hp].
      * destruct (draw_creates respond g hist Hn Hp)
          as (? & ? & ? & p & vbo & _ & _ & _ & _ & _ & _ & _ & ->).
        split; [exact Hwf|]. cbn. intros H; contradiction.
      * destruct (draw_reuses respond g hist Hn Hp)
          as (_ & _ & _ & _ & _ & _ & _ & ->).
        now split.
  - destruct (shutdown_spec respond g hist) as (-> & _).
    split; [exact Hwf|]. now cbn.
Qed.

Lemma run_ops_inv
    (respond : forall R : Type, list Ev -> ExtCall R -> R) ops :
  forall g hist, vc_inv g -> vc_inv (fst (run_ops respond ops g hist)).
Proof.
  induction ops as [|op ops IH]; intros g hist Hinv; [exact Hinv|].
  cbn [run_ops].
  pose proof (op_result_inv respond op g hist Hinv) as H1.
  destruct (op_result respond op g hist) as [g1 d1]. now apply IH.
Qed.

Lemma reachable_inv
    (respond : forall R : Type, list Ev -> ExtCall R -> R) g :
  reachable respond g -> vc_inv g.
Proof.
  intros [ops <-]. apply run_ops_inv.
  split; [split; [reflexivity | split; vm_compute; discriminate]|].
  intros _. now split.
Qed.

(** C2, as stated, fails.  With a GL whose linker fails, the first draw
    after [init] logs the link error, but the program handle it stores is
    the non-zero name answered by [glCreateProgram]; the frame is drawn
    with that program, and the next draw creates, compiles and links
    nothing. *)
Lemma link_failure_keeps_handle_counterexample :
  link_statuses (calls_of failing_draw) = [GL_FALSE] /\
  logged (calls_of failing_draw) = ["VC link error: %s"%string] /\
  vc_prog (state_of failing_draw) = 3 /\
  used_programs (calls_of failing_draw) = [3; 0] /\
  drawn (calls_of failing_draw) = [30] /\
  created_programs (calls_of failing_redraw) = [] /\
  compile_statuses (calls_of failing_redraw) = [] /\
  link_statuses (calls_of failing_redraw) = [] /\
  used_programs (calls_of failing_redraw) = [3; 0].
Proof. vm_compute. repeat split. Qed.

(** C2, amended.  On a draw with a zero program handle (and at least one
    button) [vc_create_shader] runs: each of the three statuses that reads
    zero is logged with its own message, nothing else is logged, and the
    handle stored is the name answered by [glCreateProgram] whatever the
    statuses; the frame is then drawn with that program.  The next draw
    runs the creation again exactly when the stored handle is zero;
    otherwise it creates nothing and keeps the statics. *)
Theorem draw_creation_stores_handle_whatever_status
    (respond : forall R : Type, list Ev -> ExtCall R -> R)
    (g : VC) (hist : list Ev) :
  button_count g <> 0 ->
  vc_prog g = 0 ->
  let r1 := VirtualControls_Draw respond g hist in
  let r2 := VirtualControls_Draw respond (state_of r1)
              (hist ++ calls_of r1) in
  exists vs_ok fs_ok link_ok p,
    compile_statuses (calls_of r1) = [vs_ok; fs_ok] /\
    link_statuses (calls_of r1) = [link_ok] /\
    logged (calls_of r1) = expected_log vs_ok fs_ok link_ok /\
    created_programs (calls_of r1) = [p] /\
    vc_prog (state_of r1) = p /\
    used_programs (calls_of r1) = [p; 0] /\
    length (drawn (calls_of r1)) = 1%nat /\
    (p <> 0 ->
       created_programs (calls_of r2) = [] /\
       compile_statuses (calls_of r2) = [] /\
       link_statuses (calls_of r2) = [] /\
       state_of r2 = state_of r1) /\
    (p = 0 -> exists p', created_programs (calls_of r2) = [p']).
Proof.
  intros Hn Hz r1 r2.
  destruct (draw_creates respond g hist Hn Hz)
    as (vs_ok & fs_ok & link_ok & p & vbo &
        Hc & Hl & Hp & Hb & Hlog & Hu & Hd & Hs).
  fold r1 in Hc, Hl, Hp, Hb, Hlog, Hu, Hd, Hs.
  assert (Hn1 : button_count (state_of r1) <> 0) by (now rewrite Hs).
  assert (Hp1 : vc_prog (state_of r1) = p) by (now rewrite Hs).
  exists vs_ok, fs_ok, link_ok, p.
  repeat (split; [assumption|]). split.
  - intros Hnz. rewrite <- Hp1 in Hnz.
    destruct (draw_reuses respond (state_of r1) (hist ++ calls_of r1)
                Hn1 Hnz) as (H1 & H2 & H3 & _ & _ & _ & _ & H8).
    fold r2 in H1, H2, H3, H8. tauto.
  - intros Hpz. rewrite Hpz in Hp1.
    destruct (draw_creates respond (state_of r1) (hist ++ calls_of r1)
                Hn1 Hp1) as (_ & _ & _ & p' & _ & _ & _ & Hp' & _).
    fold r2 in Hp'. now exists p'.
Qed.

Lemma draw_creation_stores_handle_whatever_status_witness :
  button_count init_state <> 0 /\
  vc_prog init_state = 0 /\
  exists vs_ok fs_ok link_ok p,
    compile_statuses (calls_of failing_draw) = [vs_ok; fs_ok] /\
    link_statuses (calls_of failing_draw) = [link_ok] /\
    logged (calls_of failing_draw) = expected_log vs_ok fs_ok link_ok /\
    created_programs (calls_of failing_draw) = [p] /\
    vc_prog (state_of failing_draw) = p.
Proof.
  assert (Hn : button_count init_state <> 0) by (vm_compute; discriminate).
  assert (Hz : vc_prog init_state = 0) by reflexivity.
  split; [exact Hn|]. split; [exact Hz|].
  destruct (draw_creation_stores_handle_whatever_status link_failing_driver
              init_state [] Hn Hz)
    as (vs_ok & fs_ok & link_ok & p & Hc & Hl & Hlog & Hp & Hs & _).
  exists vs_ok, fs_ok, link_ok, p. repeat split; assumption.
Defined.

(** C8.  [VirtualControls_Shutdown] deletes the buffer and the program
    whose handles are non-zero and zeroes both handles, touching nothing
    else.  Called again right after, it makes no call and changes nothing.
    A draw after it, with at least one button registered, runs the lazy
    creation again and stores the fresh program and buffer names.  In every
    reachable state that holds a resource at least one button is
    registered, so whatever shutdown released, the next draw creates
    again. *)
Theorem shutdown_idempotent_and_draw_recreates
    (respond : forall R : Type, list Ev -> ExtCall R -> R)
    (g : VC) (hist hist' : list Ev) :
  let r1 := VirtualControls_Shutdown respond g hist in
  let r2 := VirtualControls_Shutdown respond (state_of r1)
              (hist ++ calls_of r1) in
  let r3 := VirtualControls_Draw respond (state_of r1) hist' in
  state_of r1 = with_prog 0 (with_vbo 0 g) /\
  deleted_buffers (calls_of r1) =
    (if vc_vbo g =? 0 then [] else [vc_vbo g]) /\
  deleted_programs (calls_of r1) =
    (if vc_prog g =? 0 then [] else [vc_prog g]) /\
  calls_of r2 = [] /\
  state_of r2 = state_of r1 /\
  (button_count g <> 0 ->
     exists p vbo,
       created_programs (calls_of r3) = [p] /\
       generated_buffers (calls_of r3) = [vbo] /\
       vc_prog (state_of r3) = p /\
       vc_vbo (state_of r3) = vbo /\
       used_programs (calls_of r3) = [p; 0] /\
       buttons (state_of r3) = buttons g /\
       button_count (state_of r3) = button_count g) /\
  (reachable respond g -> vc_prog g <> 0 \/ vc_vbo g <> 0 ->
     button_count g <> 0).
Proof.
  intros r1 r2 r3.
  destruct (shutdown_spec respond g hist) as (Hs1 & Hb1 & Hp1 & _).
  fold r1 in Hs1, Hb1, Hp1.
  destruct (shutdown_spec respond (state_of r1) (hist ++ calls_of r1))
    as (_ & _ & _ & Hidle).
  fold r2 in Hidle.
  assert (Hv0 : vc_vbo (state_of r1) = 0) by (now rewrite Hs1).
  assert (Hp0 : vc_prog (state_of r1) = 0) by (now rewrite Hs1).
  destruct (Hidle Hv0 Hp0) as [Hc2 Hs2].
  repeat (split; [assumption|]). split.
  - intros Hn.
    assert (Hn1 : button_count (state_of r1) <> 0) by (now rewrite Hs1).
    destruct (draw_creates respond (state_of r1) hist' Hn1 Hp0)
      as (vs_ok & fs_ok & link_ok & p & vbo &
          _ & _ & Hp & Hb & _ & Hu & _ & Hs3).
    fold r3 in Hp, Hb, Hu, Hs3.
    exists p, vbo. rewrite Hs3, Hs1. repeat split; assumption.
  - intros Hr Hlive Hz.
    destruct (reachable_inv respond g Hr) as [_ Hres].
    destruct (Hres Hz) as [Hp Hv]. destruct Hlive; contradiction.
Qed.

Lemma shutdown_idempotent_and_draw_recreates_witness :
  button_count drawn_once <> 0 /\
  exists p vbo,
    vc_prog
      (state_of
         (VirtualControls_Draw healthy_driver
            (state_of (VirtualControls_Shutdown healthy_driver drawn_once []))
            [])) = p /\
    vc_vbo
      (state_of
         (VirtualControls_Draw healthy_driver
            (state_of (VirtualControls_Shutdown healthy_driver drawn_once []))
            [])) = vbo.
Proof.
  assert (Hn : button_count drawn_once <> 0) by (vm_compute; discriminate).
  split; [exact Hn|].
  destruct (shutdown_idempotent_and_draw_recreates healthy_driver
              drawn_once [] [])
    as (_ & _ & _ & _ & _ & Hdraw & _).
  destruct (Hdraw Hn) as (p & vbo & _ & _ & Hp & Hv & _).
  exists p, vbo. split; assumption.
Defined.

(* ===================================================================== *)
(** ** The float comparison is the numeric order *)
(* ===================================================================== *)

Lemma digits2_pos_bounds m :
  2 ^ (Zpos (digits2_pos m) - 1) <= Zpos m < 2 ^ Zpos (digits2_pos m).
Proof.
  induction m as [m IH | m IH |]; cbn [digits2_pos].
  - rewrite Pos2Z.inj_succ. change (Z.pos m~1) with (2 * Z.pos m + 1).
    replace (Z.succ (Zpos (digits2_pos m)) - 1)
      with (Z.succ (Zpos (digits2_pos m) - 1)) by lia.
    rewrite !Z.pow_succ_r by lia.
    generalize dependent (2 ^ (Z.pos (digits2_pos m) - 1)).
    generalize dependent (2 ^ Z.pos (digits2_pos m)). intros; lia.
  - rewrite Pos2Z.inj_succ. change (Z.pos m~0) with (2 * Z.pos m).
    replace (Z.succ (Zpos (digits2_pos m)) - 1)
      with (Z.succ (Zpos (digits2_pos m) - 1)) by lia.
    rewrite !Z.pow_succ_r by lia.
    generalize dependent (2 ^ (Z.pos (digits2_pos m) - 1)).
    generalize dependent (2 ^ Z.pos (digits2_pos m)). intros; lia.
  - cbn. lia.
Qed.

(** A canonical mantissa has at most 24 bits, and exactly 24 unless the
    exponent is the smallest one. *)
Lemma bounded_shape m e :
  bounded F32.prec F32.emax m e = true ->
  -149 <= e /\ Zpos m < 16777216 /\ (-149 < e -> 8388608 <= Zpos m).
Proof.
  unfold bounded, canonical_mantissa, fexp, emin, F32.prec, F32.emax.
  intros H. apply andb_true_iff in H. destruct H as [H _].
  apply Z.eqb_eq in H.
  pose proof (digits2_pos_bounds m) as [Hlo Hhi].
  assert (Hd : Zpos (digits2_pos m) <= 24) by lia.
  split; [lia|]. split.
  - apply Z.lt_le_trans with (1 := Hhi).
    change 16777216 with (2 ^ 24). apply Z.pow_le_mono_r; lia.
  - intros He. replace (Zpos (digits2_pos m)) with 24 in Hlo by lia.
    exact Hlo.
Qed.

Lemma mag_pos m e : bounded F32.prec F32.emax m e = true -> 0 < F32.mag m e.
Proof.
  intros H. apply bounded_shape in H. destruct H as (Hlo & _).
  assert (Ha : 0 <= e + 149) by lia.
  unfold F32.mag. apply Z.mul_pos_pos; [reflexivity|].
  now apply Z.pow_pos_nonneg.
Qed.

Lemma mag_lt m1 e1 m2 e2 :
  bounded F32.prec F32.emax m1 e1 = true ->
  bounded F32.prec F32.emax m2 e2 = true ->
  e1 < e2 -> F32.mag m1 e1 < F32.mag m2 e2.
Proof.
  intros H1 H2 He. apply bounded_shape in H1, H2.
  destruct H1 as (Hlo1 & Hm1 & _). destruct H2 as (Hlo2 & _ & Hm2).
  specialize (Hm2 ltac:(lia)). unfold F32.mag.
  assert (Ha : 0 <= e1 + 149) by lia.
  assert (Hb : 1 <= e2 - e1) by lia.
  replace (e2 + 149) with ((e1 + 149) + (e2 - e1)) by lia.
  rewrite (Z.pow_add_r 2 (e1 + 149) (e2 - e1)) by lia.
  pose proof (Z.pow_pos_nonneg 2 (e1 + 149) ltac:(lia) Ha) as Hp.
  pose proof (Z.pow_le_mono_r 2 1 (e2 - e1) ltac:(lia) Hb) as Hq.
  change (2 ^ 1) with 2 in Hq.
  generalize dependent (2 ^ (e1 + 149)).
  generalize dependent (2 ^ (e2 - e1)). intros q Hq p Hp.
  assert (Hx : Z.pos m1 * p < 16777216 * p)
    by (apply Z.mul_lt_mono_pos_r; assumption).
  assert (Hy : 16777216 <= Z.pos m2 * q) by nia.
  assert (Hz : 16777216 * p <= Z.pos m2 * q * p)
    by (apply Z.mul_le_mono_nonneg_r; lia).
  replace (Z.pos m2 * (p * q)) with (Z.pos m2 * q * p) by ring. lia.
Qed.

(** Comparing exponents first and mantissas next, as [SFcompare] does,
    compares the magnitudes of canonical values. *)
Lemma mag_compare m1 e1 m2 e2 :
  bounded F32.prec F32.emax m1 e1 = true ->
  bounded F32.prec F32.emax m2 e2 = true ->
  (F32.mag m1 e1 ?= F32.mag m2 e2) =
  match e1 ?= e2 with
  | Lt => Lt
  | Gt => Gt
  | Eq => Pos.compare_cont Eq m1 m2
  end.
Proof.
  intros H1 H2. destruct (Z.compare_spec e1 e2) as [-> | He | He].
  - unfold F32.mag. pose proof (bounded_shape _ _ H2) as (Hlo & _).
    assert (Ha : 0 <= e2 + 149) by lia.
    pose proof (Z.pow_pos_nonneg 2 (e2 + 149) ltac:(lia) Ha) as Hp.
    rewrite <- Zmult_compare_compat_r by (apply Z.lt_gt; exact Hp).
    reflexivity.
  - apply Z.compare_lt_iff. now apply mag_lt.
  - apply Z.compare_gt_iff. now apply mag_lt.
Qed.

(** On canonical values, C's [<=] on floats is [<=] on the numbers they
    stand for, and false when a NaN is involved. *)
Lemma le_numeric a b :
  F32.valid a = true -> F32.valid b = true ->
  (F32.le a b = true <-> F32.num_le a b).
Proof.
  unfold F32.valid, F32.le, SFleb.
  destruct a as [sa | sa | | sa ma ea], b as [sb | sb | | sb mb eb];
    cbn [valid_binary SFcompare F32.num_le F32.scaled]; intros Ha Hb;
    try (pose proof (mag_pos _ _ Ha) as Hpa);
    try (pose proof (mag_pos _ _ Hb) as Hpb);
    try (destruct sa); try (destruct sb);
    try (split; [intros _; exact I | reflexivity]; fail);
    try (split; [discriminate | intros []]; fail);
    try (split; [intros _; lia | reflexivity]; fail);
    try (split; [discriminate | lia]; fail).
  - replace (match ea ?= eb with
             | Eq => CompOpp (PosDef.Pos.compare_cont Eq ma mb)
             | Lt => Gt
             | Gt => Lt
             end)
      with (CompOpp (F32.mag ma ea ?= F32.mag mb eb))
      by (rewrite (mag_compare ma ea mb eb Ha Hb);
          now destruct (ea ?= eb)).
    destruct (Z.compare_spec (F32.mag ma ea) (F32.mag mb eb)); cbn;
      (split; [intros; lia | (reflexivity || lia)]).
  - rewrite <- (mag_compare ma ea mb eb Ha Hb).
    destruct (Z.compare_spec (F32.mag ma ea) (F32.mag mb eb)); cbn;
      (split; [intros; lia | (reflexivity || lia)]).
Qed.

(* ===================================================================== *)
(** ** The rectangle test *)
(* ===================================================================== *)

(** C1, as stated, fails on the right and on the bottom edge.  For the
    button at (0.25, 0.25) of size 0.5 by 0.5, the point (0.75, 0.5) has
    nx = x + w and the point (0.5, 0.75) has ny = y + h; [point_in_button]
    answers 1 for both, and the half-open rectangle contains neither.  The
    same happens on the right edge of the "left" button that [init]
    registers. *)
Lemma edge_point_inside_counterexample :
  buttons init_state !! 0%nat = Some left_button /\
  point_in_button left_button (fst on_left_right_edge)
    (snd on_left_right_edge) = 1 /\
  in_half_open_rect left_button (fst on_left_right_edge)
    (snd on_left_right_edge) = false /\
  fst on_right_edge = F32.add (x edge_button) (w edge_button) /\
  point_in_button edge_button (fst on_right_edge) (snd on_right_edge) = 1 /\
  in_half_open_rect edge_button (fst on_right_edge) (snd on_right_edge)
    = false /\
  snd on_bottom_edge = F32.add (y edge_button) (h edge_button) /\
  point_in_button edge_button (fst on_bottom_edge) (snd on_bottom_edge) = 1 /\
  in_half_open_rect edge_button (fst on_bottom_edge) (snd on_bottom_edge)
    = false.
Proof. vm_compute. repeat split. Qed.

(** C1, amended.  [point_in_button] answers 1 or 0, and 1 exactly when
    x <= nx <= x + w and y <= ny <= y + h, with the sums and the four
    comparisons those of binary32: the rectangle is closed on all four
    sides.  When the six values compared are canonical binary32 values the
    comparisons are those of the numbers they stand for (false for a
    NaN). *)
Theorem point_in_button_closed_rectangle (b : VC_Button) (nx ny : F32.t) :
  (point_in_button b nx ny = 1 \/ point_in_button b nx ny = 0) /\
  (point_in_button b nx ny <> 0 <->
     F32.le (x b) nx = true /\
     F32.le nx (F32.add (x b) (w b)) = true /\
     F32.le (y b) ny = true /\
     F32.le ny (F32.add (y b) (h b)) = true) /\
  (F32.valid (x b) = true -> F32.valid (y b) = true ->
   F32.valid nx = true -> F32.valid ny = true ->
   F32.valid (F32.add (x b) (w b)) = true ->
   F32.valid (F32.add (y b) (h b)) = true ->
   (point_in_button b nx ny <> 0 <->
      F32.num_le (x b) nx /\
      F32.num_le nx (F32.add (x b) (w b)) /\
      F32.num_le (y b) ny /\
      F32.num_le ny (F32.add (y b) (h b)))).
Proof.
  assert (Hiff : point_in_button b nx ny <> 0 <->
     F32.le (x b) nx = true /\
     F32.le nx (F32.add (x b) (w b)) = true /\
     F32.le (y b) ny = true /\
     F32.le ny (F32.add (y b) (h b)) = true).
  { unfold point_in_button, F32.ge, F32.le.
    destruct (SFleb (x b) nx), (SFleb nx (F32.add (x b) (w b))),
      (SFleb (y b) ny), (SFleb ny (F32.add (y b) (h b))); cbn;
      (split;
       [ intros H; repeat split; try reflexivity; exfalso; apply H;
         reflexivity
       | intros (H1 & H2 & H3 & H4) H0; congruence ]). }
  split; [|split; [exact Hiff|]].
  - unfold point_in_button. destruct (_ && _); auto.
  - intros Vx Vy Vnx Vny Vxw Vyh. rewrite Hiff.
    rewrite (le_numeric _ _ Vx Vnx), (le_numeric _ _ Vnx Vxw),
      (le_numeric _ _ Vy Vny), (le_numeric _ _ Vny Vyh).
    reflexivity.
Qed.

Lemma point_in_button_closed_rectangle_witness :
  F32.valid (F32.add (x edge_button) (w edge_button)) = true /\
  F32.num_le (fst on_right_edge) (F32.add (x edge_button) (w edge_button)) /\
  F32.num_le (F32.add (x edge_button) (w edge_button)) (fst on_right_edge) /\
  point_in_button edge_button (fst on_right_edge) (snd on_right_edge) <> 0.
Proof.
  destruct (point_in_button_closed_rectangle edge_button
              (fst on_right_edge) (snd on_right_edge)) as (_ & _ & Hnum).
  assert (Hv : F32.valid (F32.add (x edge_button) (w edge_button)) = true)
    by reflexivity.
  specialize (Hnum eq_refl eq_refl eq_refl eq_refl Hv eq_refl).
  split; [exact Hv|].
  split; [vm_compute; discriminate|].
  split; [vm_compute; discriminate|].
  apply Hnum. repeat split; vm_compute; discriminate.
Defined.

(* ===================================================================== *)
(** * Further properties of the component *)
(* ===================================================================== *)

(* ===================================================================== *)
(** ** Every event is one pass *)
(* ===================================================================== *)

Lemma scan_no_button v bs : scan no_button v bs = bs.
Proof.
  unfold scan, no_button. induction bs as [|b bs IH]; simpl; congruence.
Qed.

Lemma filter_no_button bs : List.filter no_button bs = [].
Proof. unfold no_button. induction bs as [|b bs IH]; simpl; congruence. Qed.

Lemma pass_idle g :
  vc_wf g -> pass no_button 0 g (tt, g, []).
Proof.
  intros Hwf. split; [|split].
  - cbn. rewrite scan_no_button, <- (wf_registered_split g Hwf).
    symmetry. now apply with_buttons_same.
  - cbn. now rewrite filter_no_button.
  - reflexivity.
Qed.

Lemma flips_no_button v : flips no_button v.
Proof. intros b H. discriminate H. Qed.

Lemma finger_event_pass
    (respond : forall R : Type, list Ev -> ExtCall R -> R) tf g hist :
  vc_wf g ->
  pass (fst (finger_guard tf)) (snd (finger_guard tf)) g
    (VirtualControls_HandleFingerEvent respond tf g hist).
Proof.
  intros Hwf. destruct tf as [[ty nx ny]|]; [|now apply pass_idle].
  unfold finger_guard. cbn [tf_type tf_x tf_y].
  destruct (Z.eqb_spec ty SDL_FINGERDOWN) as [-> | H1];
    [now apply finger_down_pass|].
  destruct (Z.eqb_spec ty SDL_FINGERUP) as [-> | H2];
    [now apply finger_up_pass|].
  destruct (Z.eqb_spec ty SDL_FINGERMOTION) as [-> | H3];
    [now apply finger_motion_pass|].
  rewrite (finger_event_other respond ty nx ny g hist H1 H2 H3).
  now apply pass_idle.
Qed.

Lemma mouse_event_pass
    (respond : forall R : Type, list Ev -> ExtCall R -> R) mb g hist :
  vc_wf g ->
  pass (fst (mouse_guard g mb)) (snd (mouse_guard g mb)) g
    (VirtualControls_HandleMouseEvent respond mb g hist).
Proof.
  intros Hwf. destruct mb as [[st mx my]|]; [|now apply pass_idle].
  unfold mouse_guard. cbn [mb_state].
  destruct (Z.eqb_spec st SDL_PRESSED) as [-> | H1];
    [now apply mouse_down_pass|].
  destruct (Z.eqb_spec st SDL_RELEASED) as [-> | H2];
    [now apply mouse_up_pass|].
  rewrite (mouse_event_other respond st mx my g hist H1 H2).
  now apply pass_idle.
Qed.

Lemma finger_guard_flips tf :
  flips (fst (finger_guard tf)) (snd (finger_guard tf)) /\
  (snd (finger_guard tf) = 0 \/ snd (finger_guard tf) = 1).
Proof.
  destruct tf as [tf|]; cbn; [|split; [apply flips_no_button | now left]].
  destruct (_ =? SDL_FINGERDOWN);
    [split; [apply flips_released_and_hit | now right]|].
  destruct (_ =? SDL_FINGERUP);
    [split; [apply flips_pressed_and_hit | now left]|].
  destruct (_ =? SDL_FINGERMOTION);
    [split; [apply flips_pressed_and_off | now left]|].
  split; [apply flips_no_button | now left].
Qed.

Lemma mouse_guard_flips g mb :
  flips (fst (mouse_guard g mb)) (snd (mouse_guard g mb)) /\
  (snd (mouse_guard g mb) = 0 \/ snd (mouse_guard g mb) = 1).
Proof.
  destruct mb as [mb|]; cbn; [|split; [apply flips_no_button | now left]].
  destruct (_ =? SDL_PRESSED);
    [split; [apply flips_released_and_hit | now right]|].
  destruct (_ =? SDL_RELEASED);
    [split; [apply flips_is_pressed | now left]|].
  split; [apply flips_no_button | now left].
Qed.

(** A guard that [flips] selects nothing among the buttons it has just
    been applied to. *)
Lemma flips_settles cond v b :
  flips cond v -> cond (if cond b then set_pressed v b else b) = false.
Proof.
  intros Hfl. destruct (cond b) eqn:Hc; [|exact Hc].
  destruct (cond (set_pressed v b)) eqn:Hc'; [|reflexivity].
  specialize (Hfl _ Hc'). cbn in Hfl. now destruct (v =? 0).
Qed.

Lemma filter_after_scan cond v bs :
  flips cond v -> List.filter cond (scan cond v bs) = [].
Proof.
  intros Hfl. induction bs as [|b bs IH]; [reflexivity|].
  cbn. now rewrite (flips_settles cond v b Hfl).
Qed.

(* ===================================================================== *)
(** ** What the event handlers keep *)
(* ===================================================================== *)

Lemma map_geometry_scan cond v bs :
  map geometry (scan cond v bs) = map geometry bs.
Proof.
  unfold scan. induction bs as [|b bs IH]; cbn; [reflexivity|].
  rewrite IH. now destruct (cond b).
Qed.

Lemma pass_geometry cond v g r :
  vc_wf g -> pass cond v g r ->
  map geometry (buttons (state_of r)) = map geometry (buttons g).
Proof.
  intros Hwf (-> & _). cbn.
  rewrite (wf_registered_split g Hwf) at 1.
  now rewrite !map_app, map_geometry_scan.
Qed.

Lemma mouse_guard_with_buttons bs g mb :
  mouse_guard (with_buttons bs g) mb = mouse_guard g mb.
Proof. reflexivity. Qed.

Lemma pass_twice cond v g r1 r2 :
  vc_wf g -> flips cond v ->
  pass cond v g r1 -> pass cond v (state_of r1) r2 ->
  calls_of r2 = [] /\ state_of r2 = state_of r1.
Proof.
  intros Hwf Hfl Hp1 Hp2.
  pose proof (pass_wf _ _ _ _ Hwf Hp1) as Hwf1.
  assert (Hnone : List.filter cond (registered (state_of r1)) = []).
  { rewrite (pass_registered _ _ _ _ Hwf Hp1).
    now apply filter_after_scan. }
  destruct Hp2 as (Hs2 & _ & Hc2). split; [now apply Hc2|].
  rewrite Hs2, (scan_none _ _ _ Hnone).
  apply with_buttons_same. now apply wf_registered_split.
Qed.

Lemma scan_guard_false cond v bs j b' :
  flips cond v -> scan cond v bs !! j = Some b' -> cond b' = false.
Proof.
  intros Hfl Hj. unfold scan in Hj. rewrite list_lookup_fmap in Hj.
  destruct (bs !! j) as [b|]; [|discriminate].
  cbn in Hj. injection Hj as <-. now apply flips_settles.
Qed.

Lemma pass_guard_false cond v g r j b' :
  vc_wf g -> flips cond v -> pass cond v g r ->
  registered (state_of r) !! j = Some b' -> cond b' = false.
Proof.
  intros Hwf Hfl Hp Hj. rewrite (pass_registered _ _ _ _ Hwf Hp) in Hj.
  now apply (scan_guard_false cond v _ j b' Hfl Hj).
Qed.

(** X1.  A finger or mouse event, whatever it is, changes nothing of any
    slot but the pressed flag: bounds, key and id of all sixteen slots stay
    as they are, the slots behind the registered buttons are not touched at
    all, and the count, the window size and the GL handles are kept. *)
Theorem events_change_only_pressed_flags
    (respond : forall R : Type, list Ev -> ExtCall R -> R)
    (g : VC) (hist : list Ev) :
  vc_wf g ->
  (forall tf,
     let r := VirtualControls_HandleFingerEvent respond tf g hist in
     map geometry (buttons (state_of r)) = map geometry (buttons g) /\
     unused_slots (state_of r) = unused_slots g /\
     state_of r = with_buttons (buttons (state_of r)) g) /\
  (forall mb,
     let r := VirtualControls_HandleMouseEvent respond mb g hist in
     map geometry (buttons (state_of r)) = map geometry (buttons g) /\
     unused_slots (state_of r) = unused_slots g /\
     state_of r = with_buttons (buttons (state_of r)) g).
Proof.
  intros Hwf. split.
  - intros tf r. pose proof (finger_event_pass respond tf g hist Hwf) as Hp.
    fold r in Hp. split; [now apply (pass_geometry _ _ _ _ Hwf Hp)|].
    split; [now apply (pass_unused _ _ _ _ Hwf Hp)|].
    now apply (pass_frame _ _ _ _ Hp).
  - intros mb r. pose proof (mouse_event_pass respond mb g hist Hwf) as Hp.
    fold r in Hp. split; [now apply (pass_geometry _ _ _ _ Hwf Hp)|].
    split; [now apply (pass_unused _ _ _ _ Hwf Hp)|].
    now apply (pass_frame _ _ _ _ Hp).
Qed.

Lemma events_change_only_pressed_flags_witness :
  vc_wf left_held /\
  map geometry
    (buttons
       (state_of (VirtualControls_HandleFingerEvent healthy_driver
                    (Some (mkFinger SDL_FINGERUP (fst on_left) (snd on_left)))
                    left_held []))) =
  map geometry (buttons left_held).
Proof.
  split; [exact left_held_wf|].
  destruct (events_change_only_pressed_flags healthy_driver left_held []
              left_held_wf) as [Hf _].
  exact (proj1 (Hf (Some (mkFinger SDL_FINGERUP (fst on_left)
                            (snd on_left))))).
Defined.

(** X2.  Handling the same event a second time right after the first makes
    no library call and changes nothing, for every finger event and every
    mouse event. *)
Theorem repeated_event_is_idle
    (respond : forall R : Type, list Ev -> ExtCall R -> R)
    (g : VC) (hist : list Ev) :
  vc_wf g ->
  (forall tf,
     let r1 := VirtualControls_HandleFingerEvent respond tf g hist in
     let r2 := VirtualControls_HandleFingerEvent respond tf (state_of r1)
                 (hist ++ calls_of r1) in
     calls_of r2 = [] /\ state_of r2 = state_of r1) /\
  (forall mb,
     let r1 := VirtualControls_HandleMouseEvent respond mb g hist in
     let r2 := VirtualControls_HandleMouseEvent respond mb (state_of r1)
                 (hist ++ calls_of r1) in
     calls_of r2 = [] /\ state_of r2 = state_of r1).
Proof.
  intros Hwf. split.
  - intros tf r1 r2.
    pose proof (finger_event_pass respond tf g hist Hwf) as Hp1.
    fold r1 in Hp1.
    pose proof (pass_wf _ _ _ _ Hwf Hp1) as Hwf1.
    pose proof (finger_event_pass respond tf (state_of r1)
                  (hist ++ calls_of r1) Hwf1) as Hp2.
    fold r2 in Hp2.
    exact (pass_twice _ _ g r1 r2 Hwf (proj1 (finger_guard_flips tf))
             Hp1 Hp2).
  - intros mb r1 r2.
    pose proof (mouse_event_pass respond mb g hist Hwf) as Hp1.
    fold r1 in Hp1.
    pose proof (pass_wf _ _ _ _ Hwf Hp1) as Hwf1.
    pose proof (mouse_event_pass respond mb (state_of r1)
                  (hist ++ calls_of r1) Hwf1) as Hp2.
    fold r2 in Hp2.
    assert (Hg : mouse_guard (state_of r1) mb = mouse_guard g mb)
      by (rewrite (pass_frame _ _ _ _ Hp1); apply mouse_guard_with_buttons).
    rewrite Hg in Hp2.
    exact (pass_twice _ _ g r1 r2 Hwf (proj1 (mouse_guard_flips g mb))
             Hp1 Hp2).
Qed.

Lemma repeated_event_is_idle_witness :
  vc_wf init_state /\
  calls_of
    (VirtualControls_HandleFingerEvent healthy_driver
       (Some (mkFinger SDL_FINGERDOWN (fst on_left) (snd on_left)))
       (state_of
          (VirtualControls_HandleFingerEvent healthy_driver
             (Some (mkFinger SDL_FINGERDOWN (fst on_left) (snd on_left)))
             init_state []))
       ([] ++
        calls_of
          (VirtualControls_HandleFingerEvent healthy_driver
             (Some (mkFinger SDL_FINGERDOWN (fst on_left) (snd on_left)))
             init_state []))) = [].
Proof.
  split; [exact init_state_wf|].
  destruct (repeated_event_is_idle healthy_driver init_state []
              init_state_wf) as [Hf _].
  exact (proj1 (Hf (Some (mkFinger SDL_FINGERDOWN (fst on_left)
                            (snd on_left))))).
Defined.

(** X3.  After a finger-down at (nx, ny) every registered button that passes
    the rectangle test there is pressed; after a finger-up there none of
    them is; after a finger-motion every button still pressed passes the
    test; after a mouse release no registered button is pressed. *)
Theorem event_postconditions
    (respond : forall R : Type, list Ev -> ExtCall R -> R)
    (nx ny : F32.t) (mx my : Z) (g : VC) (hist : list Ev) :
  vc_wf g ->
  (forall j b,
     registered (state_of (VirtualControls_HandleFingerEvent respond
        (Some (mkFinger SDL_FINGERDOWN nx ny)) g hist)) !! j = Some b ->
     point_in_button b nx ny <> 0 -> pressed b <> 0) /\
  (forall j b,
     registered (state_of (VirtualControls_HandleFingerEvent respond
        (Some (mkFinger SDL_FINGERUP nx ny)) g hist)) !! j = Some b ->
     point_in_button b nx ny <> 0 -> pressed b = 0) /\
  (forall j b,
     registered (state_of (VirtualControls_HandleFingerEvent respond
        (Some (mkFinger SDL_FINGERMOTION nx ny)) g hist)) !! j = Some b ->
     pressed b <> 0 -> point_in_button b nx ny <> 0) /\
  (forall j b,
     registered (state_of (VirtualControls_HandleMouseEvent respond
        (Some (mkMouse SDL_RELEASED mx my)) g hist)) !! j = Some b ->
     pressed b = 0).
Proof.
  intros Hwf. split; [|split; [|split]].
  - intros j b Hj Hin.
    pose proof (pass_guard_false _ _ _ _ j b Hwf
                  (flips_released_and_hit nx ny)
                  (finger_down_pass respond g hist nx ny Hwf) Hj) as Hc.
    unfold released_and_hit in Hc. apply hit_true in Hin.
    rewrite Hin, andb_true_r in Hc. now apply Z.eqb_neq.
  - intros j b Hj Hin.
    pose proof (pass_guard_false _ _ _ _ j b Hwf
                  (flips_pressed_and_hit nx ny)
                  (finger_up_pass respond g hist nx ny Hwf) Hj) as Hc.
    unfold pressed_and_hit in Hc. apply hit_true in Hin.
    rewrite Hin, andb_true_r in Hc. now apply is_pressed_false.
  - intros j b Hj Hpr.
    pose proof (pass_guard_false _ _ _ _ j b Hwf
                  (flips_pressed_and_off nx ny)
                  (finger_motion_pass respond g hist nx ny Hwf) Hj) as Hc.
    unfold pressed_and_off in Hc. apply is_pressed_true in Hpr.
    rewrite Hpr in Hc. cbn in Hc. now apply Z.eqb_neq.
  - intros j b Hj.
    pose proof (pass_guard_false _ _ _ _ j b Hwf flips_is_pressed
                  (mouse_up_pass respond g hist mx my Hwf) Hj) as Hc.
    now apply is_pressed_false.
Qed.

Lemma event_postconditions_witness :
  vc_wf init_state /\
  registered
    (state_of (VirtualControls_HandleFingerEvent healthy_driver
                 (Some (mkFinger SDL_FINGERDOWN (fst on_left) (snd on_left)))
                 init_state [])) !! 0%nat =
    Some (set_pressed 1 left_button) /\
  point_in_button (set_pressed 1 left_button) (fst on_left) (snd on_left)
    <> 0 /\
  pressed (set_pressed 1 left_button) <> 0.
Proof.
  assert (Hj : registered
    (state_of (VirtualControls_HandleFingerEvent healthy_driver
                 (Some (mkFinger SDL_FINGERDOWN (fst on_left) (snd on_left)))
                 init_state [])) !! 0%nat =
    Some (set_pressed 1 left_button))
    by (vm_compute; reflexivity).
  assert (Hin : point_in_button (set_pressed 1 left_button)
                  (fst on_left) (snd on_left) <> 0)
    by (vm_compute; discriminate).
  split; [exact init_state_wf|]. split; [exact Hj|]. split; [exact Hin|].
  destruct (event_postconditions healthy_driver (fst on_left) (snd on_left)
              0 0 init_state [] init_state_wf) as (Hd & _).
  exact (Hd 0%nat (set_pressed 1 left_button) Hj Hin).
Defined.

(* ===================================================================== *)
(** ** The calls of an event are key syntheses only *)
(* ===================================================================== *)

Section Closed.

Variable respond : forall R : Type, list Ev -> ExtCall R -> R.

(** A property of call lists that holds of the empty list and is kept when
    one key synthesis is put in front. *)
Variable P : list Ev -> Prop.
Hypothesis P_nil : P [].
Hypothesis P_synth :
  forall h k u d, P d -> P (synth_calls respond h k u ++ d).

Lemma for_loop_flip_closed cond v mid :
  forall pre post g hist,
    buttons g = pre ++ mid ++ post ->
    P (calls_of (for_loop (length mid) (Z.of_nat (length pre))
                   (flip_if respond cond v) g hist)).
Proof using P_nil P_synth.
  induction mid as [|b mid IH]; intros pre post g hist Hb.
  - exact P_nil.
  - cbn [length for_loop]. unfold bind.
    rewrite (flip_if_at respond cond v pre b (mid ++ post) g hist Hb).
    destruct (cond b).
    + set (g1 := with_buttons (pre ++ set_pressed v b :: mid ++ post) g).
      set (d1 := synth_calls respond (hist ++ []) (key b) v).
      assert (Hb1 : buttons g1 = (pre ++ [set_pressed v b]) ++ mid ++ post).
      { subst g1. simpl. now rewrite <- app_assoc. }
      assert (Hi : Z.of_nat (length pre) + 1 =
                   Z.of_nat (length (pre ++ [set_pressed v b]))).
      { rewrite length_app. simpl. lia. }
      rewrite Hi.
      pose proof (IH _ _ g1 (hist ++ d1) Hb1) as H.
      destruct (for_loop _ _ _ g1 (hist ++ d1)) as [[u g2] d2].
      unfold calls_of in *. cbn [snd] in *. now apply P_synth.
    + assert (Hb1 : buttons g = (pre ++ [b]) ++ mid ++ post).
      { rewrite Hb. now rewrite <- app_assoc. }
      assert (Hi : Z.of_nat (length pre) + 1 =
                   Z.of_nat (length (pre ++ [b]))).
      { rewrite length_app. simpl. lia. }
      rewrite Hi.
      pose proof (IH _ _ g (hist ++ []) Hb1) as H.
      destruct (for_loop _ _ _ g (hist ++ [])) as [[u g2] d2].
      exact H.
Qed.

Lemma for_each_flip_closed cond v g hist :
  vc_wf g -> P (calls_of (for_each_button (flip_if respond cond v) g hist)).
Proof using P_nil P_synth.
  intros Hwf. unfold for_each_button, bind, get.
  rewrite <- (wf_registered_length g Hwf).
  pose proof (for_loop_flip_closed cond v (registered g) [] (unused_slots g)
                g (hist ++ []) (wf_registered_split g Hwf)) as H.
  cbn [length Z.of_nat app] in H.
  destruct (for_loop _ _ _ g (hist ++ [])) as [[u g2] d2].
  exact H.
Qed.

Lemma finger_event_closed tf g hist :
  vc_wf g ->
  P (calls_of (VirtualControls_HandleFingerEvent respond tf g hist)).
Proof using P_nil P_synth.
  intros Hwf. destruct tf as [[ty nx ny]|]; [|exact P_nil].
  destruct (Z.eq_dec ty SDL_FINGERDOWN) as [-> | H1].
  { unfold VirtualControls_HandleFingerEvent. simpl.
    rewrite press_if_hit_flip. now apply for_each_flip_closed. }
  destruct (Z.eq_dec ty SDL_FINGERUP) as [-> | H2].
  { unfold VirtualControls_HandleFingerEvent. simpl.
    rewrite release_if_hit_flip. now apply for_each_flip_closed. }
  destruct (Z.eq_dec ty SDL_FINGERMOTION) as [-> | H3].
  { unfold VirtualControls_HandleFingerEvent. simpl.
    rewrite release_if_off_flip. now apply for_each_flip_closed. }
  rewrite (finger_event_other respond ty nx ny g hist H1 H2 H3).
  exact P_nil.
Qed.

Lemma mouse_event_closed mb g hist :
  vc_wf g ->
  P (calls_of (VirtualControls_HandleMouseEvent respond mb g hist)).
Proof using P_nil P_synth.
  intros Hwf. destruct mb as [[st mx my]|]; [|exact P_nil].
  destruct (Z.eq_dec st SDL_PRESSED) as [-> | H1].
  { unfold VirtualControls_HandleMouseEvent, bind, get. simpl.
    rewrite press_if_hit_flip.
    pose proof (for_each_flip_closed
                  (released_and_hit
                     (mouse_nx g (mkMouse SDL_PRESSED mx my))
                     (mouse_ny g (mkMouse SDL_PRESSED mx my))) 1 g
                  (hist ++ []) Hwf) as H.
    unfold mouse_nx, mouse_ny in H. simpl in H.
    destruct (for_each_button _ g (hist ++ [])) as [[u g2] d2].
    exact H. }
  destruct (Z.eq_dec st SDL_RELEASED) as [-> | H2].
  { unfold VirtualControls_HandleMouseEvent, bind, get. simpl.
    rewrite release_if_pressed_flip.
    pose proof (for_each_flip_closed is_pressed 0 g (hist ++ []) Hwf) as H.
    destruct (for_each_button _ g (hist ++ [])) as [[u g2] d2].
    exact H. }
  rewrite (mouse_event_other respond st mx my g hist H1 H2).
  exact P_nil.
Qed.

End Closed.

Lemma synthesis_triples_synth
    (respond : forall R : Type, list Ev -> ExtCall R -> R) h k u d :
  synthesis_triples d = true ->
  synthesis_triples (synth_calls respond h k u ++ d) = true.
Proof.
  intros Hd. unfold synth_calls, synthesize_key, bind, call, ret, calls_of.
  cbn. rewrite !Z.eqb_refl, Hd. now destruct (u =? 0).
Qed.

(** X4.  The library calls of any finger or mouse event are key syntheses
    and nothing else (no GL call, no log line): they come in threes, a
    read of the clock, a scancode query and a push, and the pushed event
    carries that clock value as timestamp, the queried key as symbol, the
    answered scancode, window 0, no repeat, no modifier, and is either a
    key-down in state pressed or a key-up in state released. *)
Theorem event_calls_are_key_syntheses
    (respond : forall R : Type, list Ev -> ExtCall R -> R)
    (g : VC) (hist : list Ev) :
  vc_wf g ->
  (forall tf,
     synthesis_triples
       (calls_of (VirtualControls_HandleFingerEvent respond tf g hist))
     = true) /\
  (forall mb,
     synthesis_triples
       (calls_of (VirtualControls_HandleMouseEvent respond mb g hist))
     = true).
Proof.
  intros Hwf. split.
  - intros tf.
    apply (finger_event_closed respond
             (fun d => synthesis_triples d = true)); auto.
    intros h k u d. apply synthesis_triples_synth.
  - intros mb.
    apply (mouse_event_closed respond
             (fun d => synthesis_triples d = true)); auto.
    intros h k u d. apply synthesis_triples_synth.
Qed.

Lemma event_calls_are_key_syntheses_witness :
  vc_wf left_held /\
  synthesis_triples
    (calls_of (VirtualControls_HandleMouseEvent healthy_driver
                 (Some (mkMouse SDL_RELEASED 700 20)) left_held [])) = true.
Proof.
  split; [exact left_held_wf|].
  destruct (event_calls_are_key_syntheses healthy_driver left_held []
              left_held_wf) as [_ Hm].
  exact (Hm (Some (mkMouse SDL_RELEASED 700 20))).
Defined.

(* ===================================================================== *)
(** ** Key events and pressed flags stay in balance *)
(* ===================================================================== *)

Lemma count_event_app ev l1 l2 :
  count_event ev (l1 ++ l2) = count_event ev l1 + count_event ev l2.
Proof.
  unfold count_event. rewrite List.filter_app, length_app. lia.
Qed.

Lemma count_event_cons ev e l :
  count_event ev (e :: l) =
  (if same_event ev e then 1 else 0) + count_event ev l.
Proof.
  unfold count_event. cbn [List.filter].
  destruct (same_event ev e); cbn [length]; lia.
Qed.

Lemma held_cons k b bs :
  held k (b :: bs) =
  (if is_pressed b && (key b =? k) then 1 else 0) + held k bs.
Proof.
  unfold held. cbn [List.filter].
  destruct (is_pressed b && (key b =? k)); cbn [length]; lia.
Qed.

Lemma same_event_keys k k' :
  same_event (key_down k) (key_down k') = (k =? k') /\
  same_event (key_up k) (key_up k') = (k =? k') /\
  same_event (key_down k) (key_up k') = false /\
  same_event (key_up k) (key_down k') = false.
Proof. repeat split. Qed.

Lemma scan_balance cond v k bs :
  flips cond v ->
  count_event (key_down k) (map (flip_event v) (List.filter cond bs))
  - count_event (key_up k) (map (flip_event v) (List.filter cond bs))
  = held k (scan cond v bs) - held k bs.
Proof.
  intros Hfl. induction bs as [|b bs IH]; [reflexivity|].
  cbn [List.filter scan map]. fold (scan cond v bs).
  rewrite !held_cons.
  destruct (cond b) eqn:Hc; [|lia].
  cbn [map]. rewrite !count_event_cons.
  specialize (Hfl b Hc).
  destruct (same_event_keys k (key b)) as (Hdd & Huu & Hdu & Hud).
  replace (flip_event v b)
    with (if v =? 0 then key_up (key b) else key_down (key b))
    by reflexivity.
  unfold is_pressed. cbn [pressed key set_pressed]. rewrite Hfl.
  rewrite (Z.eqb_sym (key b) k).
  destruct (v =? 0) eqn:Hv; cbn [negb andb];
    rewrite ?Hdd, ?Huu, ?Hdu, ?Hud;
    destruct (k =? key b); lia.
Qed.

Lemma pass_balance cond v g r k hist :
  vc_wf g -> flips cond v -> pass cond v g r ->
  key_balance k (hist ++ calls_of r) (state_of r) = key_balance k hist g.
Proof.
  intros Hwf Hfl Hp. unfold key_balance.
  rewrite key_events_app, !count_event_app.
  rewrite (pass_registered _ _ _ _ Hwf Hp).
  destruct Hp as (_ & -> & _).
  pose proof (scan_balance cond v k (registered g) Hfl). lia.
Qed.

(* ===================================================================== *)
(** ** The renderer: what it calls and what it leaves *)
(* ===================================================================== *)

Lemma renderer_calls_push_nothing d :
  forallb renderer_call d = true -> pushed d = [] /\ key_events d = [].
Proof.
  intros H. assert (Hp : pushed d = []).
  { induction d as [|e d IH]; [reflexivity|].
    cbn in H. apply andb_true_iff in H. destruct H as [He Hd].
    specialize (IH Hd). unfold pushed in *.
    destruct e as [R c r]. destruct c; cbn in *; try discriminate;
      exact IH. }
  split; [exact Hp|]. unfold key_events. now rewrite Hp.
Qed.

Section RendererCalls.

Variable respond : forall R : Type, list Ev -> ExtCall R -> R.

(** The shader set-up asks for no capability and changes none, binds and
    uploads nothing, and gives both shaders it created to the program and
    then to [glDeleteShader]. *)
Lemma vc_create_shader_calls g :
  holds (vc_create_shader respond) g (fun _ g' d =>
    forallb renderer_call d = true /\
    cap_changes d = [] /\ cap_queries d = [] /\ depth_mask_flags d = [] /\
    bound_buffers d = [] /\ buffer_uploads d = [] /\
    deleted_buffers d = [] /\ deleted_programs d = [] /\
    used_programs d = [] /\ drawn d = [] /\
    exists vs fs,
      created_shaders d = [vs; fs] /\
      attached_shaders d = [(vc_prog g', vs); (vc_prog g', fs)] /\
      deleted_shaders d = [vs; fs]).
Proof.
  unfold vc_create_shader.
  repeat holds_step;
    (cbn; repeat split; eexists _, _; repeat split).
Qed.

Ltac settle_status :=
  repeat match goal with
    | H : (_ =? 0) = _ |- _ => rewrite H; clear H
    end.

Lemma draw_calls g :
  button_count g <> 0 ->
  holds (VirtualControls_Draw respond) g (fun _ g' d =>
    forallb renderer_call d = true /\
    exists depth0 blend0,
      cap_queries d = [(GL_DEPTH_TEST, depth0); (GL_BLEND, blend0)] /\
      cap_changes d =
        [(GL_DEPTH_TEST, false); (GL_BLEND, true)] ++
        (if blend0 =? 0 then [(GL_BLEND, false)] else []) ++
        (if depth0 =? 0 then [] else [(GL_DEPTH_TEST, true)]) /\
      depth_mask_flags d = [GL_FALSE; GL_TRUE] /\
      bound_buffers d = [vc_vbo g'; 0] /\
      used_programs d = [vc_prog g'; 0] /\
      buffer_uploads d =
        [(Z.of_nat (length (build_verts g' (Z.to_nat (button_count g')) 0))
          * sizeof_Vertex,
          build_verts g' (Z.to_nat (button_count g')) 0)] /\
      drawn d =
        [Z.of_nat (length (build_verts g' (Z.to_nat (button_count g')) 0))] /\
      deleted_buffers d = [] /\ deleted_programs d = [] /\
      deleted_shaders d = created_shaders d /\
      if vc_prog g =? 0
      then exists vs fs,
             created_shaders d = [vs; fs] /\
             attached_shaders d = [(vc_prog g', vs); (vc_prog g', fs)]
      else created_shaders d = [] /\ attached_shaders d = []).
Proof.
  intros Hn. unfold VirtualControls_Draw.
  holds_step. holds_step.
  destruct (Z.eqb_spec (button_count g) 0) as [|_]; [contradiction|].
  holds_step.
  destruct (vc_prog g =? 0) eqn:Hp; clear Hp.
  - apply (holds_weaken _ _ _ _ (vc_create_shader_calls g)).
    intros _ g1 d1 (H1 & H2 & H3 & H4 & H5 & H6 & H7 & H8 & H9 & H10 &
                    vs & fs & H11 & H13 & H14).
    repeat holds_step.
    all: unfold cap_changes, cap_queries, depth_mask_flags, bound_buffers,
           buffer_uploads, used_programs, drawn, deleted_buffers,
           deleted_programs, deleted_shaders, created_shaders,
           attached_shaders in *.
    all: rewrite ?forallb_app, ?omap_app, ?H1, ?H2, ?H3, ?H4, ?H5, ?H6,
           ?H7, ?H8, ?H9, ?H10, ?H11, ?H13, ?H14.
    all: cbn; split; [reflexivity|]; eexists _, _;
           (split; [reflexivity|]); settle_status; repeat split.
    all: exists vs, fs; split; reflexivity.
  - repeat holds_step.
    all: cbn; split; [reflexivity|]; eexists _, _;
           (split; [reflexivity|]); settle_status; repeat split.
Qed.

Lemma shutdown_calls g :
  holds (VirtualControls_Shutdown respond) g (fun _ g' d =>
    forallb renderer_call d = true).
Proof.
  unfold VirtualControls_Shutdown. repeat holds_step; reflexivity.
Qed.

(** A draw never changes the buttons, the count or the window size, and
    calls the renderer's libraries only. *)
Lemma draw_keeps_buttons g :
  holds (VirtualControls_Draw respond) g (fun _ g' d =>
    forallb renderer_call d = true /\
    buttons g' = buttons g /\ button_count g' = button_count g /\
    window_w g' = window_w g /\ window_h g' = window_h g).
Proof.
  intros hist.
  destruct (Z.eq_dec (button_count g) 0) as [Hz | Hn].
  - rewrite (draw_without_buttons respond g hist Hz). now cbn.
  - split; [exact (proj1 (draw_calls g Hn hist))|].
    destruct (Z.eq_dec (vc_prog g) 0) as [Hp | Hp].
    + destruct (draw_creates respond g hist Hn Hp)
        as (? & ? & ? & p & vbo & _ & _ & _ & _ & _ & _ & _ & ->).
      now cbn.
    + destruct (draw_reuses respond g hist Hn Hp)
        as (_ & _ & _ & _ & _ & _ & _ & ->).
      now cbn.
Qed.

End RendererCalls.

(* ===================================================================== *)
(** ** Sessions *)
(* ===================================================================== *)

Lemma registered_ext g g' :
  buttons g' = buttons g -> button_count g' = button_count g ->
  registered g' = registered g /\ unused_slots g' = unused_slots g.
Proof. unfold registered, unused_slots. now intros -> ->. Qed.

Lemma vc_wf_ext g g' :
  buttons g' = buttons g -> button_count g' = button_count g ->
  vc_wf g -> vc_wf g'.
Proof. unfold vc_wf. now intros -> ->. Qed.

Lemma key_balance_quiet k hist d g g' :
  forallb renderer_call d = true ->
  buttons g' = buttons g -> button_count g' = button_count g ->
  key_balance k (hist ++ d) g' = key_balance k hist g.
Proof.
  intros Hd Hb Hc. unfold key_balance.
  destruct (registered_ext g g' Hb Hc) as [-> _].
  rewrite key_events_app.
  destruct (renderer_calls_push_nothing d Hd) as [_ ->].
  now rewrite app_nil_r.
Qed.

Lemma op_result_balance
    (respond : forall R : Type, list Ev -> ExtCall R -> R) op g hist k :
  session_op op = true -> vc_wf g ->
  key_balance k (hist ++ snd (op_result respond op g hist))
    (fst (op_result respond op g hist)) = key_balance k hist g /\
  vc_wf (fst (op_result respond op g hist)).
Proof.
  intros Hop Hwf. destruct op; try discriminate Hop;
    cbn [op_result forget fst snd].
  - split; [|exact Hwf]. cbn. now rewrite app_nil_r.
  - pose proof (finger_event_pass respond tf g hist Hwf) as Hp.
    split; [|now apply (pass_wf _ _ _ _ Hwf Hp)].
    exact (pass_balance _ _ g _ k hist Hwf
             (proj1 (finger_guard_flips tf)) Hp).
  - pose proof (mouse_event_pass respond mb g hist Hwf) as Hp.
    split; [|now apply (pass_wf _ _ _ _ Hwf Hp)].
    exact (pass_balance _ _ g _ k hist Hwf
             (proj1 (mouse_guard_flips g mb)) Hp).
  - destruct (draw_keeps_buttons respond g hist) as (Hd & Hb & Hc & _).
    split; [now apply key_balance_quiet | now apply (vc_wf_ext g)].
  - pose proof (shutdown_calls respond g hist) as Hd. cbv beta in Hd.
    destruct (shutdown_spec respond g hist) as (Hs & _).
    split.
    + apply key_balance_quiet; [exact Hd | now rewrite Hs | now rewrite Hs].
    + rewrite Hs. exact Hwf.
Qed.

(** X5.  Over any sequence of resize, finger, mouse, draw and shutdown
    operations, for every key: the key-downs pushed minus the key-ups
    pushed change exactly as the number of pressed buttons bound to that
    key does.  So the keys the host believes held are always the keys of
    the pressed buttons: no key-up is lost and none is invented. *)
Theorem session_keeps_key_balance
    (respond : forall R : Type, list Ev -> ExtCall R -> R)
    (ops : list Op) (k : Z) :
  forall (g : VC) (hist : list Ev),
    forallb session_op ops = true ->
    vc_wf g ->
    key_balance k (snd (run_ops respond ops g hist))
      (fst (run_ops respond ops g hist)) = key_balance k hist g.
Proof.
  induction ops as [|op ops IH]; intros g hist Hops Hwf; [reflexivity|].
  cbn in Hops. apply andb_true_iff in Hops. destruct Hops as [Hop Hops].
  cbn [run_ops].
  destruct (op_result_balance respond op g hist k Hop Hwf) as [Hb Hwf1].
  destruct (op_result respond op g hist) as [g1 d1]. cbn [fst snd] in *.
  rewrite (IH g1 (hist ++ d1) Hops Hwf1). exact Hb.
Qed.

Lemma session_keeps_key_balance_witness :
  forallb session_op
    [OpFinger (Some (mkFinger SDL_FINGERDOWN (fst on_left) (snd on_left)));
     OpDraw;
     OpFinger (Some (mkFinger SDL_FINGERMOTION (fst off_all) (snd off_all)))]
    = true /\
  vc_wf init_state /\
  key_balance SDLK_LEFT
    (snd (run_ops healthy_driver
       [OpFinger (Some (mkFinger SDL_FINGERDOWN (fst on_left) (snd on_left)));
        OpDraw;
        OpFinger (Some (mkFinger SDL_FINGERMOTION (fst off_all)
                          (snd off_all)))]
       init_state []))
    (fst (run_ops healthy_driver
       [OpFinger (Some (mkFinger SDL_FINGERDOWN (fst on_left) (snd on_left)));
        OpDraw;
        OpFinger (Some (mkFinger SDL_FINGERMOTION (fst off_all)
                          (snd off_all)))]
       init_state [])) = key_balance SDLK_LEFT [] init_state.
Proof.
  split; [reflexivity|]. split; [exact init_state_wf|].
  apply (session_keeps_key_balance healthy_driver); [reflexivity|].
  exact init_state_wf.
Defined.

(* ===================================================================== *)
(** ** The layout invariant *)
(* ===================================================================== *)

Lemma layout_ok_ext g g' :
  buttons g' = buttons g -> button_count g' = button_count g ->
  layout_ok g -> layout_ok g'.
Proof.
  intros Hb Hc (Hwf & Hreg & Hun).
  destruct (registered_ext g g' Hb Hc) as [Hr Hu].
  split; [now apply (vc_wf_ext g)|]. rewrite Hr, Hu. now split.
Qed.

Lemma pass_layout cond v g r :
  (v = 0 \/ v = 1) -> pass cond v g r -> layout_ok g ->
  layout_ok (state_of r).
Proof.
  intros Hv Hp (Hwf & Hreg & Hun).
  split; [now apply (pass_wf _ _ _ _ Hwf Hp)|].
  rewrite (pass_registered _ _ _ _ Hwf Hp), (pass_unused _ _ _ _ Hwf Hp).
  split; [|exact Hun].
  intros j b' Hj. unfold scan in Hj. rewrite list_lookup_fmap in Hj.
  destruct (registered g !! j) as [b|] eqn:Hb; [|discriminate].
  cbn in Hj. injection Hj as <-. destruct (Hreg j b Hb) as [Hid Hpr].
  destruct (cond b); cbn; auto.
Qed.

Lemma init_layout win_w win_h g hist :
  layout_ok (state_of (VirtualControls_Init win_w win_h g hist)).
Proof.
  split; [split; [reflexivity | split; vm_compute; discriminate]|].
  split.
  - intros j b Hj.
    do 5 (destruct j as [|j];
          [injection Hj as <-; split; [reflexivity | now left]|]).
    discriminate Hj.
  - repeat constructor.
Qed.

Lemma register_layout bx by_ bw bh k g hist :
  layout_ok g ->
  layout_ok (state_of (vc_add_button bx by_ bw bh k g hist)).
Proof.
  intros (Hwf & Hreg & Hun). rewrite vc_add_button_run.
  destruct Hwf as [Hlen Hc]. unfold MAX_BUTTONS in *.
  destruct (Z.geb_spec (button_count g) 16) as [Hge | Hlt].
  { cbn. split; [split|split]; assumption. }
  set (c := Z.to_nat (button_count g)).
  set (nb := mkButton bx by_ bw bh k (button_count g) 0).
  assert (Hclt : (c < length (buttons g))%nat) by (subst c; lia).
  assert (Hreg' : registered
            (with_button_count (button_count g + 1)
               (store_button (button_count g) nb g)) =
          registered g ++ [nb]).
  { unfold registered, store_button. cbn.
    replace (Z.to_nat (button_count g + 1)) with (S c) by (subst c; lia).
    fold c. rewrite (take_S_r _ c nb).
    - now rewrite take_insert_ge by lia.
    - now apply list_lookup_insert_eq. }
  assert (Hun' : unused_slots
            (with_button_count (button_count g + 1)
               (store_button (button_count g) nb g)) =
          drop 1 (unused_slots g)).
  { unfold unused_slots, store_button. cbn.
    replace (Z.to_nat (button_count g + 1)) with (S c) by (subst c; lia).
    fold c. rewrite drop_insert_lt by lia.
    now rewrite drop_drop, Nat.add_1_r. }
  cbn [state_of fst snd]. split; [|split].
  - split; cbn; unfold MAX_BUTTONS; [now rewrite length_insert | lia].
  - rewrite Hreg'. intros j b Hj.
    assert (Hlr : length (registered g) = c).
    { unfold registered. fold c. rewrite length_take. lia. }
    destruct (Nat.lt_ge_cases j c) as [Hjc | Hjc].
    + rewrite lookup_app_l in Hj by lia. now apply Hreg.
    + rewrite lookup_app_r in Hj by lia. rewrite Hlr in Hj.
      destruct (j - c)%nat as [|n] eqn:Hd; [|destruct n; discriminate Hj].
      injection Hj as <-. subst nb. cbn. split; [subst c; lia | now left].
  - rewrite Hun'. now apply Forall_drop.
Qed.

Lemma op_result_layout
    (respond : forall R : Type, list Ev -> ExtCall R -> R) op g hist :
  layout_ok g -> layout_ok (fst (op_result respond op g hist)).
Proof.
  intros Hl. pose proof Hl as (Hwf & _).
  destruct op; cbn [op_result forget fst].
  - apply init_layout.
  - now apply register_layout.
  - now apply (layout_ok_ext g).
  - apply (pass_layout _ _ g _ (proj2 (finger_guard_flips tf))
             (finger_event_pass respond tf g hist Hwf) Hl).
  - apply (pass_layout _ _ g _ (proj2 (mouse_guard_flips g mb))
             (mouse_event_pass respond mb g hist Hwf) Hl).
  - destruct (draw_keeps_buttons respond g hist) as (_ & Hb & Hc & _).
    now apply (layout_ok_ext g).
  - destruct (shutdown_spec respond g hist) as (Hs & _).
    rewrite Hs. now apply (layout_ok_ext g).
Qed.

(** X6.  In every state the component can reach, whatever the operations
    and whatever SDL and GL answer: the array has its sixteen slots and the
    count is between 0 and 16, each registered button carries its slot
    number as id and a pressed flag that is 0 or 1, and every slot behind
    the registered ones is all zero. *)
Theorem reachable_layout_ok
    (respond : forall R : Type, list Ev -> ExtCall R -> R) (g : VC) :
  reachable respond g -> layout_ok g.
Proof.
  intros [ops <-].
  assert (H0 : layout_ok vc_initial).
  { split; [split; [reflexivity | split; vm_compute; discriminate]|].
    split; [intros j b Hj; destruct j; discriminate Hj|].
    repeat constructor. }
  revert H0. generalize vc_initial. generalize (@nil Ev).
  induction ops as [|op ops IH]; intros hist g Hl; [exact Hl|].
  cbn [run_ops].
  pose proof (op_result_layout respond op g hist Hl) as H1.
  destruct (op_result respond op g hist) as [g1 d1]. now apply IH.
Qed.

Lemma reachable_layout_ok_witness :
  reachable healthy_driver overlap_state /\ layout_ok overlap_state.
Proof.
  assert (Hr : reachable healthy_driver overlap_state).
  { exists [OpInit 800 600;
            OpFinger (Some (mkFinger SDL_FINGERDOWN (fst on_left)
                              (snd on_left)));
            OpRegister (F32.dec 5 100) (F32.dec 75 100) (F32.dec 12 100)
              (F32.dec 18 100) SDLK_UP].
    vm_compute. reflexivity. }
  split; [exact Hr|]. exact (reachable_layout_ok healthy_driver _ Hr).
Defined.

(* ===================================================================== *)
(** ** What a draw uploads and what it leaves of the GL state *)
(* ===================================================================== *)

Lemma build_verts_flat_map g mid :
  forall pre post,
    buttons g = pre ++ mid ++ post ->
    build_verts g (length mid) (Z.of_nat (length pre)) =
    flat_map (button_quad g) mid.
Proof.
  induction mid as [|b mid IH]; intros pre post Hb; [reflexivity|].
  cbn [length build_verts flat_map].
  rewrite (button_at_middle g pre b (mid ++ post) Hb). f_equal.
  replace (Z.of_nat (length pre) + 1)
    with (Z.of_nat (length (pre ++ [b])))
    by (rewrite length_app; simpl; lia).
  apply (IH (pre ++ [b]) post). rewrite Hb. now rewrite <- app_assoc.
Qed.

Lemma flat_map_quad_length g bs :
  Z.of_nat (length (flat_map (button_quad g) bs)) = 6 * Z.of_nat (length bs).
Proof.
  induction bs as [|b bs IH]; [reflexivity|].
  cbn [flat_map]. rewrite length_app. cbn [length button_quad].
  rewrite Nat2Z.inj_add, IH. cbn [length]. lia.
Qed.

Lemma button_quad_ext g g' b :
  window_w g' = window_w g -> window_h g' = window_h g ->
  button_quad g' b = button_quad g b.
Proof. intros Hw Hh. unfold button_quad. now rewrite Hw, Hh. Qed.

(** X7.  A draw with buttons uploads, in one [glBufferData], the six
    vertices of each registered button in slot order and nothing for the
    slots behind them, gives their size as 24 bytes per vertex, and asks
    [glDrawArrays] for exactly those 6 * button_count vertices. *)
Theorem draw_uploads_registered_buttons
    (respond : forall R : Type, list Ev -> ExtCall R -> R)
    (g : VC) (hist : list Ev) :
  vc_wf g ->
  button_count g <> 0 ->
  let r := VirtualControls_Draw respond g hist in
  buffer_uploads (calls_of r) =
    [(144 * button_count g, flat_map (button_quad g) (registered g))] /\
  drawn (calls_of r) = [6 * button_count g] /\
  Z.of_nat (length (flat_map (button_quad g) (registered g))) =
    6 * button_count g.
Proof.
  intros Hwf Hn r.
  destruct (draw_calls respond g Hn hist)
    as (_ & depth0 & blend0 & _ & _ & _ & _ & _ & Hup & Hdr & _).
  destruct (draw_keeps_buttons respond g hist) as (_ & Hb & Hc & Hw & Hh).
  fold r in Hup, Hdr, Hb, Hc, Hw, Hh.
  assert (Hwf' : vc_wf (state_of r)) by (now apply (vc_wf_ext g)).
  assert (Hv : build_verts (state_of r)
                 (Z.to_nat (button_count (state_of r))) 0 =
               flat_map (button_quad g) (registered g)).
  { rewrite <- (wf_registered_length _ Hwf').
    pose proof (build_verts_flat_map (state_of r) (registered (state_of r))
                  [] (unused_slots (state_of r))
                  (wf_registered_split _ Hwf')) as Hbv.
    change (Z.of_nat (length (@nil VC_Button))) with 0 in Hbv. rewrite Hbv.
    destruct (registered_ext g (state_of r) Hb Hc) as [-> _].
    apply flat_map_ext. intros b. now apply button_quad_ext. }
  rewrite Hv in Hup, Hdr.
  assert (Hlen : Z.of_nat (length (flat_map (button_quad g) (registered g)))
                 = 6 * button_count g).
  { rewrite flat_map_quad_length, (wf_registered_length g Hwf).
    destruct Hwf as [_ Hcnt]. lia. }
  rewrite Hlen in Hup, Hdr. unfold sizeof_Vertex in Hup.
  replace (6 * button_count g * 24) with (144 * button_count g) in Hup
    by lia.
  repeat split; assumption.
Qed.

Lemma draw_uploads_registered_buttons_witness :
  vc_wf left_held /\ button_count left_held <> 0 /\
  drawn (calls_of (VirtualControls_Draw healthy_driver left_held [])) = [30].
Proof.
  assert (Hn : button_count left_held <> 0) by (vm_compute; discriminate).
  split; [exact left_held_wf|]. split; [exact Hn|].
  exact (proj1 (proj2 (draw_uploads_registered_buttons healthy_driver
                         left_held [] left_held_wf Hn))).
Defined.

(** X8.  A draw with buttons asks whether depth test and blending are on,
    and when it returns each of the two is on exactly if it was reported
    on.  It does not ask for anything else: it leaves depth writes enabled,
    program 0 in use and buffer 0 bound, whatever they were before. *)
Theorem draw_restores_depth_test_and_blend
    (respond : forall R : Type, list Ev -> ExtCall R -> R)
    (g : VC) (hist : list Ev) :
  button_count g <> 0 ->
  let r := VirtualControls_Draw respond g hist in
  exists depth0 blend0,
    cap_queries (calls_of r) = [(GL_DEPTH_TEST, depth0); (GL_BLEND, blend0)] /\
    enabled_after GL_DEPTH_TEST (negb (depth0 =? 0)) (cap_changes (calls_of r))
      = negb (depth0 =? 0) /\
    enabled_after GL_BLEND (negb (blend0 =? 0)) (cap_changes (calls_of r))
      = negb (blend0 =? 0) /\
    depth_mask_flags (calls_of r) = [GL_FALSE; GL_TRUE] /\
    used_programs (calls_of r) = [vc_prog (state_of r); 0] /\
    bound_buffers (calls_of r) = [vc_vbo (state_of r); 0].
Proof.
  intros Hn r.
  destruct (draw_calls respond g Hn hist)
    as (_ & depth0 & blend0 & Hq & Hch & Hdm & Hbb & Hup & _).
  fold r in Hq, Hch, Hdm, Hbb, Hup.
  exists depth0, blend0. rewrite Hch.
  repeat split; try assumption.
  - now destruct (depth0 =? 0), (blend0 =? 0).
  - now destruct (depth0 =? 0), (blend0 =? 0).
Qed.

Lemma draw_restores_depth_test_and_blend_witness :
  button_count init_state <> 0 /\
  exists depth0 blend0,
    cap_queries
      (calls_of (VirtualControls_Draw healthy_driver init_state [])) =
      [(GL_DEPTH_TEST, depth0); (GL_BLEND, blend0)].
Proof.
  assert (Hn : button_count init_state <> 0) by (vm_compute; discriminate).
  split; [exact Hn|].
  destruct (draw_restores_depth_test_and_blend healthy_driver init_state []
              Hn) as (depth0 & blend0 & Hq & _).
  now exists depth0, blend0.
Defined.

(** X9.  A draw never pushes an event, reads the clock or asks for a
    scancode, and never changes the buttons, the count or the window size.
    It deletes exactly the shaders it created, and deletes no program and
    no buffer, also when compiling or linking failed.  The shaders are the
    two of the lazy creation, attached to the program it stores, when a
    button is registered and the stored program handle is 0; otherwise it
    creates and attaches none. *)
Theorem draw_is_quiet_and_frees_its_shaders
    (respond : forall R : Type, list Ev -> ExtCall R -> R)
    (g : VC) (hist : list Ev) :
  let r := VirtualControls_Draw respond g hist in
  forallb renderer_call (calls_of r) = true /\
  key_events (calls_of r) = [] /\
  buttons (state_of r) = buttons g /\
  button_count (state_of r) = button_count g /\
  window_w (state_of r) = window_w g /\
  window_h (state_of r) = window_h g /\
  deleted_shaders (calls_of r) = created_shaders (calls_of r) /\
  deleted_programs (calls_of r) = [] /\
  deleted_buffers (calls_of r) = [] /\
  (if (button_count g =? 0) || negb (vc_prog g =? 0)
   then created_shaders (calls_of r) = [] /\
        attached_shaders (calls_of r) = []
   else exists vs fs,
          created_shaders (calls_of r) = [vs; fs] /\
          attached_shaders (calls_of r) =
            [(vc_prog (state_of r), vs); (vc_prog (state_of r), fs)]).
Proof.
  intros r.
  destruct (draw_keeps_buttons respond g hist) as (Hq & Hb & Hc & Hw & Hh).
  fold r in Hq, Hb, Hc, Hw, Hh.
  split; [exact Hq|].
  split; [exact (proj2 (renderer_calls_push_nothing _ Hq))|].
  do 4 (split; [assumption|]).
  destruct (Z.eqb_spec (button_count g) 0) as [Hz | Hn].
  - subst r. rewrite (draw_without_buttons respond g hist Hz). cbn.
    repeat split; reflexivity.
  - destruct (draw_calls respond g Hn hist)
      as (_ & depth0 & blend0 & _ & _ & _ & _ & _ & _ & _ &
          Hdb & Hdp & Hds & Hcr).
    fold r in Hdb, Hdp, Hds, Hcr.
    do 3 (split; [assumption|]).
    destruct (vc_prog g =? 0); exact Hcr.
Qed.

(* ===================================================================== *)
(** ** Init *)
(* ===================================================================== *)

(** X10.  [VirtualControls_Init], from any earlier statics: returns 0 and
    makes no library call; the array it leaves is the five-button layout,
    the same whatever was registered before and whatever the window size;
    the GL handles are kept.  Buttons that were held are forgotten without
    a key-up: for every key, the pushed key-downs not answered by a key-up
    exceed the pressed buttons by the number of buttons that were held. *)
Theorem init_forgets_held_buttons_silently
    (win_w win_h : Z) (g : VC) (hist : list Ev) (k : Z) :
  let r := VirtualControls_Init win_w win_h g hist in
  value_of r = 0 /\
  calls_of r = [] /\
  buttons (state_of r) = buttons init_state /\
  button_count (state_of r) = 5 /\
  window_w (state_of r) = win_w /\ window_h (state_of r) = win_h /\
  vc_prog (state_of r) = vc_prog g /\ vc_vbo (state_of r) = vc_vbo g /\
  forallb (fun b => pressed b =? 0) (buttons (state_of r)) = true /\
  key_balance k (hist ++ calls_of r) (state_of r) =
    key_balance k hist g + held k (registered g).
Proof.
  intros r. repeat (split; [reflexivity|]).
  unfold key_balance. change (calls_of r) with (@nil Ev).
  rewrite app_nil_r.
  change (held k (registered (state_of r))) with 0. lia.
Qed.

(* ===================================================================== *)
(** ** Points that are not finite, and a window of size zero *)
(* ===================================================================== *)

Lemma div_by_zero_not_finite a :
  finite_value (F32.div a (F32.of_int 0)) = false.
Proof. now destruct a as [s | s | | s m e]. Qed.

Lemma non_finite_point_outside
    (b : VC_Button) (nx ny : F32.t) :
  finite_rect b = true ->
  finite_value nx = false \/ finite_value ny = false ->
  point_in_button b nx ny = 0.
Proof.
  unfold finite_rect, point_in_button, F32.ge, F32.le.
  generalize (F32.add (x b) (w b)) (F32.add (y b) (h b)).
  intros xr yr Hr Hp.
  apply andb_true_iff in Hr. destruct Hr as [Hr Hyr].
  apply andb_true_iff in Hr. destruct Hr as [Hr Hy].
  apply andb_true_iff in Hr. destruct Hr as [Hx Hxr].
  destruct Hp as [Hp | Hp].
  - assert (Hf : SFleb (x b) nx && SFleb nx xr = false).
    { destruct nx as [s | [] | | s m e]; try discriminate Hp;
        destruct (x b) as [s1 | s1 | | s1 m1 e1]; try discriminate Hx;
        destruct xr as [s2 | s2 | | s2 m2 e2]; try discriminate Hxr;
        reflexivity. }
    now rewrite Hf.
  - assert (Hf : SFleb (y b) ny && SFleb ny yr = false).
    { destruct ny as [s | [] | | s m e]; try discriminate Hp;
        destruct (y b) as [s1 | s1 | | s1 m1 e1]; try discriminate Hy;
        destruct yr as [s2 | s2 | | s2 m2 e2]; try discriminate Hyr;
        reflexivity. }
    rewrite <- andb_assoc, Hf. now rewrite andb_false_r.
Qed.

(** X11.  A button whose corners are finite contains no point with a
    coordinate that is an infinity or a NaN. *)
Theorem point_in_button_rejects_non_finite
    (b : VC_Button) (nx ny : F32.t) :
  finite_rect b = true ->
  finite_value nx = false \/ finite_value ny = false ->
  point_in_button b nx ny = 0.
Proof. apply non_finite_point_outside. Qed.

Lemma point_in_button_rejects_non_finite_witness :
  finite_rect left_button = true /\
  point_in_button left_button S754_nan (F32.dec 80 100) = 0.
Proof.
  split; [vm_compute; reflexivity|].
  apply point_in_button_rejects_non_finite;
    [vm_compute; reflexivity | left; reflexivity].
Defined.

Lemma pass_selects_nothing cond v g r :
  vc_wf g -> pass cond v g r ->
  (forall b, In b (registered g) -> cond b = false) ->
  calls_of r = [] /\ state_of r = g.
Proof.
  intros Hwf Hp Hall. destruct Hp as (Hs & _ & Hc).
  assert (Hnone : List.filter cond (registered g) = []).
  { clear - Hall. revert Hall. generalize (registered g).
    intros bs. induction bs as [|b bs IH]; intros Hall; [reflexivity|].
    cbn. rewrite (Hall b (or_introl eq_refl)).
    apply IH. intros c Hin. apply Hall. now right. }
  split; [now apply Hc|].
  rewrite Hs, (scan_none _ _ _ Hnone).
  apply with_buttons_same. now apply wf_registered_split.
Qed.

(** X12.  While the stored window width or height is 0, the mouse handler
    divides by zero: the normalized point it computes is not finite, and a
    mouse press then hits no button with finite corners, wherever it is.
    It makes no library call and changes nothing. *)
Theorem mouse_press_with_empty_window_hits_nothing
    (respond : forall R : Type, list Ev -> ExtCall R -> R)
    (mx my : Z) (g : VC) (hist : list Ev) :
  vc_wf g ->
  window_w g = 0 \/ window_h g = 0 ->
  forallb finite_rect (registered g) = true ->
  let mb := mkMouse SDL_PRESSED mx my in
  (finite_value (mouse_nx g mb) = false \/
   finite_value (mouse_ny g mb) = false) /\
  VirtualControls_HandleMouseEvent respond (Some mb) g hist = (tt, g, []).
Proof.
  intros Hwf Hz Hfin mb.
  assert (Hnf : finite_value (mouse_nx g mb) = false \/
                finite_value (mouse_ny g mb) = false).
  { unfold mouse_nx, mouse_ny.
    destruct Hz as [-> | ->]; [left | right]; apply div_by_zero_not_finite. }
  split; [exact Hnf|].
  pose proof (mouse_down_pass respond g hist mx my Hwf) as Hp.
  cbv zeta in Hp. fold mb in Hp.
  destruct (pass_selects_nothing _ _ g _ Hwf Hp) as [Hc Hs].
  - intros b Hin. unfold released_and_hit.
    rewrite forallb_forall in Hfin.
    rewrite (proj2 (hit_false _ _ b)); [apply andb_false_r|].
    apply non_finite_point_outside; auto.
  - destruct (VirtualControls_HandleMouseEvent respond (Some mb) g hist)
      as [[[] g'] d]. cbn in Hc, Hs. now subst.
Qed.

Lemma mouse_press_with_empty_window_hits_nothing_witness :
  vc_wf (with_window 0 600 init_state) /\
  window_w (with_window 0 600 init_state) = 0 /\
  VirtualControls_HandleMouseEvent healthy_driver
    (Some (mkMouse SDL_PRESSED 80 480)) (with_window 0 600 init_state) [] =
  (tt, with_window 0 600 init_state, []).
Proof.
  assert (Hwf : vc_wf (with_window 0 600 init_state))
    by (split; [reflexivity | split; vm_compute; discriminate]).
  split; [exact Hwf|]. split; [reflexivity|].
  apply (mouse_press_with_empty_window_hits_nothing healthy_driver 80 480
           (with_window 0 600 init_state) [] Hwf).
  - left. reflexivity.
  - vm_compute. reflexivity.
Defined.

(** X13.  A mouse press is handled exactly as a finger-down at the point
    (x / window_w, y / window_h): same calls with the same answers, same
    resulting statics. *)
Theorem mouse_press_is_finger_down_at_normalized_point
    (respond : forall R : Type, list Ev -> ExtCall R -> R)
    (mx my : Z) (g : VC) (hist : list Ev) :
  VirtualControls_HandleMouseEvent respond
    (Some (mkMouse SDL_PRESSED mx my)) g hist =
  VirtualControls_HandleFingerEvent respond
    (Some (mkFinger SDL_FINGERDOWN
             (F32.div (F32.of_int mx) (F32.of_int (window_w g)))
             (F32.div (F32.of_int my) (F32.of_int (window_h g)))))
    g hist.
Proof.
  unfold VirtualControls_HandleMouseEvent, VirtualControls_HandleFingerEvent.
  cbn [mb_state mb_x mb_y tf_type tf_x tf_y].
  change (SDL_PRESSED =? SDL_PRESSED) with true.
  change (SDL_FINGERDOWN =? SDL_FINGERDOWN) with true. cbv iota.
  unfold bind at 1. unfold get at 1. cbv beta iota zeta.
  rewrite app_nil_r.
  now destruct (for_each_button _ g hist) as [[[] g'] d].
Qed.

(* ===================================================================== *)
(** ** The fixed-function renderer *)
(* ===================================================================== *)

(** Where the tracker stands while the buttons are drawn. *)
Lemma gl1_run_app cs1 : forall cs2 s,
  GL1.run (cs1 ++ cs2) s =
  match GL1.run cs1 s with Some s' => GL1.run cs2 s' | None => None end.
Proof.
  induction cs1 as [|c cs1 IH]; intros cs2 s; [reflexivity|].
  cbn [app GL1.run]. destruct (GL1.step s c); [apply IH | reflexivity].
Qed.

Lemma gl1_run_draw_button g b s :
  GL1.in_begin s = false ->
  GL1.run (GL1.draw_button g b) s = Some s.
Proof.
  intros Hs. destruct s as [m p mv a ib]. cbn in Hs. subst ib.
  unfold GL1.draw_button, GL1.draw_filled_rect_pixels.
  destruct (pressed b =? 0); reflexivity.
Qed.

Lemma gl1_run_draw_buttons g n : forall i s,
  GL1.in_begin s = false ->
  GL1.run (GL1.draw_buttons g n i) s = Some s.
Proof.
  induction n as [|n IH]; intros i s Hs; [reflexivity|].
  cbn [GL1.draw_buttons].
  rewrite gl1_run_app, (gl1_run_draw_button g _ s Hs).
  now apply IH.
Qed.

Lemma gl1_begins_app m cs1 cs2 :
  GL1.begins m (cs1 ++ cs2) = GL1.begins m cs1 + GL1.begins m cs2.
Proof.
  unfold GL1.begins. rewrite List.filter_app, length_app. lia.
Qed.

Lemma gl1_begins_draw_button m g b :
  m = GL1.GL_QUADS \/ m = GL1.GL_LINE_LOOP ->
  GL1.begins m (GL1.draw_button g b) = 1.
Proof.
  unfold GL1.draw_button, GL1.draw_filled_rect_pixels.
  intros [-> | ->]; destruct (pressed b =? 0); reflexivity.
Qed.

Lemma gl1_begins_draw_buttons m g n : forall i,
  m = GL1.GL_QUADS \/ m = GL1.GL_LINE_LOOP ->
  GL1.begins m (GL1.draw_buttons g n i) = Z.of_nat n.
Proof.
  induction n as [|n IH]; intros i Hm; [reflexivity|].
  cbn [GL1.draw_buttons].
  rewrite gl1_begins_app, (gl1_begins_draw_button m g _ Hm).
  rewrite (IH _ Hm). lia.
Qed.

(** X14.  The calls of [VirtualControls_Draw_GL1] respect the bracketing
    rules of the fixed-function GL, for every state: the attribute stack
    and the matrix stacks of both modes are popped as often as pushed and
    never below where they started, every vertex lies between a [glBegin]
    and its [glEnd], and nothing but vertices and colours is given in
    between.  It opens one quad and one line loop for each registered
    button, and with no button it makes no call at all. *)
Theorem draw_gl1_is_well_bracketed (g : VC) :
  GL1.well_bracketed (GL1.VirtualControls_Draw_GL1 g) = true /\
  GL1.begins GL1.GL_QUADS (GL1.VirtualControls_Draw_GL1 g) =
    Z.max 0 (button_count g) /\
  GL1.begins GL1.GL_LINE_LOOP (GL1.VirtualControls_Draw_GL1 g) =
    Z.max 0 (button_count g) /\
  (GL1.VirtualControls_Draw_GL1 g = [] <-> button_count g = 0).
Proof.
  unfold GL1.VirtualControls_Draw_GL1.
  destruct (Z.eqb_spec (button_count g) 0) as [Hz | Hn].
  { rewrite Hz. repeat split; reflexivity. }
  split; [|split; [|split]].
  - unfold GL1.well_bracketed. rewrite gl1_run_app.
    cbn [GL1.run GL1.step GL1.start GL1.in_begin GL1.mode
         GL1.projection_depth GL1.modelview_depth GL1.attrib_depth].
    rewrite gl1_run_app, gl1_run_draw_buttons by reflexivity.
    reflexivity.
  - rewrite !gl1_begins_app, gl1_begins_draw_buttons by now left.
    change (GL1.begins GL1.GL_QUADS _) with 0 at 1.
    change (GL1.begins GL1.GL_QUADS _) with 0. lia.
  - rewrite !gl1_begins_app, gl1_begins_draw_buttons by now right.
    change (GL1.begins GL1.GL_LINE_LOOP _) with 0 at 1.
    change (GL1.begins GL1.GL_LINE_LOOP _) with 0. lia.
  - split; [intros H; discriminate H | intros H; contradiction].
Qed.

(* ===================================================================== *)
(** ** A draw while the window has no width or no height *)
(* ===================================================================== *)

Lemma scaled_by_zero_is_nan a :
  finite_value a = true ->
  F32.div (F32.mul (F32.of_int 2)
             (F32.of_int (F32.to_int (F32.mul a (F32.of_int 0)))))
          (F32.of_int 0) = S754_nan.
Proof. destruct a as [s | s | | s m e]; try discriminate; reflexivity. Qed.

Lemma scaled_sum_by_zero_is_nan a c :
  finite_value a = true -> finite_value c = true ->
  F32.div (F32.mul (F32.of_int 2)
             (F32.of_int (wrap_int (F32.to_int (F32.mul a (F32.of_int 0)) +
                                    F32.to_int (F32.mul c (F32.of_int 0))))))
          (F32.of_int 0) = S754_nan.
Proof.
  destruct a as [s | s | | s m e]; try discriminate;
    destruct c as [s' | s' | | s' m' e']; try discriminate; reflexivity.
Qed.

(** X15.  While the stored window width is 0, the vertices the shader
    renderer computes for a button with finite x and w all have a NaN as
    x coordinate (the pixel position is 0 and is divided by the width);
    likewise for the y coordinates while the height is 0. *)
Theorem quad_of_empty_window_is_nan (g : VC) (b : VC_Button) :
  (window_w g = 0 ->
   finite_value (x b) = true -> finite_value (w b) = true ->
   forallb (fun v => not_a_number (v_x v)) (button_quad g b) = true) /\
  (window_h g = 0 ->
   finite_value (y b) = true -> finite_value (h b) = true ->
   forallb (fun v => not_a_number (v_y v)) (button_quad g b) = true).
Proof.
  split; intros Hz Ha Hc; unfold button_quad; rewrite Hz; cbv zeta;
    rewrite (scaled_by_zero_is_nan _ Ha),
            (scaled_sum_by_zero_is_nan _ _ Ha Hc);
    reflexivity.
Qed.

Lemma quad_of_empty_window_is_nan_witness :
  window_w (with_window 0 600 init_state) = 0 /\
  finite_value (x left_button) = true /\
  finite_value (w left_button) = true /\
  forallb (fun v => not_a_number (v_x v))
    (button_quad (with_window 0 600 init_state) left_button) = true.
Proof.
  split; [reflexivity|]. split; [vm_compute; reflexivity|].
  split; [vm_compute; reflexivity|].
  apply (proj1 (quad_of_empty_window_is_nan (with_window 0 600 init_state)
                  left_button));
    [reflexivity | vm_compute; reflexivity | vm_compute; reflexivity].
Defined.

(* ===================================================================== *)
(** ** The built-in layout: rectangles that share no point *)
(* ===================================================================== *)

Lemma lex_le_trans (e1 e2 e3 : Z) (m1 m2 m3 : positive) :
  match (e1 ?= e2) with Lt => Lt | Gt => Gt | Eq => (m1 ?= m2)%positive end
    <> Gt ->
  match (e2 ?= e3) with Lt => Lt | Gt => Gt | Eq => (m2 ?= m3)%positive end
    <> Gt ->
  match (e1 ?= e3) with Lt => Lt | Gt => Gt | Eq => (m1 ?= m3)%positive end
    <> Gt.
Proof.
  destruct (Z.compare_spec e1 e2), (Z.compare_spec e2 e3),
    (Z.compare_spec e1 e3); try lia; try congruence;
    destruct (Pos.compare_spec m1 m2), (Pos.compare_spec m2 m3),
      (Pos.compare_spec m1 m3); try lia; congruence.
Qed.

Lemma lex_ge_trans (e1 e2 e3 : Z) (m1 m2 m3 : positive) :
  match (e1 ?= e2) with
  | Lt => Gt | Gt => Lt | Eq => CompOpp (m1 ?= m2)%positive end <> Gt ->
  match (e2 ?= e3) with
  | Lt => Gt | Gt => Lt | Eq => CompOpp (m2 ?= m3)%positive end <> Gt ->
  match (e1 ?= e3) with
  | Lt => Gt | Gt => Lt | Eq => CompOpp (m1 ?= m3)%positive end <> Gt.
Proof.
  destruct (Z.compare_spec e1 e2), (Z.compare_spec e2 e3),
    (Z.compare_spec e1 e3); try lia; try (cbn; congruence);
    destruct (Pos.compare_spec m1 m2), (Pos.compare_spec m2 m3),
      (Pos.compare_spec m1 m3); try lia; cbn; congruence.
Qed.

Lemma SFleb_not_Gt a b :
  SFleb a b = true <-> exists c, SFcompare a b = Some c /\ c <> Gt.
Proof.
  unfold SFleb. destruct (SFcompare a b) as [[]|]; split;
    try reflexivity; try discriminate;
    try (intros _; eexists; split; [reflexivity | discriminate]);
    intros (c & Hc & Hn); congruence.
Qed.

(** [<=] on binary32 values is transitive, also through values that are
    not canonical. *)
Lemma F32_le_trans (a b c : F32.t) :
  F32.le a b = true -> F32.le b c = true -> F32.le a c = true.
Proof.
  unfold F32.le. rewrite !SFleb_not_Gt.
  intros (c1 & H1 & N1) (c2 & H2 & N2).
  destruct a as [sa | sa | | sa ma ea], b as [sb | sb | | sb mb eb],
    c as [sc | sc | | sc mc ec]; cbn in *; try discriminate;
    try (destruct sa); try (destruct sb); try (destruct sc);
    cbn in *;
    try (injection H1 as <-); try (injection H2 as <-);
    try congruence;
    try (eexists; split; [reflexivity | discriminate]).
  all: eexists; split; [reflexivity|].
  all: change (Pos.compare_cont Eq ?p ?q) with (Pos.compare p q) in *.
  - now apply (lex_ge_trans ea eb ec ma mb mc).
  - now apply (lex_le_trans ea eb ec ma mb mc).
Qed.

Lemma contains_bounds b nx ny :
  point_in_button b nx ny <> 0 ->
  F32.le (x b) nx = true /\ F32.le nx (F32.add (x b) (w b)) = true /\
  F32.le (y b) ny = true /\ F32.le ny (F32.add (y b) (h b)) = true.
Proof.
  unfold point_in_button, F32.ge, F32.le.
  destruct (SFleb (x b) nx), (SFleb nx (F32.add (x b) (w b))),
    (SFleb (y b) ny), (SFleb ny (F32.add (y b) (h b)));
    cbn; intros H; try (exfalso; apply H; reflexivity); auto.
Qed.

(** Buttons that are apart have no point in common. *)
Lemma apart_excludes a c nx ny :
  apart a c = true ->
  point_in_button a nx ny <> 0 -> point_in_button c nx ny = 0.
Proof.
  intros Hap Ha.
  destruct (Z.eq_dec (point_in_button c nx ny) 0) as [Hz | Hc];
    [exact Hz | exfalso].
  destruct (contains_bounds a nx ny Ha) as (A1 & A2 & A3 & A4).
  destruct (contains_bounds c nx ny Hc) as (C1 & C2 & C3 & C4).
  unfold apart in Hap.
  rewrite (F32_le_trans _ _ _ C1 A2), (F32_le_trans _ _ _ A1 C2),
    (F32_le_trans _ _ _ C3 A4), (F32_le_trans _ _ _ A3 C4) in Hap.
  discriminate Hap.
Qed.

Lemma apart_sym a c : apart a c = apart c a.
Proof.
  unfold apart.
  destruct (F32.le (x c) (F32.add (x a) (w a))),
    (F32.le (x a) (F32.add (x c) (w c))),
    (F32.le (y c) (F32.add (y a) (h a))),
    (F32.le (y a) (F32.add (y c) (h c))); reflexivity.
Qed.

Lemma forallb_apart_scan cond v a bs :
  forallb (apart a) (scan cond v bs) = forallb (apart a) bs.
Proof.
  induction bs as [|c bs IH]; [reflexivity|].
  cbn. rewrite <- IH. now destruct (cond c).
Qed.

Lemma pairwise_apart_scan cond v bs :
  pairwise_apart (scan cond v bs) = pairwise_apart bs.
Proof.
  induction bs as [|a bs IH]; [reflexivity|].
  change (scan cond v (a :: bs))
    with ((if cond a then set_pressed v a else a) :: scan cond v bs).
  cbn [pairwise_apart]. rewrite IH. f_equal.
  rewrite <- (forallb_apart_scan cond v a bs).
  now destruct (cond a).
Qed.

Lemma forallb_Forall_true {A} (f : A -> bool) l :
  forallb f l = true -> Forall (fun c => f c = true) l.
Proof.
  induction l as [|c l IH]; [constructor|].
  cbn. intros H. apply andb_true_iff in H. destruct H as [Hc Hl].
  constructor; auto.
Qed.

Lemma pairwise_apart_split l1 : forall a l2,
  pairwise_apart (l1 ++ a :: l2) = true ->
  Forall (fun c => apart a c = true) l1 /\
  Forall (fun c => apart a c = true) l2.
Proof.
  induction l1 as [|d l1 IH]; intros a l2 H; cbn in H;
    apply andb_true_iff in H; destruct H as [Hd Hrest].
  - split; [constructor|]. now apply forallb_Forall_true.
  - destruct (IH a l2 Hrest) as [H1 H2]. split; [|exact H2].
    constructor; [|exact H1].
    rewrite forallb_app in Hd. apply andb_true_iff in Hd.
    destruct Hd as [_ Hd]. cbn in Hd. apply andb_true_iff in Hd.
    rewrite apart_sym. tauto.
Qed.

Lemma filter_pressed_and_hit_apart nx ny b l :
  point_in_button b nx ny <> 0 ->
  Forall (fun c => apart b c = true) l ->
  List.filter (pressed_and_hit nx ny) l = [].
Proof.
  intros Hb Hall. induction Hall as [|c l Hc _ IH]; [reflexivity|].
  cbn. unfold pressed_and_hit at 1.
  rewrite (proj2 (hit_false nx ny c) (apart_excludes b c nx ny Hc Hb)).
  now rewrite andb_false_r.
Qed.

(** Among buttons that are pairwise apart, a point in a released button
    lies in no pressed one. *)
Lemma alone_when_apart nx ny bs b :
  pairwise_apart bs = true ->
  List.filter (released_and_hit nx ny) bs = [b] ->
  List.filter (pressed_and_hit nx ny) bs = [].
Proof.
  intros Hap Hf.
  assert (Hin : In b (List.filter (released_and_hit nx ny) bs))
    by (rewrite Hf; now left).
  apply filter_In in Hin. destruct Hin as [Hin Hb].
  unfold released_and_hit in Hb. apply andb_true_iff in Hb.
  destruct Hb as [Hrel Hhit]. apply hit_true in Hhit.
  destruct (in_split b bs Hin) as (l1 & l2 & ->).
  destruct (pairwise_apart_split l1 b l2 Hap) as [H1 H2].
  rewrite List.filter_app. cbn.
  rewrite (filter_pressed_and_hit_apart nx ny b l1 Hhit H1),
    (filter_pressed_and_hit_apart nx ny b l2 Hhit H2).
  unfold pressed_and_hit, is_pressed. now rewrite Hrel.
Qed.

(* ===================================================================== *)
(** ** What the program as written can reach *)
(* ===================================================================== *)

(** Every operation of a host keeps the array in shape and the registered
    rectangles pairwise apart: [VirtualControls_Init] installs five that
    are, and nothing else writes a bound. *)
Lemma op_result_apart
    (respond : forall R : Type, list Ev -> ExtCall R -> R) op g hist :
  host_op op = true ->
  vc_wf g /\ pairwise_apart (registered g) = true ->
  vc_wf (fst (op_result respond op g hist)) /\
  pairwise_apart (registered (fst (op_result respond op g hist))) = true.
Proof.
  intros Hop [Hwf Hap]. destruct op; try discriminate Hop;
    cbn [op_result forget fst].
  - split; [|vm_compute; reflexivity].
    destruct (init_run win_w win_h g hist) as (Hc & Hl & _).
    split; [exact Hl | rewrite Hc; unfold MAX_BUTTONS; lia].
  - split; [exact Hwf | exact Hap].
  - pose proof (finger_event_pass respond tf g hist Hwf) as Hp.
    split; [now apply (pass_wf _ _ _ _ Hwf Hp)|].
    now rewrite (pass_registered _ _ _ _ Hwf Hp), pairwise_apart_scan.
  - pose proof (mouse_event_pass respond mb g hist Hwf) as Hp.
    split; [now apply (pass_wf _ _ _ _ Hwf Hp)|].
    now rewrite (pass_registered _ _ _ _ Hwf Hp), pairwise_apart_scan.
  - destruct (draw_keeps_buttons respond g hist) as (_ & Hb & Hc & _).
    split; [now apply (vc_wf_ext g)|].
    now destruct (registered_ext g _ Hb Hc) as [-> _].
  - destruct (shutdown_spec respond g hist) as (Hs & _).
    rewrite Hs. split; [exact Hwf | exact Hap].
Qed.

Lemma program_reachable_apart
    (respond : forall R : Type, list Ev -> ExtCall R -> R) g :
  program_reachable respond g ->
  vc_wf g /\ pairwise_apart (registered g) = true.
Proof.
  intros (ops & Hops & <-).
  assert (H0 : vc_wf vc_initial /\
               pairwise_apart (registered vc_initial) = true).
  { split; [|reflexivity].
    split; [reflexivity | split; vm_compute; discriminate]. }
  revert Hops H0. generalize vc_initial. generalize (@nil Ev).
  induction ops as [|op ops IH]; intros hist g Hops H0; [exact H0|].
  cbn in Hops. apply andb_true_iff in Hops. destruct Hops as [Hop Hops].
  cbn [run_ops].
  pose proof (op_result_apart respond op g hist Hop H0) as H1.
  destruct (op_result respond op g hist) as [g1 d1]. now apply IH.
Qed.

(** Press then release at a point that lies in exactly one released button
    and in no pressed one. *)
Lemma roundtrip_when_alone
    (respond : forall R : Type, list Ev -> ExtCall R -> R)
    (nx ny : F32.t) (g : VC) (hist : list Ev) (i : nat) (b : VC_Button) :
  vc_wf g ->
  registered g !! i = Some b ->
  List.filter (released_and_hit nx ny) (registered g) = [b] ->
  List.filter (pressed_and_hit nx ny) (registered g) = [] ->
  let r1 := VirtualControls_HandleFingerEvent respond
              (Some (mkFinger SDL_FINGERDOWN nx ny)) g hist in
  let r2 := VirtualControls_HandleFingerEvent respond
              (Some (mkFinger SDL_FINGERUP nx ny)) (state_of r1)
              (hist ++ calls_of r1) in
  pressed b = 0 /\
  key_events (calls_of r1) = [key_down (key b)] /\
  buttons (state_of r1) !! i = Some (set_pressed 1 b) /\
  key_events (calls_of r2) = [key_up (key b)] /\
  state_of r2 = g.
Proof.
  intros Hwf Hi Hf Hq r1 r2.
  pose proof (finger_down_pass respond g hist nx ny Hwf) as Hp1.
  fold r1 in Hp1.
  pose proof (pass_wf _ _ _ _ Hwf Hp1) as Hwf1.
  pose proof (finger_up_pass respond (state_of r1) (hist ++ calls_of r1)
                nx ny Hwf1) as Hp2.
  fold r2 in Hp2.
  destruct (pass_single _ _ _ _ i b Hwf Hp1 Hi Hf) as [Hs1 He1].
  destruct (press_release_roundtrip nx ny (registered g) b Hf Hq)
    as [Hfired Hback].
  assert (Hb : released_and_hit nx ny b = true).
  { assert (In b (List.filter (released_and_hit nx ny) (registered g)))
      as Hin by (rewrite Hf; now left).
    apply filter_In in Hin. tauto. }
  split; [|split; [exact He1|split; [|split]]].
  - unfold released_and_hit in Hb. apply andb_true_iff in Hb.
    now apply Z.eqb_eq.
  - rewrite (pass_lookup _ _ _ _ i b Hp1 Hi). now rewrite Hb.
  - destruct Hp2 as (_ & He2 & _). rewrite He2.
    rewrite (pass_registered _ _ _ _ Hwf Hp1), Hfired. reflexivity.
  - destruct Hp2 as (Hs2 & _). rewrite Hs2.
    rewrite (pass_registered _ _ _ _ Hwf Hp1), (pass_unused _ _ _ _ Hwf Hp1).
    rewrite Hback, <- (wf_registered_split g Hwf).
    rewrite (pass_frame _ _ _ _ Hp1), with_buttons_twice.
    now apply with_buttons_same.
Qed.

(** C5.  In every state the program can reach, and whatever SDL and GL
    answer: if exactly one registered button is released and passes the
    rectangle test at (nx, ny), a finger-down at (nx, ny) pushes exactly
    one key event, the key-down of that button, and leaves its flag at 1;
    the finger-up at the same point pushes exactly one key event, its
    key-up; and the statics are then what they were, the button released.
    The rectangles of the built-in layout share no point, so no pressed
    button is under the finger. *)
Theorem finger_down_up_roundtrip
    (respond : forall R : Type, list Ev -> ExtCall R -> R)
    (nx ny : F32.t) (g : VC) (hist : list Ev) (i : nat) (b : VC_Button) :
  program_reachable respond g ->
  registered g !! i = Some b ->
  List.filter (fun c => (pressed c =? 0) && negb (point_in_button c nx ny =? 0))
    (registered g) = [b] ->
  let r1 := VirtualControls_HandleFingerEvent respond
              (Some (mkFinger SDL_FINGERDOWN nx ny)) g hist in
  let r2 := VirtualControls_HandleFingerEvent respond
              (Some (mkFinger SDL_FINGERUP nx ny)) (state_of r1)
              (hist ++ calls_of r1) in
  pressed b = 0 /\
  List.filter (fun c => negb (pressed c =? 0) &&
                        negb (point_in_button c nx ny =? 0))
    (registered g) = [] /\
  key_events (calls_of r1) = [key_down (key b)] /\
  pressed <$> buttons (state_of r1) !! i = Some 1 /\
  geometry <$> buttons (state_of r1) !! i = Some (geometry b) /\
  key_events (calls_of r2) = [key_up (key b)] /\
  pressed <$> buttons (state_of r2) !! i = Some 0 /\
  state_of r2 = g.
Proof.
  intros Hreach Hi Hf r1 r2.
  destruct (program_reachable_apart respond g Hreach) as [Hwf Hap].
  change (List.filter (released_and_hit nx ny) (registered g) = [b]) in Hf.
  pose proof (alone_when_apart nx ny (registered g) b Hap Hf) as Hq.
  destruct (roundtrip_when_alone respond nx ny g hist i b Hwf Hi Hf Hq)
    as (Hrel & He1 & Hs1 & He2 & Hs2).
  fold r1 in He1, Hs1, He2, Hs2. fold r2 in He2, Hs2.
  split; [exact Hrel|]. split; [exact Hq|]. split; [exact He1|].
  split; [now rewrite Hs1|]. split; [now rewrite Hs1|].
  split; [exact He2|]. split; [|exact Hs2].
  rewrite Hs2.
  assert (Hbi : buttons g !! i = Some b).
  { rewrite (wf_registered_split g Hwf).
    rewrite lookup_app_l; [exact Hi | now apply lookup_lt_Some in Hi]. }
  now rewrite Hbi; cbn; rewrite Hrel.
Qed.

Lemma finger_down_up_roundtrip_witness :
  program_reachable healthy_driver init_state /\
  state_of
    (VirtualControls_HandleFingerEvent healthy_driver
       (Some (mkFinger SDL_FINGERUP (fst on_left) (snd on_left)))
       (state_of
          (VirtualControls_HandleFingerEvent healthy_driver
             (Some (mkFinger SDL_FINGERDOWN (fst on_left) (snd on_left)))
             init_state []))
       ([] ++
        calls_of
          (VirtualControls_HandleFingerEvent healthy_driver
             (Some (mkFinger SDL_FINGERDOWN (fst on_left) (snd on_left)))
             init_state []))) = init_state.
Proof.
  assert (Hr : program_reachable healthy_driver init_state).
  { exists [OpInit 800 600]. split; vm_compute; reflexivity. }
  split; [exact Hr|].
  destruct (finger_down_up_roundtrip healthy_driver (fst on_left)
              (snd on_left) init_state [] 0
              left_button Hr) as (_ & _ & _ & _ & _ & _ & _ & Hs).
  - reflexivity.
  - vm_compute. reflexivity.
  - exact Hs.
Defined.
